(** * PyBaseballDataValidator: tiered batting-average fallback and player-record repair

    Shallow embedding of [src/utils/data_validator.py].

    - Python floats are IEEE-754 binary64 values, modelled with the Standard
      Library's [spec_float] and its correctly rounded operations.
    - A pandas Series is a list of cells; a cell is a number, a string or the
      object-dtype [None].  A float64 null is the number NaN.
    - A DataFrame has a default RangeIndex: a row count and an ordered list
      of named columns.  Column labels are ASCII strings.
    - The validator instance is a state: its cache dictionary, and the number
      of times the wall clock was read.  The clock and the external
      pitch-data provider are an environment. Logging is not modelled. *)

From Stdlib Require Import ZArith Bool List String Ascii SpecFloat Lia.
From stdpp Require Import gmap strings list.

Open Scope Z_scope.

(** ** Binary64 floats *)

Module F64.

Definition prec : Z := 53.
Definition emax : Z := 1024.

Definition float := spec_float.

(** An integer converted to a float (exact below 2^53). *)
Definition of_Z (n : Z) : float := binary_normalize prec emax n 0 false.

Definition div : float -> float -> float := SFdiv prec emax.
Definition eqb : float -> float -> bool := SFeqb.
Definition ltb : float -> float -> bool := SFltb.
Definition leb : float -> float -> bool := SFleb.

Definition is_nan (f : float) : bool :=
  match f with S754_nan => true | _ => false end.

Definition nan : float := S754_nan.
Definition zero : float := S754_zero false.
Definition one : float := S754_finite false 4503599627370496 (-52).

(** The float a decimal literal [num/den] denotes when both are exactly
    representable: the nearest binary64 value of the quotient. *)
Definition decimal (num den : Z) : float := div (of_Z num) (of_Z den).

(** [0 <= f <= 1] as Python evaluates it. *)
Definition in_unit (f : float) : bool := leb zero f && leb f one.

(** A well-formed binary64 value: a finite one has its canonical mantissa
    and exponent. *)
Definition valid (f : float) : bool := valid_binary prec emax f.

End F64.

Abbreviation float := F64.float.

(** ** Exceptions and results *)

(** The exceptions the code can meet, all subclasses of [Exception]: a
    comparison or division on a wrong type, a value of the wrong shape, a
    missing key or column, and whatever the provider raises. *)
Inductive exn :=
  | TypeError
  | ValueError
  | KeyError
  | ProviderError.

Inductive res (A : Type) :=
  | Ok (a : A)
  | Raise (e : exn).
Arguments Ok {A} a.
Arguments Raise {A} e.

Definition res_bind {A B} (m : res A) (k : A -> res B) : res B :=
  match m with
  | Ok a => k a
  | Raise e => Raise e
  end.

Fixpoint res_mapM {A B} (f : A -> res B) (l : list A) : res (list B) :=
  match l with
  | [] => Ok []
  | a :: l' =>
      res_bind (f a) (fun b => res_bind (res_mapM f l') (fun bs => Ok (b :: bs)))
  end.

(** ** Series and tables *)

(** What a cell holds: [None], a string, or a number.  Numbers are floats:
    a column of integers is read as the floats of its entries, which is what
    it holds once a fallback has been assigned to it. *)
Inductive cell :=
  | CNone
  | CStr (s : string)
  | CNum (f : float).

Definition Series := list cell.

(** A table: its number of rows, and its columns in order, each a label
    with its cells.  The tables meant are those of a dictionary of lists:
    the labels are pairwise distinct ([distinct_labels] below) and the rows
    carry the default labels 0, 1, ..., so that a label selects one series
    and a fresh series is assigned row by row. *)
Record DataFrame := mkDataFrame {
  nrows : nat;
  columns : list (string * Series)
}.

(** [pd.DataFrame()] *)
Definition DataFrame_new : DataFrame := mkDataFrame 0 [].

(** [df.empty]: some axis has length zero. *)
Definition df_empty (df : DataFrame) : bool :=
  Nat.eqb (nrows df) 0 || Nat.eqb (length (columns df)) 0.

Definition column_names (df : DataFrame) : list string := map fst (columns df).

(** No label occurs twice. *)
Definition distinct_labels (df : DataFrame) : Prop := NoDup (column_names df).

Fixpoint assoc_get (name : string) (cols : list (string * Series)) : option Series :=
  match cols with
  | [] => None
  | (n, s) :: cols' => if String.eqb n name then Some s else assoc_get name cols'
  end.

Fixpoint assoc_set (name : string) (s : Series) (cols : list (string * Series))
  : list (string * Series) :=
  match cols with
  | [] => [(name, s)]
  | (n, s0) :: cols' =>
      if String.eqb n name then (n, s) :: cols' else (n, s0) :: assoc_set name s cols'
  end.

(** [df[name]] *)
Definition get_col (name : string) (df : DataFrame) : option Series :=
  assoc_get name (columns df).

(** [name in df.columns] *)
Definition has_col (name : string) (df : DataFrame) : bool :=
  match get_col name df with Some _ => true | None => false end.

(** [df[name] = s]: overwrite in place, or append a new last column. *)
Definition set_col (name : string) (s : Series) (df : DataFrame) : DataFrame :=
  mkDataFrame (nrows df) (assoc_set name s (columns df)).

(** ** Column-name matching: ['avg' in col.lower() or 'average' in col.lower()] *)

Definition lower_ascii (c : ascii) : ascii :=
  let n := nat_of_ascii c in
  if Nat.leb 65 n && Nat.leb n 90 then ascii_of_nat (n + 32) else c.

Fixpoint lower (s : string) : string :=
  match s with
  | EmptyString => EmptyString
  | String c s' => String (lower_ascii c) (lower s')
  end.

Fixpoint starts_with (p s : string) : bool :=
  match p, s with
  | EmptyString, _ => true
  | String a p', String b s' => Ascii.eqb a b && starts_with p' s'
  | String _ _, EmptyString => false
  end.

(** [sub in s] *)
Fixpoint contains (sub s : string) : bool :=
  starts_with sub s ||
  match s with
  | EmptyString => false
  | String _ s' => contains sub s'
  end.

Definition is_avg_column (col : string) : bool :=
  contains "avg" (lower col) || contains "average" (lower col).

(** ** The validator's constants *)

(** [self.league_average = 0.244] *)
Definition league_average : float := S754_finite false 8791026472627208 (-55).

(** ** Elementwise pandas operations *)

(** [series.isnull()] *)
Definition cell_isnull (c : cell) : bool :=
  match c with
  | CNone => true
  | CStr _ => false
  | CNum f => F64.is_nan f
  end.

(** One element of
    [series.isnull() | (series == 0) | (series < 0) | (series > 1.0)].
    Ordering a string against a number raises; a null compares false. *)
Definition invalid_cell (c : cell) : res bool :=
  match c with
  | CNone => Ok true
  | CStr _ => Raise TypeError
  | CNum f => Ok (F64.is_nan f || F64.eqb f F64.zero || F64.ltb f F64.zero || F64.ltb F64.one f)
  end.

Definition invalid_mask (s : Series) : res (list bool) := res_mapM invalid_cell s.

(** One element of [series.isnull() | (series < 0) | (series > 1.0)]. *)
Definition remaining_cell (c : cell) : res bool :=
  match c with
  | CNone => Ok true
  | CStr _ => Raise TypeError
  | CNum f => Ok (F64.is_nan f || F64.ltb f F64.zero || F64.ltb F64.one f)
  end.

(** [mask.any()] *)
Definition mask_any (mask : list bool) : bool := existsb (fun b => b) mask.

(** [series.loc[mask] = v] *)
Fixpoint loc_assign (s : Series) (mask : list bool) (v : float) : Series :=
  match s, mask with
  | c :: s', b :: mask' => (if b then CNum v else c) :: loc_assign s' mask' v
  | _, _ => s
  end.

(** [series.replace(0, np.nan)] *)
Definition replace_zero_nan (s : Series) : Series :=
  map (fun c => match c with
                | CNum f => if F64.eqb f F64.zero then CNum F64.nan else c
                | _ => c
                end) s.

(** One element of [a / b].  Where either operand is null ([None] or NaN)
    the quotient is NaN, whatever the other operand is: an object column is
    divided on the pairs without a null only.  Two numbers divide; a string
    next to a non-null operand raises. *)
Definition cell_div (a b : cell) : res cell :=
  if cell_isnull a || cell_isnull b then Ok (CNum F64.nan)
  else
    match a, b with
    | CNum x, CNum y => Ok (CNum (F64.div x y))
    | _, _ => Raise TypeError
    end.

Fixpoint series_div (a b : Series) : res Series :=
  match a, b with
  | x :: a', y :: b' =>
      res_bind (cell_div x y) (fun q =>
      res_bind (series_div a' b') (fun qs => Ok (q :: qs)))
  | _, _ => Ok []
  end.

(** [series.fillna(v)] *)
Definition fillna (s : Series) (v : float) : Series :=
  map (fun c => if cell_isnull c then CNum v else c) s.

(** [series.isin(hit_events)] *)
Definition cell_isin (c : cell) (l : list string) : bool :=
  match c with
  | CStr s => existsb (String.eqb s) l
  | _ => false
  end.

Definition hit_events : list string := ["single"; "double"; "triple"; "home_run"]%string.

(** Keep the rows selected by a mask. *)
Fixpoint select (mask : list bool) (s : Series) : Series :=
  match mask, s with
  | b :: mask', c :: s' => if b then c :: select mask' s' else select mask' s'
  | _, _ => []
  end.

Definition select_rows (mask : list bool) (df : DataFrame) : DataFrame :=
  mkDataFrame (length (List.filter (fun b => b) mask))
              (map (fun '(n, s) => (n, select mask s)) (columns df)).

(** Two group keys denote the same group. *)
Definition key_eqb (a b : cell) : bool :=
  match a, b with
  | CStr x, CStr y => String.eqb x y
  | CNum x, CNum y => F64.eqb x y
  | _, _ => false
  end.

(** ** Event-based averages *)

(** [_calc_overall_avg_from_events] (and its per-player twin): hits over rows. *)
Definition _calc_overall_avg_from_events (data : DataFrame) (hits_in : list string)
  : res float :=
  if df_empty data then Ok league_average
  else
    let total_abs := Z.of_nat (nrows data) in
    match get_col "events" data with
    | None => Raise KeyError
    | Some ev =>
        let hits := Z.of_nat (length (List.filter (fun c => cell_isin c hits_in) ev)) in
        Ok (if 0 <? total_abs then F64.div (F64.of_Z hits) (F64.of_Z total_abs)
            else league_average)
    end.

Definition _calc_player_avg_from_events (player_data : DataFrame) (hits_in : list string)
  : res float :=
  _calc_overall_avg_from_events player_data hits_in.

(** [_calculate_avg_from_events]: grouped by [player_name] when present; a
    null player name belongs to no group and is filled with the league
    average.  When every name is null there is no group at all: [apply]
    gives an empty frame, and [map] raises on it. *)
Definition _calculate_avg_from_events (data : DataFrame) : res Series :=
  if negb (has_col "events" data) then Ok (repeat (CNum league_average) (nrows data))
  else
    match get_col "player_name" data with
    | Some names =>
        if forallb cell_isnull names then Raise ValueError
        else
          res_bind
            (res_mapM (fun key =>
               if cell_isnull key then Ok (CNum F64.nan)
               else
                 res_bind
                   (_calc_player_avg_from_events
                      (select_rows (map (key_eqb key) names) data) hit_events)
                   (fun v => Ok (CNum v)))
              names)
            (fun mapped => Ok (fillna mapped league_average))
    | None =>
        res_bind (_calc_overall_avg_from_events data hit_events) (fun v =>
        Ok (repeat (CNum v) (nrows data)))
    end.

(** [_calculate_batting_average] *)
Definition _calculate_batting_average (data : DataFrame) : res DataFrame :=
  let result_data := data in
  match get_col "hits" data, get_col "at_bats" data with
  | Some hits, Some at_bats =>
      let at_bats_nonzero := replace_zero_nan at_bats in
      res_bind (series_div hits at_bats_nonzero) (fun q =>
      let result_data := set_col "calculated_avg" q result_data in
      Ok (set_col "calculated_avg" (fillna q league_average) result_data))
  | _, _ =>
      if has_col "events" data then
        res_bind (_calculate_avg_from_events data) (fun s =>
        Ok (set_col "calculated_avg" s result_data))
      else
        Ok (set_col "calculated_avg" (repeat (CNum league_average) (nrows data)) result_data)
  end.

(** [_apply_final_fallback] (tier 3) *)
Definition _apply_final_fallback (series : Series) : res Series :=
  res_bind (invalid_mask series) (fun mask =>
  if mask_any mask then Ok (loc_assign series mask league_average) else Ok series).

(** ** The validator instance and its environment *)

(** A cache slot is one of the two dictionaries the class stores:
    [{'previous_avg': v, 'timestamp': t}] or [{'value': v, 'timestamp': t}].
    Times are microseconds. *)
Inductive CacheEntry :=
  | PreviousAvg (previous_avg : float) (timestamp : Z)
  | SeasonAvg (value : float) (timestamp : Z).

Definition timestamp_of (e : CacheEntry) : Z :=
  match e with
  | PreviousAvg _ t => t
  | SeasonAvg _ t => t
  end.

Record Validator := mkValidator {
  cache : gmap string CacheEntry;
  clock_reads : nat
}.

(** What [pyb.statcast_batter] does on one call. *)
Inductive FetchResult :=
  | FetchRaises
  | FetchNone
  | FetchData (df : DataFrame).

Record Env := mkEnv {
  (** the k-th reading of [datetime.now()] *)
  clock : nat -> Z;
  (** the provider, given the clock readings that make the start and end
      dates, and the player *)
  statcast_batter : Z -> Z -> string -> FetchResult;
  (** [cache_duration_hours] of [__init__] *)
  cache_duration_hours : Z
}.

(** State and exceptions. *)
Definition M (A : Type) : Type := Validator -> res A * Validator.

Definition ret {A} (a : A) : M A := fun v => (Ok a, v).

Definition bind {A B} (m : M A) (k : A -> M B) : M B :=
  fun v =>
    match m v with
    | (Ok a, v') => k a v'
    | (Raise e, v') => (Raise e, v')
    end.

Definition lift {A} (r : res A) : M A := fun v => (r, v).

(** [try: m except Exception: handler] *)
Definition try_except {A} (m : M A) (handler : exn -> M A) : M A :=
  fun v =>
    match m v with
    | (Ok a, v') => (Ok a, v')
    | (Raise e, v') => handler e v'
    end.

Declare Scope validator_scope.
Delimit Scope validator_scope with validator.
Notation "x <- m ;; k" := (bind m (fun x => k))
  (at level 100, m at next level, right associativity) : validator_scope.
Open Scope validator_scope.

Definition get_cache : M (gmap string CacheEntry) := fun v => (Ok (cache v), v).

Definition cache_store (key : string) (e : CacheEntry) : M unit :=
  fun v => (Ok tt, mkValidator (<[key := e]> (cache v)) (clock_reads v)).

(** Truthiness of an optional string: [None] and [''] are false. *)
Definition truthy_id (player_id : option string) : option string :=
  match player_id with
  | Some s => if String.eqb s "" then None else Some s
  | None => None
  end.

Section WithEnv.

Variable env : Env.

(** [timedelta(hours=cache_duration_hours)] *)
Definition cache_duration : Z := cache_duration_hours env * 3600000000.

Definition datetime_now : M Z :=
  fun v => (Ok (clock env (clock_reads v)), mkValidator (cache v) (S (clock_reads v))).

(** [_is_cache_valid] *)
Definition _is_cache_valid (timestamp : Z) : M bool :=
  now <- datetime_now ;;
  ret (now - timestamp <? cache_duration).

(** [_apply_previous_game_fallback] (tier 1) *)
Definition _apply_previous_game_fallback (series : Series) (player_id : option string)
  : M Series :=
  c <- get_cache ;;
  match truthy_id player_id with
  | Some pid =>
      match c !! pid with
      | Some (PreviousAvg previous_avg timestamp) =>
          live <- _is_cache_valid timestamp ;;
          if live then
            mask <- lift (invalid_mask series) ;;
            ret (loc_assign series mask previous_avg)
          else ret series
      | _ => ret series
      end
  | None => ret series
  end.

(** [_get_player_season_average] *)
Definition _get_player_season_average (player_id : string) : M (option float) :=
  let cache_key := ("season_avg_" ++ player_id)%string in
  let fetch : M (option float) :=
    try_except
      (current_year <- datetime_now ;;
       end_date <- datetime_now ;;
       match statcast_batter env current_year end_date player_id with
       | FetchRaises => lift (Raise ProviderError)
       | FetchNone => ret None
       | FetchData season_data =>
           if df_empty season_data then ret None
           else
             season_avg <- lift (_calc_overall_avg_from_events season_data hit_events) ;;
             now <- datetime_now ;;
             _ <- cache_store cache_key (SeasonAvg season_avg now) ;;
             ret (Some season_avg)
       end)
      (fun _ => ret None) in
  c <- get_cache ;;
  match c !! cache_key with
  | Some cached_entry =>
      live <- _is_cache_valid (timestamp_of cached_entry) ;;
      if live then
        match cached_entry with
        | SeasonAvg value _ => ret (Some value)
        | PreviousAvg _ _ => lift (Raise KeyError)
        end
      else fetch
  | None => fetch
  end.

(** [_apply_season_average_fallback] (tier 2) *)
Definition _apply_season_average_fallback (series : Series) (player_id : option string)
  : M Series :=
  match truthy_id player_id with
  | Some pid =>
      try_except
        (season <- _get_player_season_average pid ;;
         match season with
         | Some season_avg =>
             mask <- lift (invalid_mask series) ;;
             if mask_any mask then ret (loc_assign series mask season_avg)
             else ret series
         | None => ret series
         end)
        (fun _ => ret series)
  | None => ret series
  end.

(** [_apply_batting_average_fallback]: the three-tier cascade on one column. *)
Definition _apply_batting_average_fallback
  (avg_series : Series) (player_id : option string) (column_name : string) : M Series :=
  let validated_series := avg_series in
  mask <- lift (invalid_mask validated_series) ;;
  if negb (mask_any mask) then ret validated_series
  else
    validated_series <- _apply_previous_game_fallback validated_series player_id ;;
    validated_series <- _apply_season_average_fallback validated_series player_id ;;
    validated_series <- lift (_apply_final_fallback validated_series) ;;
    _ <- lift (res_mapM remaining_cell validated_series) ;;
    ret validated_series.

(** The loop of [validate_batting_averages] over the average columns.
    [validated_data[col]] is the series under the label [col], the labels
    being distinct. *)
Fixpoint validate_columns (avg_columns : list string) (player_id : option string)
  (validated_data : DataFrame) : M DataFrame :=
  match avg_columns with
  | [] => ret validated_data
  | col :: rest =>
      match get_col col validated_data with
      | Some s =>
          s' <- _apply_batting_average_fallback s player_id col ;;
          validate_columns rest player_id (set_col col s' validated_data)
      | None => validate_columns rest player_id validated_data
      end
  end.

(** [validate_batting_averages] *)
Definition validate_batting_averages (data : option DataFrame) (player_id : option string)
  : M DataFrame :=
  match data with
  | None => ret DataFrame_new
  | Some data =>
      if df_empty data then ret DataFrame_new
      else
        let validated_data := data in
        let avg_columns := List.filter is_avg_column (column_names validated_data) in
        match avg_columns with
        | [] =>
            validated_data <- lift (_calculate_batting_average validated_data) ;;
            validate_columns ["calculated_avg"%string] player_id validated_data
        | _ => validate_columns avg_columns player_id validated_data
        end
  end.

(** [cache_player_average] *)
Definition cache_player_average (player_id : option string) (batting_avg : option float)
  : M unit :=
  match truthy_id player_id, batting_avg with
  | Some pid, Some v =>
      if F64.leb F64.zero v && F64.leb v F64.one then
        now <- datetime_now ;;
        cache_store pid (PreviousAvg v now)
      else ret tt
  | _, _ => ret tt
  end.

(** [clear_cache] *)
Definition clear_cache : M unit :=
  fun v => (Ok tt, mkValidator ∅ (clock_reads v)).

End WithEnv.

(** [PyBaseballDataValidator(...)]: an empty cache. *)
Definition Validator_new : Validator := mkValidator ∅ 0.

(** ** Player records *)

(** The values a player dictionary holds. *)
Inductive pyval :=
  | VNone
  | VStr (s : string)
  | VInt (z : Z)
  | VFloat (f : float).

Abbreviation PlayerData := (gmap string pyval).

(** [bool(v)] *)
Definition truthy (v : pyval) : bool :=
  match v with
  | VNone => false
  | VStr s => negb (String.eqb s "")
  | VInt z => negb (z =? 0)
  | VFloat f => negb (F64.eqb f F64.zero)
  end.

(** An integer equals a float when they denote the same number. *)
Definition int_float_eqb (z : Z) (f : float) : bool :=
  match f with
  | S754_zero _ => z =? 0
  | S754_finite s m e =>
      let sm := if s then Z.neg m else Z.pos m in
      if 0 <=? e then z =? sm * 2 ^ e else z * 2 ^ (- e) =? sm
  | _ => false
  end.

(** [a == b] *)
Definition py_eqb (a b : pyval) : bool :=
  match a, b with
  | VNone, VNone => true
  | VStr x, VStr y => String.eqb x y
  | VInt x, VInt y => x =? y
  | VFloat x, VFloat y => F64.eqb x y
  | VInt x, VFloat y => int_float_eqb x y
  | VFloat x, VInt y => int_float_eqb y x
  | _, _ => false
  end.

(** [v < 0] *)
Definition py_lt_zero (v : pyval) : res bool :=
  match v with
  | VInt z => Ok (z <? 0)
  | VFloat f => Ok (F64.ltb f F64.zero)
  | _ => Raise TypeError
  end.

(** [v > 1] *)
Definition py_gt_one (v : pyval) : res bool :=
  match v with
  | VInt z => Ok (1 <? z)
  | VFloat f => Ok (F64.ltb F64.one f)
  | _ => Raise TypeError
  end.

(** [required_fields], in the order the dictionary literal lists them. *)
Definition required_fields : list (string * pyval) :=
  [ ("name", VStr "Unknown Player");
    ("player_id", VNone);
    ("position", VStr "Unknown");
    ("team", VStr "Free Agent");
    ("batting_avg", VFloat league_average) ]%string.

(** One round of the defaults loop. *)
Definition apply_default (validated_data : PlayerData) (fd : string * pyval) : PlayerData :=
  match validated_data !! fst fd with
  | None | Some VNone => <[fst fd := snd fd]> validated_data
  | Some _ => validated_data
  end.

(** The condition of one quality point:
    [player_data.get(field) and player_data[field] != sentinel]. *)
Definition quality_point (player_data : PlayerData) (field : string) (sentinel : option pyval)
  : Z :=
  match player_data !! field with
  | Some v =>
      if truthy v && match sentinel with
                     | Some d => negb (py_eqb v d)
                     | None => true
                     end
      then 1 else 0
  | None => 0
  end.

Definition quality_score (player_data : PlayerData) : Z :=
  quality_point player_data "name" (Some (VStr "Unknown Player"))
  + quality_point player_data "player_id" None
  + quality_point player_data "position" (Some (VStr "Unknown"))
  + quality_point player_data "team" (Some (VStr "Free Agent"))
  + quality_point player_data "batting_avg" (Some (VFloat league_average)).

(** [_assess_data_quality] *)
Definition _assess_data_quality (player_data : PlayerData) : string :=
  let total_fields := 5 in
  let quality_percentage := F64.div (F64.of_Z (quality_score player_data)) (F64.of_Z total_fields) in
  if F64.leb (F64.decimal 8 10) quality_percentage then "HIGH"
  else if F64.leb (F64.decimal 6 10) quality_percentage then "MEDIUM"
  else if F64.leb (F64.decimal 4 10) quality_percentage then "LOW"
  else "INSUFFICIENT_DATA".

(** [_get_default_player_data] *)
Definition _get_default_player_data : PlayerData :=
  <["name" := VStr "Unknown Player"]>
  (<["player_id" := VNone]>
  (<["position" := VStr "Unknown"]>
  (<["team" := VStr "Free Agent"]>
  (<["batting_avg" := VFloat league_average]>
  (<["data_quality" := VStr "INSUFFICIENT_DATA"]> ∅))))).

(** [validate_player_data] *)
Definition validate_player_data (player_data : option PlayerData) : res PlayerData :=
  match player_data with
  | None => Ok _get_default_player_data
  | Some player_data =>
      if Nat.eqb (size player_data) 0 then Ok _get_default_player_data
      else
        let validated_data := fold_left apply_default required_fields player_data in
        res_bind
          (match validated_data !! "batting_avg" with
           | Some avg =>
               res_bind
                 (match avg with
                  | VNone => Ok true
                  | _ =>
                      res_bind (py_lt_zero avg) (fun neg =>
                      if neg then Ok true else py_gt_one avg)
                  end)
                 (fun bad =>
                    Ok (if bad then <["batting_avg" := VFloat league_average]> validated_data
                        else validated_data))
           | None => Ok validated_data
           end)
          (fun validated_data =>
             Ok (<["data_quality" := VStr (_assess_data_quality validated_data)]> validated_data))
  end.

(** ** Notions used to state the properties *)

(** The four invalid shapes of a number: NaN, zero, negative, above one. *)
Definition invalid_float (f : float) : bool :=
  F64.is_nan f || F64.eqb f F64.zero || F64.ltb f F64.zero || F64.ltb F64.one f.

(** The number a float denotes lies between 0 and 1: it is a zero, or
    [m * 2^e] with [m * 2^e <= 1]. *)
Definition denotes_in_unit (f : float) : Prop :=
  match f with
  | S754_zero _ => True
  | S754_finite false m e => Z.pos m * 2 ^ Z.max e 0 <= 2 ^ Z.max (- e) 0
  | _ => False
  end.

(** A cell holding a number that is not NaN and satisfies [0 <= f <= 1]. *)
Definition valid_avg (c : cell) : Prop :=
  exists f, c = CNum f /\ F64.is_nan f = false /\ F64.in_unit f = true.

(** A cell the invalid mask selects. *)
Definition masked (c : cell) : Prop := invalid_cell c = Ok true.

(** A series with no string cell: the masks of the cascade can be computed. *)
Definition numeric (s : Series) : Prop := Forall (fun c => forall x, c <> CStr x) s.

(** Every masked cell replaced by [v]. *)
Definition fill_invalid (v : float) (s : Series) : Series :=
  map (fun c => match invalid_cell c with Ok true => CNum v | _ => c end) s.

Definition fill_invalid_opt (v : option float) (s : Series) : Series :=
  match v with
  | Some v => fill_invalid v s
  | None => s
  end.

(** The value the three tiers leave in a masked position, given what tier 1
    and tier 2 offer. *)
Definition cascade_value (tier1 tier2 : option float) : float :=
  let after2 :=
    match tier2 with
    | Some v => if invalid_float v then league_average else v
    | None => league_average
    end in
  match tier1 with
  | Some v => if invalid_float v then after2 else v
  | None => after2
  end.

(** What tier 1 offers at a state: the previous average of a live entry. *)
Definition tier1_offer (env : Env) (v : Validator) (player_id : option string)
  : option float :=
  match truthy_id player_id with
  | Some pid =>
      match cache v !! pid with
      | Some (PreviousAvg a t) =>
          if clock env (clock_reads v) - t <? cache_duration env then Some a else None
      | _ => None
      end
  | None => None
  end.

(** The state tier 1 leaves: the clock is read when an entry is examined. *)
Definition after_tier1 (v : Validator) (player_id : option string) : Validator :=
  match truthy_id player_id with
  | Some pid =>
      match cache v !! pid with
      | Some (PreviousAvg _ _) => mkValidator (cache v) (S (clock_reads v))
      | _ => v
      end
  | None => v
  end.

(** What tier 2 offers at a state, and the state it leaves. *)
Definition tier2_offer (env : Env) (v : Validator) (player_id : option string)
  : option float :=
  match truthy_id player_id with
  | Some pid =>
      match fst (_get_player_season_average env pid v) with
      | Ok (Some a) => Some a
      | _ => None
      end
  | None => None
  end.

Definition after_tier2 (env : Env) (v : Validator) (player_id : option string) : Validator :=
  match truthy_id player_id with
  | Some pid => snd (_get_player_season_average env pid v)
  | None => v
  end.

(** The value the whole cascade writes into masked positions at a state. *)
Definition fallback_value (env : Env) (v : Validator) (player_id : option string) : float :=
  cascade_value (tier1_offer env v player_id)
                (tier2_offer env (after_tier1 v player_id) player_id).

(** The season-scoped key under which tier 2 caches. *)
Definition season_key (player_id : string) : string := ("season_avg_" ++ player_id)%string.

(** The provider yields no season rows: it raises, or returns nothing, or
    returns an empty table. *)
Definition no_rows (r : FetchResult) : Prop :=
  match r with
  | FetchRaises | FetchNone => True
  | FetchData df => df_empty df = true
  end.

(** No season average is to be had for a player: nothing cached under the
    season key, and no rows from the provider. *)
Definition no_season_data (env : Env) (v : Validator) (player_id : option string) : Prop :=
  forall p, truthy_id player_id = Some p ->
    cache v !! season_key p = None
    /\ forall a b, no_rows (statcast_batter env a b p).

(** No live tier-1 entry for a player: every previous-average entry under
    the identifier has reached the cache duration. *)
Definition no_live_entry (env : Env) (v : Validator) (player_id : option string) : Prop :=
  forall p a t, truthy_id player_id = Some p ->
    cache v !! p = Some (PreviousAvg a t) ->
    cache_duration env <= clock env (clock_reads v) - t.

(** A cell holding a string. *)
Definition is_string (c : cell) : bool :=
  match c with CStr _ => true | _ => false end.

(** A cell holding a zero. *)
Definition zero_cell (c : cell) : bool :=
  match c with CNum f => F64.eqb f F64.zero | _ => false end.

(** A row without a quotient: hits or at-bats is null ([None] or NaN), or
    at-bats is zero. *)
Definition no_quotient (h a : cell) : bool :=
  cell_isnull h || cell_isnull a || zero_cell a.

(** No live entry under the season key of a player, at this reading of the
    clock or a later one: whatever is stored there, a season average or a
    previous average, has reached the cache duration. *)
Definition no_live_season_entry (env : Env) (v : Validator) (player_id : option string)
  : Prop :=
  forall p e k, truthy_id player_id = Some p ->
    cache v !! season_key p = Some e ->
    (clock_reads v <= k)%nat ->
    cache_duration env <= clock env k - timestamp_of e.

(** The shapes the specification calls invalid. *)
Definition invalid_shape (c : cell) : Prop :=
  c = CNone
  \/ exists f, c = CNum f
       /\ (F64.is_nan f = true \/ F64.eqb f F64.zero = true
           \/ F64.ltb f F64.zero = true \/ F64.ltb F64.one f = true).

(** A null cell. *)
Definition null_cell (c : cell) : Prop := cell_isnull c = true.

(** ** Concrete tables, environments and records used in examples *)

(** The clock reads [k] microseconds at its k-th reading; the provider has
    nothing; entries live for 24 hours. *)
Definition offline_env : Env :=
  mkEnv (fun k => Z.of_nat k) (fun _ _ _ => FetchNone) 24.

(** As [offline_env], but the provider raises on every call. *)
Definition failing_env : Env :=
  mkEnv (fun k => Z.of_nat k) (fun _ _ _ => FetchRaises) 24.

(** A provider that raises on every call, a day and more after time 0. *)
Definition failing_day_later_env : Env :=
  mkEnv (fun k => 86400000000 + Z.of_nat k) (fun _ _ _ => FetchRaises) 24.

(** A clock stuck one hour after time 0, entries living one hour. *)
Definition hour_later_env : Env :=
  mkEnv (fun _ => 3600000000) (fun _ _ _ => FetchNone) 1.

(** The hits and at-bats pairs (85,300), (92,320), (78,295). *)
Definition pairs_table : DataFrame :=
  mkDataFrame 3
    [ ("hits", [CNum (F64.of_Z 85); CNum (F64.of_Z 92); CNum (F64.of_Z 78)]);
      ("at_bats", [CNum (F64.of_Z 300); CNum (F64.of_Z 320); CNum (F64.of_Z 295)]) ]%string.

(** The fixture of the test suite: a valid value, a null, a zero and 1.5. *)
Definition sample_data : DataFrame :=
  mkDataFrame 4
    [ ("player_name", [CStr "Player A"; CStr "Player B"; CStr "Player C"; CStr "Player D"]);
      ("batting_avg", [CNum (F64.decimal 285 1000); CNum F64.nan; CNum F64.zero;
                       CNum (F64.decimal 15 10)]);
      ("hits", [CNum (F64.of_Z 85); CNum (F64.of_Z 92); CNum F64.nan; CNum (F64.of_Z 78)]);
      ("at_bats", [CNum (F64.of_Z 300); CNum (F64.of_Z 320); CNum (F64.of_Z 285);
                   CNum (F64.of_Z 295)]);
      ("events", [CStr "single"; CStr "home_run"; CStr "strikeout"; CStr "double"]) ]%string.

(** A table with one average column holding two nulls. *)
Definition null_table : DataFrame :=
  mkDataFrame 2 [ ("batting_avg", [CNum F64.nan; CNum F64.nan]) ]%string.

(** A validator whose only entry, for player [p1], was cached at time 0. *)
Definition cached_validator : Validator :=
  mkValidator (<["p1"%string := PreviousAvg (F64.decimal 32 100) 0]> ∅) 0.

(** A validator whose only entry is a season average for [p1], stored at
    time 0. *)
Definition old_season_validator : Validator :=
  mkValidator (<[season_key "p1" := SeasonAvg (F64.decimal 3 10) 0]> ∅) 0.

(** ** Data-quality scores as the specification words them *)

(** The four buckets over a score out of five. *)
Definition bucket (score : nat) : string :=
  match score with
  | 0%nat | 1%nat => "INSUFFICIENT_DATA"
  | 2%nat => "LOW"
  | 3%nat => "MEDIUM"
  | _ => "HIGH"
  end.

(** A field is present when the record has it with a non-null value. *)
Definition non_null (x : pyval) : bool :=
  match x with
  | VNone => false
  | _ => true
  end.

(** One condition of a score: the field passes [test] and differs from its
    default sentinel, when it has one. *)
Definition field_counts (test : pyval -> bool) (d : PlayerData) (field : string)
  (sentinel : option pyval) : nat :=
  match d !! field with
  | Some x =>
      if test x && match sentinel with
                   | Some s0 => negb (py_eqb x s0)
                   | None => true
                   end
      then 1%nat else 0%nat
  | None => 0%nat
  end.

Definition score_with (test : pyval -> bool) (d : PlayerData) : nat :=
  (field_counts test d "name" (Some (VStr "Unknown Player"))
   + field_counts test d "player_id" None
   + field_counts test d "position" (Some (VStr "Unknown"))
   + field_counts test d "team" (Some (VStr "Free Agent"))
   + field_counts test d "batting_avg" (Some (VFloat league_average)))%nat.

(** The score as the specification words it: it counts fields that are
    present (and not their default). *)
Definition spec_quality_score (d : PlayerData) : nat := score_with non_null d.

(** What the code counts: fields that are truthy (non-null, non-empty,
    nonzero) and not their default. *)
Definition truthy_quality_score (d : PlayerData) : nat := score_with truthy d.

(** A batting average that [validate_player_data] replaces: null, negative
    or above one. *)
Definition replaced_avg (x : pyval) : bool :=
  match x with
  | VNone => true
  | VInt z => (z <? 0) || (1 <? z)
  | VFloat f => F64.ltb f F64.zero || F64.ltb F64.one f
  | VStr _ => false
  end.

(** A record with a name, an identifier, a position and a batting average
    of zero. *)
Definition zero_avg_record : PlayerData :=
  <["name" := VStr "A"]>
  (<["player_id" := VStr "1"]>
  (<["position" := VStr "CF"]>
  (<["batting_avg" := VFloat F64.zero]> ∅))).

(** A record whose batting average is NaN. *)
Definition nan_avg_record : PlayerData :=
  <["name" := VStr "Test Player"]> (<["batting_avg" := VFloat F64.nan]> ∅).

(** A record whose batting average is a string, as a JSON feed gives it. *)
Definition string_avg_record : PlayerData :=
  <["name" := VStr "Test Player"]> (<["batting_avg" := VStr ".285"]> ∅).

(** The complete record of the test suite. *)
Definition high_quality_record : PlayerData :=
  <["name" := VStr "Mike Trout"]>
  (<["player_id" := VStr "545361"]>
  (<["position" := VStr "CF"]>
  (<["team" := VStr "Angels"]>
  (<["batting_avg" := VFloat (F64.decimal 285 1000)]> ∅)))).

(** A batting average in range: a number [x] with [0 <= x <= 1]. *)
Definition avg_in_range (x : pyval) : Prop :=
  match x with
  | VFloat f => F64.in_unit f = true
  | VInt z => 0 <= z <= 1
  | _ => False
  end.

(** A null hits entry against 300 at-bats, and zero hits in 300 at-bats. *)
Definition null_hits_table : DataFrame :=
  mkDataFrame 1 [ ("hits", [CNum F64.nan]); ("at_bats", [CNum (F64.of_Z 300)]) ]%string.

Definition zero_hits_table : DataFrame :=
  mkDataFrame 1 [ ("hits", [CNum (F64.of_Z 0)]); ("at_bats", [CNum (F64.of_Z 300)]) ]%string.

(** Three rows and no column; no row and one column. *)
Definition rows_only_table : DataFrame := mkDataFrame 3 [].

Definition columns_only_table : DataFrame := mkDataFrame 0 [ ("team"%string, []) ].

(** [sample_data] after validation with nothing cached. *)
Definition sample_data_validated : DataFrame :=
  set_col "batting_avg"
    [CNum (F64.decimal 285 1000); CNum league_average; CNum league_average;
     CNum league_average] sample_data.


(** ** Further notions and operations *)

(** A cell the invalid mask passes over. *)
Definition unmasked (c : cell) : Prop := invalid_cell c = Ok false.

(** A cell holding a number [f] with [0 < f <= 1]. *)
Definition positive_avg (c : cell) : Prop :=
  exists f, c = CNum f /\ F64.ltb F64.zero f = true /\ F64.leb f F64.one = true.

(** One series is another with some masked cells rewritten: same length,
    every unmasked cell in place. *)
Definition keeps_unmasked (s s' : Series) : Prop :=
  length s' = length s
  /\ forall i x, s !! i = Some x -> unmasked x -> s' !! i = Some x.

(** The shape of a pandas table: every column has one cell for each row. *)
Definition well_formed (df : DataFrame) : Prop :=
  forall c s, get_col c df = Some s -> length s = nrows df.

(** A Python integer as an operand of a true division. *)
Definition int_operand (n : Z) : float :=
  match n with
  | Z0 => S754_zero false
  | Zpos p => S754_finite false p 0
  | Zneg p => S754_finite true p 0
  end.

(** [timedelta.total_seconds()]: the count of microseconds divided by
    [10**6], an integer true division, rounded once to the nearest float. *)
Definition total_seconds (microseconds : Z) : float :=
  SFdiv F64.prec F64.emax (int_operand microseconds) (int_operand 1000000).

(** The dictionary [get_validation_stats] returns.  [last_validation] is
    kept as the clock reading that [isoformat] renders. *)
Module Stats.

Record t := mk {
  cache_size : nat;
  cache_duration_hours : float;
  last_validation : Z;
  league_average : float
}.

End Stats.

(** [get_validation_stats] *)
Definition get_validation_stats (env : Env) : M Stats.t :=
  c <- get_cache ;;
  now <- datetime_now env ;;
  ret (Stats.mk (size c)
         (F64.div (total_seconds (cache_duration env)) (F64.of_Z 3600))
         now league_average).

(** The validator after one more reading of the clock. *)
Definition tick (v : Validator) : Validator := mkValidator (cache v) (S (clock_reads v)).

(** What the guarded fetch of [_get_player_season_average] comes to at a
    state: two readings of the clock make the dates; a table with rows and
    an [events] column gives the average, cached under the season key at a
    third reading; anything else gives nothing. *)
Definition season_fetch (env : Env) (player_id : string) (v : Validator)
  : res (option float) * Validator :=
  let nothing := (Ok None, tick (tick v)) in
  match statcast_batter env (clock env (clock_reads v))
          (clock env (S (clock_reads v))) player_id with
  | FetchRaises | FetchNone => nothing
  | FetchData season_data =>
      if df_empty season_data then nothing
      else
        match _calc_overall_avg_from_events season_data hit_events with
        | Ok season_avg =>
            (Ok (Some season_avg),
             mkValidator
               (<[season_key player_id :=
                    SeasonAvg season_avg (clock env (S (S (clock_reads v))))]> (cache v))
               (S (S (S (clock_reads v)))))
        | Raise _ => nothing
        end
  end.

(** A timestamp is live at the next reading of the clock. *)
Definition live_at (env : Env) (v : Validator) (timestamp : Z) : bool :=
  clock env (clock_reads v) - timestamp <? cache_duration env.

(** The names of the required fields. *)
Definition required_names : list string := map fst required_fields.

(** A record that has every required field, none null but the identifier. *)
Definition complete (d : PlayerData) : Prop :=
  forall k def, In (k, def) required_fields ->
    exists x, d !! k = Some x /\ (x = VNone -> def = VNone).

(** A series that holds a string somewhere. *)
Definition has_string (s : Series) : Prop := exists i x, s !! i = Some (CStr x).

(** A plate appearance that ended in a hit. *)
Definition is_hit (c : cell) : bool := cell_isin c hit_events.

(** The rows of a player, and those of them that are hits. *)
Definition player_rows (key : cell) (names : Series) : nat :=
  length (List.filter (key_eqb key) names).

Definition player_hits (key : cell) (names events : Series) : nat :=
  length (List.filter (fun ne => key_eqb key (fst ne) && is_hit (snd ne))
                      (combine names events)).

(** [hits / total_abs] on Python integers. *)
Definition hit_rate (hits rows : nat) : float :=
  F64.div (F64.of_Z (Z.of_nat hits)) (F64.of_Z (Z.of_nat rows)).

(** ** More tables, providers and validators to run the code on *)

(** The average column of the test fixture. *)
Definition sample_averages : Series :=
  [CNum (F64.decimal 285 1000); CNum F64.nan; CNum F64.zero; CNum (F64.decimal 15 10)].

(** An average column with a string in it. *)
Definition string_avg_table : DataFrame :=
  mkDataFrame 2 [ ("batting_avg", [CNum (F64.decimal 285 1000); CStr "n/a"]) ]%string.

(** Plate appearances of two players, and one without a name. *)
Definition event_names : Series := [CStr "A"; CStr "A"; CStr "B"; CNone]%string.

Definition event_outcomes : Series :=
  [CStr "single"; CStr "strikeout"; CStr "home_run"; CStr "double"]%string.

Definition events_table : DataFrame :=
  mkDataFrame 4 [ ("player_name", event_names); ("events", event_outcomes) ]%string.

(** A table with nothing to compute an average from. *)
Definition teams_table : DataFrame :=
  mkDataFrame 2 [ ("team", [CStr "NYY"; CStr "BOS"]) ]%string.

(** A provider whose table has rows but no [events] column. *)
Definition eventless_env : Env :=
  mkEnv (fun k => Z.of_nat k) (fun _ _ _ => FetchData teams_table) 24.

(** A validator whose only entry is a season average for [p1], stored at
    time 1. *)
Definition season_validator : Validator :=
  mkValidator (<[season_key "p1" := SeasonAvg (F64.decimal 3 10) 1]> ∅) 0.

(** * Properties *)

(** Labels of a concrete table are distinct. *)
Ltac distinct_labels_tac :=
  unfold distinct_labels; apply (bool_decide_unpack _); vm_compute; exact I.

(** ** Floats *)

Lemma league_average_is_literal : league_average = F64.decimal 244 1000.
Proof. reflexivity. Qed.

Lemma one_is_literal : F64.one = F64.of_Z 1.
Proof. reflexivity. Qed.

Lemma league_average_valid : invalid_float league_average = false.
Proof. reflexivity. Qed.

Lemma SFcompare_pos_finite_swap (m m' : positive) (e e' : Z) :
  SFcompare (S754_finite false m e) (S754_finite false m' e')
  = option_map CompOpp (SFcompare (S754_finite false m' e') (S754_finite false m e)).
Proof.
  cbn [SFcompare option_map]. f_equal.
  rewrite (Z.compare_antisym e e').
  destruct (e ?= e'); cbn [CompOpp]; try reflexivity.
  rewrite Pos.compare_cont_antisym. reflexivity.
Qed.

Lemma valid_float_in_unit (f : float) :
  invalid_float f = false -> F64.is_nan f = false /\ F64.in_unit f = true.
Proof.
  unfold invalid_float. intros H.
  repeat (apply orb_false_elim in H; destruct H as [H ?]).
  split; [assumption|].
  unfold F64.in_unit, F64.eqb, F64.ltb, F64.leb, SFeqb, SFltb, SFleb, F64.zero, F64.one in *.
  destruct f as [s | s | | s m e].
  - reflexivity.
  - destruct s; cbn [SFcompare] in *; discriminate.
  - discriminate.
  - destruct s; [cbn [SFcompare] in *; discriminate|].
    rewrite SFcompare_pos_finite_swap.
    cbn [SFcompare option_map] in *.
    destruct (-52 ?= e); cbn [CompOpp] in *; try discriminate; try reflexivity.
    destruct (Pos.compare_cont Eq 4503599627370496 m);
      cbn [CompOpp] in *; try discriminate; reflexivity.
Qed.

Lemma digits2_pos_bounds (m : positive) :
  2 ^ (Z.pos (digits2_pos m) - 1) <= Z.pos m < 2 ^ Z.pos (digits2_pos m).
Proof.
  induction m as [m IH|m IH|]; cbn [digits2_pos].
  - rewrite Pos2Z.inj_succ. replace (Z.succ (Z.pos (digits2_pos m)) - 1)
      with (Z.succ (Z.pos (digits2_pos m) - 1)) by lia.
    rewrite !Z.pow_succ_r by lia. lia.
  - rewrite Pos2Z.inj_succ. replace (Z.succ (Z.pos (digits2_pos m)) - 1)
      with (Z.succ (Z.pos (digits2_pos m) - 1)) by lia.
    rewrite !Z.pow_succ_r by lia. lia.
  - cbn. lia.
Qed.

(** A canonical mantissa has at most 53 digits, and exactly 53 unless the
    exponent is the least one. *)
Lemma canonical_digits (m : positive) (e : Z) :
  F64.valid (S754_finite false m e) = true ->
  Z.pos (digits2_pos m) <= 53 /\ (Z.pos (digits2_pos m) = 53 \/ e = -1074).
Proof.
  unfold F64.valid, valid_binary, bounded, canonical_mantissa, fexp, emin,
    F64.prec, F64.emax.
  intros Hv. apply andb_prop in Hv as [Hc _]. apply Z.eqb_eq in Hc.
  remember (Z.pos (digits2_pos m)) as d eqn:Ed. clear Ed.
  lia.
Qed.

(** How [0 <= f <= c * 2^-52] is computed on a positive finite [f]. *)
Lemma in_unit_finite (m c : positive) (e : Z) :
  SFleb (S754_zero false) (S754_finite false m e)
  && SFleb (S754_finite false m e) (S754_finite false c (-52))
  = match e ?= -52 with
    | Lt => true
    | Gt => false
    | Eq => match Pos.compare m c with Gt => false | _ => true end
    end.
Proof.
  unfold SFleb. cbn [SFcompare andb].
  destruct (e ?= -52); reflexivity.
Qed.

Lemma pos_le_bool (m c : positive) :
  match Pos.compare m c with Gt => false | _ => true end = true
  <-> Z.pos m <= Z.pos c.
Proof.
  change (Z.pos m <= Z.pos c) with (Pos.compare m c <> Gt).
  destruct (Pos.compare m c); split; intros H;
    try reflexivity; try discriminate.
  exfalso. apply H. reflexivity.
Qed.

Lemma below_one_small_exponent (m : positive) (e d : Z) :
  Z.pos m < 2 ^ d -> d <= 53 -> e < -52 ->
  Z.pos m * 2 ^ Z.max e 0 <= 2 ^ Z.max (- e) 0.
Proof.
  intros Hhi Hd Hlt.
  rewrite Z.max_r by (clear - Hlt; lia).
  rewrite Z.max_l by (clear - Hlt; lia).
  rewrite Z.pow_0_r, Z.mul_1_r.
  apply Z.lt_le_incl. eapply Z.lt_le_trans; [exact Hhi|].
  apply Z.pow_le_mono_r; [reflexivity|]. clear - Hd Hlt. lia.
Qed.

Lemma above_one_large_exponent (m : positive) (e : Z) :
  2 ^ 52 <= Z.pos m -> -52 < e ->
  ~ Z.pos m * 2 ^ Z.max e 0 <= 2 ^ Z.max (- e) 0.
Proof.
  intros Hlo Hgt H.
  assert (Hone : Z.pos m * 2 ^ Z.max e 0 <= 2 ^ 51).
  { eapply Z.le_trans; [exact H|].
    apply Z.pow_le_mono_r; [reflexivity|]. clear - Hgt. lia. }
  assert (Hpow : 2 ^ 0 <= 2 ^ Z.max e 0).
  { apply Z.pow_le_mono_r; [reflexivity|]. apply Z.le_max_r. }
  rewrite Z.pow_0_r in Hpow.
  assert (Hm : Z.pos m * 1 <= Z.pos m * 2 ^ Z.max e 0).
  { apply Z.mul_le_mono_nonneg_l; [apply Pos2Z.is_nonneg | exact Hpow]. }
  rewrite Z.mul_1_r in Hm.
  assert (Hbad : 2 ^ 52 <= 2 ^ 51).
  { eapply Z.le_trans; [exact Hlo|]. eapply Z.le_trans; [exact Hm | exact Hone]. }
  apply Z.pow_le_mono_r_iff in Hbad; [|reflexivity|discriminate].
  revert Hbad. clear. lia.
Qed.

(** On well-formed binary64 values, [0 <= f <= 1] as the comparisons
    compute it is [0 <= f <= 1] of the numbers denoted. *)
Lemma in_unit_denotes (f : float) :
  F64.valid f = true -> (F64.in_unit f = true <-> denotes_in_unit f).
Proof.
  intros Hv. destruct f as [s|s| |s m e]; cbn [denotes_in_unit].
  - split; [trivial | reflexivity].
  - split; [destruct s; discriminate | intros []].
  - split; [discriminate | intros []].
  - destruct s; [split; [discriminate | intros []]|].
    destruct (canonical_digits m e Hv) as [Hd Hd'].
    destruct (digits2_pos_bounds m) as [Hlo Hhi].
    unfold F64.in_unit, F64.leb, F64.zero, F64.one.
    rewrite in_unit_finite.
    destruct (Z.compare_spec e (-52)) as [-> | Hlt | Hgt].
    + assert (E1 : 2 ^ Z.max (-52) 0 = 1) by (vm_compute; reflexivity).
      assert (E2 : 2 ^ Z.max (- -52) 0 = Z.pos 4503599627370496)
        by (vm_compute; reflexivity).
      rewrite E1, E2, Z.mul_1_r. apply pos_le_bool.
    + split; [intros _ | reflexivity].
      eapply below_one_small_exponent; eauto.
    + split; [discriminate|]. intros H. exfalso.
      apply (above_one_large_exponent m e); [|exact Hgt|exact H].
      destruct Hd' as [Hd' | He]; [|clear - He Hgt; lia].
      rewrite Hd' in Hlo. exact Hlo.
Qed.

(** ** Masks and fills on one series *)

Lemma invalid_cell_num (f : float) : invalid_cell (CNum f) = Ok (invalid_float f).
Proof. reflexivity. Qed.

Lemma invalid_mask_cons (c : cell) (s : Series) (m : list bool) :
  invalid_mask (c :: s) = Ok m ->
  exists b m', m = b :: m' /\ invalid_cell c = Ok b /\ invalid_mask s = Ok m'.
Proof.
  unfold invalid_mask. cbn [res_mapM].
  destruct (invalid_cell c) as [b|] eqn:Hc; cbn [res_bind]; [|discriminate].
  destruct (res_mapM invalid_cell s) as [m'|] eqn:Hs; cbn [res_bind]; [|discriminate].
  intros [= <-]. eauto.
Qed.

Lemma invalid_mask_numeric (s : Series) (m : list bool) :
  invalid_mask s = Ok m -> numeric s.
Proof.
  revert m. induction s as [|c s IH]; intros m H.
  - constructor.
  - apply invalid_mask_cons in H as (b & m' & -> & Hc & Hs).
    constructor; [| eapply IH; exact Hs].
    intros x ->. discriminate.
Qed.

Lemma numeric_invalid_mask (s : Series) :
  numeric s -> exists m, invalid_mask s = Ok m.
Proof.
  induction 1 as [|c s Hc _ [m IH]].
  - exists []. reflexivity.
  - unfold invalid_mask in *. cbn [res_mapM]. rewrite IH.
    destruct c as [|x|f]; [| exfalso; eapply Hc; reflexivity |]; eexists; reflexivity.
Qed.

Lemma loc_assign_fill (s : Series) (m : list bool) (v : float) :
  invalid_mask s = Ok m -> loc_assign s m v = fill_invalid v s.
Proof.
  revert m. induction s as [|c s IH]; intros m H.
  - destruct m; reflexivity.
  - apply invalid_mask_cons in H as (b & m' & -> & Hc & Hs).
    cbn [loc_assign fill_invalid map]. rewrite Hc.
    rewrite (IH _ Hs). destruct b; reflexivity.
Qed.

Lemma mask_any_false (s : Series) (m : list bool) :
  invalid_mask s = Ok m -> mask_any m = false ->
  Forall valid_avg s /\ forall v, fill_invalid v s = s.
Proof.
  revert m. induction s as [|c s IH]; intros m H Hany.
  - split; [constructor | reflexivity].
  - apply invalid_mask_cons in H as (b & m' & -> & Hc & Hs).
    cbn [mask_any existsb] in Hany. apply orb_false_elim in Hany as [-> Hany].
    destruct (IH _ Hs Hany) as [Hall Hfill].
    split.
    + constructor; [|assumption].
      destruct c as [|x|f]; try discriminate.
      rewrite invalid_cell_num in Hc. injection Hc as Hc.
      apply valid_float_in_unit in Hc. exists f. tauto.
    + intros v. cbn [fill_invalid map]. rewrite Hc. f_equal. apply Hfill.
Qed.

Lemma masked_mask_any (s : Series) (m : list bool) (i : nat) (c : cell) :
  invalid_mask s = Ok m -> s !! i = Some c -> masked c -> mask_any m = true.
Proof.
  revert m i. induction s as [|c0 s IH]; intros m i Hm Hi Hc; [discriminate|].
  apply invalid_mask_cons in Hm as (b & m' & -> & Hb & Hm').
  cbn [mask_any existsb]. destruct i as [|i].
  - injection Hi as ->. unfold masked in Hc. rewrite Hc in Hb. injection Hb as <-.
    reflexivity.
  - apply orb_true_iff. right. exact (IH _ _ Hm' Hi Hc).
Qed.

Lemma fill_invalid_numeric (v : float) (s : Series) :
  numeric s -> numeric (fill_invalid v s).
Proof.
  induction 1 as [|c s Hc _ IH]; cbn [fill_invalid map]; constructor; [|exact IH].
  destruct (invalid_cell c) as [[]|]; [discriminate | exact Hc | exact Hc].
Qed.

Lemma fill_invalid_opt_numeric (v : option float) (s : Series) :
  numeric s -> numeric (fill_invalid_opt v s).
Proof. destruct v; [apply fill_invalid_numeric | trivial]. Qed.

Lemma fill_invalid_length (v : float) (s : Series) :
  length (fill_invalid v s) = length s.
Proof. apply length_map. Qed.

Lemma fill_fill (v w : float) (s : Series) :
  fill_invalid w (fill_invalid v s)
  = fill_invalid (if invalid_float v then w else v) s.
Proof.
  induction s as [|c s IH]; [reflexivity|].
  change (fill_invalid w (fill_invalid v (c :: s))) with
    ((match invalid_cell (match invalid_cell c with Ok true => CNum v | _ => c end) with
      | Ok true => CNum w
      | _ => match invalid_cell c with Ok true => CNum v | _ => c end
      end) :: fill_invalid w (fill_invalid v s)).
  rewrite IH. cbn [fill_invalid map]. f_equal.
  destruct (invalid_cell c) as [[]|] eqn:Hc; rewrite ?Hc; try reflexivity.
  rewrite invalid_cell_num. destruct (invalid_float v); reflexivity.
Qed.

Lemma cascade_value_valid (t1 t2 : option float) :
  invalid_float (cascade_value t1 t2) = false.
Proof.
  unfold cascade_value.
  destruct t1 as [v1|], t2 as [v2|];
    repeat match goal with
           | |- context [if invalid_float ?v then _ else _] =>
               destruct (invalid_float v) eqn:?
           end; auto using league_average_valid.
Qed.

Lemma fill_cascade (t1 t2 : option float) (s : Series) :
  fill_invalid league_average (fill_invalid_opt t2 (fill_invalid_opt t1 s))
  = fill_invalid (cascade_value t1 t2) s.
Proof.
  unfold cascade_value.
  destruct t1 as [v1|], t2 as [v2|]; cbn [fill_invalid_opt];
    rewrite ?fill_fill;
    repeat match goal with
           | |- context [if invalid_float ?v then _ else _] => destruct (invalid_float v)
           end; reflexivity.
Qed.

Lemma fill_invalid_valid (v : float) (s : Series) :
  numeric s -> invalid_float v = false -> Forall valid_avg (fill_invalid v s).
Proof.
  intros Hs Hv. induction Hs as [|c s Hc _ IH]; cbn [fill_invalid map]; constructor;
    [|exact IH].
  destruct c as [|x|f].
  - cbn. apply valid_float_in_unit in Hv. exists v. tauto.
  - exfalso. eapply Hc. reflexivity.
  - rewrite invalid_cell_num. destruct (invalid_float f) eqn:Hf.
    + apply valid_float_in_unit in Hv. exists v. tauto.
    + apply valid_float_in_unit in Hf. exists f. tauto.
Qed.

Lemma fill_invalid_lookup (v : float) (s : Series) (i : nat) (c : cell) :
  s !! i = Some c ->
  fill_invalid v s !! i = Some (match invalid_cell c with Ok true => CNum v | _ => c end).
Proof.
  revert i. induction s as [|c0 s IH]; intros [|i] H; try discriminate.
  - injection H as ->. reflexivity.
  - apply (IH i H).
Qed.

Lemma numeric_remaining (s : Series) :
  numeric s -> exists r, res_mapM remaining_cell s = Ok r.
Proof.
  induction 1 as [|c s Hc _ [r IH]].
  - exists []. reflexivity.
  - cbn [res_mapM]. rewrite IH.
    destruct c as [|x|f]; [| exfalso; eapply Hc; reflexivity |]; eexists; reflexivity.
Qed.

Lemma _apply_final_fallback_fill (s : Series) (m : list bool) :
  invalid_mask s = Ok m -> _apply_final_fallback s = Ok (fill_invalid league_average s).
Proof.
  intros H. unfold _apply_final_fallback. rewrite H. cbn [res_bind].
  destruct (mask_any m) eqn:Hany.
  - rewrite (loc_assign_fill _ _ _ H). reflexivity.
  - destruct (mask_any_false _ _ H Hany) as [_ ->]. reflexivity.
Qed.

(** ** The tiers, run on a state *)

Section Tiers.

Variable env : Env.

Lemma tier1_run (s : Series) (m : list bool) (pid : option string) (v : Validator) :
  invalid_mask s = Ok m ->
  _apply_previous_game_fallback env s pid v
  = (Ok (fill_invalid_opt (tier1_offer env v pid) s), after_tier1 v pid).
Proof.
  intros Hm.
  unfold _apply_previous_game_fallback, tier1_offer, after_tier1, bind, get_cache.
  destruct (truthy_id pid) as [p|]; [|reflexivity].
  destruct (cache v !! p) as [[a t|a t]|]; try reflexivity.
  unfold _is_cache_valid, bind, datetime_now, ret, lift. cbn [cache clock_reads].
  destruct (clock env (clock_reads v) - t <? cache_duration env); [|reflexivity].
  rewrite Hm. cbn [fill_invalid_opt]. rewrite (loc_assign_fill _ _ _ Hm). reflexivity.
Qed.

Lemma tier2_run (s : Series) (m : list bool) (pid : option string) (v : Validator) :
  invalid_mask s = Ok m ->
  _apply_season_average_fallback env s pid v
  = (Ok (fill_invalid_opt (tier2_offer env v pid) s), after_tier2 env v pid).
Proof.
  intros Hm.
  unfold _apply_season_average_fallback, tier2_offer, after_tier2, try_except, bind.
  destruct (truthy_id pid) as [p|]; [|reflexivity].
  destruct (_get_player_season_average env p v) as [[[a|]|e] v']; cbn [fst snd];
    try reflexivity.
  unfold lift, ret. rewrite Hm. cbn [fill_invalid_opt].
  destruct (mask_any m) eqn:Hany.
  - rewrite (loc_assign_fill _ _ _ Hm). reflexivity.
  - destruct (mask_any_false _ _ Hm Hany) as [_ ->]. reflexivity.
Qed.

(** Tier 2 never raises, whatever the provider or the cache do. *)
Lemma tier2_never_raises (s : Series) (pid : option string) (v : Validator) :
  numeric s -> exists s', fst (_apply_season_average_fallback env s pid v) = Ok s'.
Proof.
  intros Hn. destruct (numeric_invalid_mask _ Hn) as [m Hm].
  rewrite (tier2_run _ _ _ _ Hm). eexists. reflexivity.
Qed.

Lemma cascade_run (s : Series) (m : list bool) (pid : option string) (col : string)
  (v : Validator) :
  invalid_mask s = Ok m -> mask_any m = true ->
  _apply_batting_average_fallback env s pid col v
  = (Ok (fill_invalid (fallback_value env v pid) s),
     after_tier2 env (after_tier1 v pid) pid).
Proof.
  intros Hm Hany.
  unfold _apply_batting_average_fallback, fallback_value.
  unfold bind at 1. unfold lift at 1. rewrite Hm, Hany. cbn [negb].
  unfold bind at 1. rewrite (tier1_run _ _ _ _ Hm).
  pose proof (invalid_mask_numeric _ _ Hm) as Hn.
  pose proof (fill_invalid_opt_numeric (tier1_offer env v pid) _ Hn) as Hn1.
  destruct (numeric_invalid_mask _ Hn1) as [m1 Hm1].
  unfold bind at 1. rewrite (tier2_run _ _ _ _ Hm1).
  pose proof (fill_invalid_opt_numeric
                (tier2_offer env (after_tier1 v pid) pid) _ Hn1) as Hn2.
  destruct (numeric_invalid_mask _ Hn2) as [m2 Hm2].
  unfold bind at 1. unfold lift at 1.
  rewrite (_apply_final_fallback_fill _ _ Hm2), fill_cascade.
  pose proof (fill_invalid_numeric (cascade_value (tier1_offer env v pid)
                (tier2_offer env (after_tier1 v pid) pid)) _ Hn) as Hn3.
  destruct (numeric_remaining _ Hn3) as [r Hr].
  unfold bind, lift, ret. rewrite Hr. reflexivity.
Qed.

Lemma cascade_run_clean (s : Series) (m : list bool) (pid : option string) (col : string)
  (v : Validator) :
  invalid_mask s = Ok m -> mask_any m = false ->
  _apply_batting_average_fallback env s pid col v = (Ok s, v).
Proof.
  intros Hm Hany. unfold _apply_batting_average_fallback, bind, lift, ret.
  rewrite Hm, Hany. reflexivity.
Qed.

Lemma cascade_run_raise (s : Series) (e : exn) (pid : option string) (col : string)
  (v : Validator) :
  invalid_mask s = Raise e ->
  _apply_batting_average_fallback env s pid col v = (Raise e, v).
Proof.
  intros Hm. unfold _apply_batting_average_fallback, bind, lift. rewrite Hm. reflexivity.
Qed.

(** The cascade leaves only valid cells, whenever it returns. *)
Lemma cascade_valid (s s' : Series) (pid : option string) (col : string)
  (v v' : Validator) :
  _apply_batting_average_fallback env s pid col v = (Ok s', v') ->
  Forall valid_avg s' /\ length s' = length s.
Proof.
  intros H. destruct (invalid_mask s) as [m|e] eqn:Hm.
  - destruct (mask_any m) eqn:Hany.
    + rewrite (cascade_run _ _ _ _ _ Hm Hany) in H. injection H as <- _.
      split; [|apply fill_invalid_length].
      apply fill_invalid_valid; [eapply invalid_mask_numeric; eauto|].
      apply cascade_value_valid.
    + rewrite (cascade_run_clean _ _ _ _ _ Hm Hany) in H. injection H as <- _.
      split; [|reflexivity]. eapply mask_any_false; eauto.
  - rewrite (cascade_run_raise _ _ _ _ _ Hm) in H. discriminate.
Qed.

End Tiers.

(** ** Columns of a table *)

Lemma assoc_get_set (n c : string) (s : Series) (cols : list (string * Series)) :
  assoc_get c (assoc_set n s cols)
  = if String.eqb n c then Some s else assoc_get c cols.
Proof.
  induction cols as [|[n0 s0] cols IH]; cbn [assoc_set assoc_get].
  - reflexivity.
  - destruct (String.eqb n0 n) eqn:Hn; cbn [assoc_get].
    + apply String.eqb_eq in Hn as ->.
      destruct (String.eqb n c); reflexivity.
    + destruct (String.eqb n0 c) eqn:Hc; [|exact IH].
      apply String.eqb_eq in Hc as ->.
      rewrite String.eqb_sym, Hn. reflexivity.
Qed.

Lemma assoc_set_set (n : string) (s1 s2 : Series) (cols : list (string * Series)) :
  assoc_set n s2 (assoc_set n s1 cols) = assoc_set n s2 cols.
Proof.
  induction cols as [|[n0 s0] cols IH]; cbn [assoc_set].
  - rewrite String.eqb_refl. reflexivity.
  - destruct (String.eqb n0 n) eqn:Hn; cbn [assoc_set]; rewrite Hn; [reflexivity|].
    rewrite IH. reflexivity.
Qed.

Lemma assoc_set_names_present (n : string) (s s0 : Series) (cols : list (string * Series)) :
  assoc_get n cols = Some s0 -> map fst (assoc_set n s cols) = map fst cols.
Proof.
  induction cols as [|[n0 s1] cols IH]; cbn [assoc_set assoc_get]; [discriminate|].
  destruct (String.eqb n0 n); intros H; cbn [map fst]; [reflexivity|].
  rewrite (IH H). reflexivity.
Qed.

Lemma assoc_set_names_absent (n : string) (s : Series) (cols : list (string * Series)) :
  assoc_get n cols = None -> map fst (assoc_set n s cols) = map fst cols ++ [n].
Proof.
  induction cols as [|[n0 s1] cols IH]; cbn [assoc_set assoc_get]; [reflexivity|].
  destruct (String.eqb n0 n); intros H; [discriminate|].
  cbn [map fst app]. rewrite (IH H). reflexivity.
Qed.

Lemma assoc_get_in_names (c : string) (s : Series) (cols : list (string * Series)) :
  assoc_get c cols = Some s -> In c (map fst cols).
Proof.
  induction cols as [|[n0 s1] cols IH]; cbn [assoc_get]; [discriminate|].
  destruct (String.eqb n0 c) eqn:Hc; intros H.
  - left. apply String.eqb_eq in Hc. exact Hc.
  - right. apply IH, H.
Qed.

Lemma names_in_assoc_get (c : string) (cols : list (string * Series)) :
  In c (map fst cols) -> exists s, assoc_get c cols = Some s.
Proof.
  induction cols as [|[n0 s1] cols IH]; cbn [assoc_get map fst]; [intros []|].
  intros [<-|H].
  - rewrite String.eqb_refl. eauto.
  - destruct (String.eqb n0 c); eauto.
Qed.

Lemma get_col_set_col (n c : string) (s : Series) (df : DataFrame) :
  get_col c (set_col n s df) = if String.eqb n c then Some s else get_col c df.
Proof. apply assoc_get_set. Qed.

Lemma get_col_set_col_other (n c : string) (s : Series) (df : DataFrame) :
  n <> c -> get_col c (set_col n s df) = get_col c df.
Proof.
  intros H. rewrite get_col_set_col. apply String.eqb_neq in H. rewrite H. reflexivity.
Qed.

Lemma avg_column_in_filter (c : string) (s : Series) (df : DataFrame) :
  is_avg_column c = true -> get_col c df = Some s ->
  In c (List.filter is_avg_column (column_names df)).
Proof.
  intros Ha Hc. apply filter_In. split; [|exact Ha].
  eapply assoc_get_in_names. exact Hc.
Qed.

(** The derivation only writes the column [calculated_avg]. *)
Lemma _calculate_batting_average_frame (data df1 : DataFrame) :
  _calculate_batting_average data = Ok df1 ->
  exists s, df1 = set_col "calculated_avg" s data.
Proof.
  unfold _calculate_batting_average.
  destruct (get_col "hits" data) as [hits|] eqn:Hh;
    [destruct (get_col "at_bats" data) as [at_bats|] eqn:Ha|].
  - destruct (series_div hits (replace_zero_nan at_bats)) as [q|]; [|discriminate].
    cbn [res_bind]. intros [= <-]. exists (fillna q league_average).
    unfold set_col. cbn [nrows columns]. rewrite assoc_set_set. reflexivity.
  - destruct (has_col "events" data).
    + destruct (_calculate_avg_from_events data) as [s|]; [|discriminate].
      cbn [res_bind]. intros [= <-]. eauto.
    + intros [= <-]. eauto.
  - destruct (has_col "events" data).
    + destruct (_calculate_avg_from_events data) as [s|]; [|discriminate].
      cbn [res_bind]. intros [= <-]. eauto.
    + intros [= <-]. eauto.
Qed.

Section Tables.

Variable env : Env.

(** What the column loop guarantees, whenever it returns. *)
Lemma validate_columns_spec (cols : list string) (pid : option string) :
  forall (df res : DataFrame) (v v' : Validator),
  validate_columns env cols pid df v = (Ok res, v') ->
  nrows res = nrows df
  /\ column_names res = column_names df
  /\ (forall c, ~ In c cols -> get_col c res = get_col c df)
  /\ (forall c s, In c cols -> get_col c res = Some s -> Forall valid_avg s)
  /\ (forall c s, get_col c res = Some s ->
        exists s0, get_col c df = Some s0 /\ length s = length s0).
Proof.
  induction cols as [|col rest IH]; intros df res v v' H; cbn [validate_columns] in H.
  - unfold ret in H. injection H as <- _.
    split; [reflexivity|]. split; [reflexivity|]. split; [reflexivity|].
    split; [intros c s []|]. intros c s Hc. eauto.
  - destruct (get_col col df) as [s0|] eqn:Hcol.
    + unfold bind in H.
      destruct (_apply_batting_average_fallback env s0 pid col v) as [[s1|e] v1] eqn:Hf;
        [|discriminate].
      apply cascade_valid in Hf as [Hvalid Hlen].
      apply IH in H as (Hrows & Hnames & Hframe & Hval & Hlens).
      split; [exact Hrows|].
      split.
      { rewrite Hnames. unfold column_names, set_col. cbn [columns].
        eapply assoc_set_names_present. exact Hcol. }
      split.
      { intros c Hc. rewrite Hframe by (intros Hin; apply Hc; right; exact Hin).
        apply get_col_set_col_other. intros ->. apply Hc. left. reflexivity. }
      split.
      { intros c s [<-|Hin] Hs; [|eauto].
        destruct (in_dec String.string_dec col rest) as [Hin|Hnin]; [eauto|].
        rewrite (Hframe _ Hnin), get_col_set_col, String.eqb_refl in Hs.
        injection Hs as <-. exact Hvalid. }
      { intros c s Hs. destruct (Hlens _ _ Hs) as (s2 & Hs2 & Hl).
        rewrite get_col_set_col in Hs2.
        destruct (String.eqb col c) eqn:Hc.
        - apply String.eqb_eq in Hc as <-. injection Hs2 as <-.
          exists s0. split; [exact Hcol | congruence].
        - eauto. }
    + apply IH in H as (Hrows & Hnames & Hframe & Hval & Hlens).
      repeat split; try assumption.
      * intros c Hc. apply Hframe. intros Hin. apply Hc. right. exact Hin.
      * intros c s [<-|Hin] Hs; [|eauto].
        destruct (in_dec String.string_dec col rest) as [Hin|Hnin]; [eauto|].
        rewrite (Hframe _ Hnin), Hcol in Hs. discriminate.
Qed.

End Tables.

(** ** Validation of a table *)

Section TableValidation.

Variable env : Env.

(** The two shapes of a returned table: the empty table for an empty or
    absent input, otherwise the input with its average columns, or the
    derived column, run through the cascade. *)
Lemma validate_batting_averages_cases (data : DataFrame) (pid : option string)
  (v v' : Validator) (res : DataFrame) :
  validate_batting_averages env (Some data) pid v = (Ok res, v') ->
  (df_empty data = true /\ res = DataFrame_new)
  \/ (df_empty data = false
      /\ List.filter is_avg_column (column_names data) <> []
      /\ validate_columns env (List.filter is_avg_column (column_names data)) pid data v
         = (Ok res, v'))
  \/ (df_empty data = false
      /\ List.filter is_avg_column (column_names data) = []
      /\ exists s, validate_columns env ["calculated_avg"%string] pid
                     (set_col "calculated_avg" s data) v = (Ok res, v')).
Proof.
  unfold validate_batting_averages.
  destruct (df_empty data) eqn:He.
  - unfold ret. intros [= <- _]. left. split; reflexivity.
  - destruct (List.filter is_avg_column (column_names data)) as [|c0 cs] eqn:Hf.
    + unfold bind at 1. unfold lift.
      destruct (_calculate_batting_average data) as [df1|e] eqn:Hc; [|discriminate].
      apply _calculate_batting_average_frame in Hc as [s ->].
      intros H. right. right. eauto.
    + intros H. right. left. split; [reflexivity|]. split; [discriminate | exact H].
Qed.

End TableValidation.

(** C1. Whenever [validate_batting_averages] returns, every average-like
    column of the returned table (the derived [calculated_avg] is one of
    them) holds only non-null numbers [f] with [0 <= f <= 1]; and tier 3
    alone already leaves no masked value behind. *)
Theorem validate_batting_averages_in_range
  (env : Env) (data : option DataFrame) (pid : option string)
  (v v' : Validator) (res : DataFrame) :
  validate_batting_averages env data pid v = (Ok res, v') ->
  (forall col s, is_avg_column col = true -> get_col col res = Some s ->
     Forall valid_avg s)
  /\ (forall s s', _apply_final_fallback s = Ok s' -> Forall valid_avg s').
Proof.
  intros H. split.
  - intros col s Ha Hs.
    destruct data as [data|]; [|unfold validate_batting_averages, ret in H;
      injection H as <- _; discriminate].
    apply validate_batting_averages_cases in H
      as [[_ ->] | [(_ & _ & H) | (_ & Hnone & s1 & H)]].
    + discriminate.
    + apply validate_columns_spec in H as (_ & _ & Hframe & Hval & _).
      destruct (in_dec String.string_dec col
                  (List.filter is_avg_column (column_names data))) as [Hin|Hnin].
      * eauto.
      * exfalso. apply Hnin. rewrite (Hframe _ Hnin) in Hs.
        eapply avg_column_in_filter; eauto.
    + apply validate_columns_spec in H as (_ & _ & Hframe & Hval & _).
      destruct (String.string_dec col "calculated_avg") as [->|Hne].
      * eapply Hval; [left; reflexivity | exact Hs].
      * exfalso.
        rewrite Hframe in Hs by (intros [Heq|[]]; congruence).
        rewrite get_col_set_col_other in Hs by congruence.
        pose proof (avg_column_in_filter _ _ _ Ha Hs) as Hin.
        rewrite Hnone in Hin. exact Hin.
  - intros s s' Hs.
    destruct (invalid_mask s) as [m|e] eqn:Hm;
      [|unfold _apply_final_fallback in Hs; rewrite Hm in Hs; discriminate].
    rewrite (_apply_final_fallback_fill _ _ Hm) in Hs. injection Hs as <-.
    apply fill_invalid_valid; [eapply invalid_mask_numeric; eauto|].
    exact league_average_valid.
Qed.

(** C9, amended. For a non-empty table, validation keeps the row count,
    leaves every column that is not average-like exactly as it was, and
    keeps the columns in order, appending [calculated_avg] only when the
    input has no average-like column; an empty table (no rows or no
    columns) comes back as the table with no rows and no columns. *)
Theorem validate_batting_averages_frame
  (env : Env) (data : DataFrame) (pid : option string)
  (v v' : Validator) (res : DataFrame) :
  validate_batting_averages env (Some data) pid v = (Ok res, v') ->
  (df_empty data = true -> res = DataFrame_new)
  /\ (df_empty data = false ->
      nrows res = nrows data
      /\ (forall c, is_avg_column c = false -> get_col c res = get_col c data)
      /\ column_names res
         = column_names data
           ++ match List.filter is_avg_column (column_names data) with
              | [] => ["calculated_avg"%string]
              | _ => []
              end).
Proof.
  intros H.
  apply validate_batting_averages_cases in H
    as [[He ->] | [(He & Hsome & H) | (He & Hnone & s1 & H)]].
  - split; [reflexivity | congruence].
  - split; [congruence|]. intros _.
    apply validate_columns_spec in H as (Hrows & Hnames & Hframe & _ & _).
    split; [exact Hrows|]. split.
    { intros c Hc. apply Hframe. intros Hin. apply filter_In in Hin as [_ Hin].
      congruence. }
    rewrite Hnames.
    destruct (List.filter is_avg_column (column_names data)); [congruence|].
    symmetry. apply app_nil_r.
  - split; [congruence|]. intros _.
    apply validate_columns_spec in H as (Hrows & Hnames & Hframe & _ & _).
    split; [exact Hrows|]. split.
    { intros c Hc. rewrite Hframe.
      - apply get_col_set_col_other. intros <-. discriminate.
      - intros [<-|[]]. discriminate. }
    rewrite Hnames, Hnone. unfold column_names, set_col. cbn [columns].
    apply assoc_set_names_absent.
    destruct (assoc_get "calculated_avg" (columns data)) as [s|] eqn:Hg; [|reflexivity].
    exfalso. assert (Hin : In "calculated_avg"%string
                             (List.filter is_avg_column (column_names data))).
    { eapply avg_column_in_filter; [reflexivity | exact Hg]. }
    rewrite Hnone in Hin. exact Hin.
Qed.

(** ** The season lookup *)

Section SeasonLookup.

Variable env : Env.

Lemma masked_iff_invalid_shape (c : cell) : masked c <-> invalid_shape c.
Proof.
  unfold masked, invalid_shape. destruct c as [|x|f]; cbn [invalid_cell].
  - split; [left; reflexivity | reflexivity].
  - split; [discriminate | intros [H | (f & H & _)]; discriminate].
  - split.
    + intros [= H]. right. exists f. split; [reflexivity|].
      repeat (apply orb_prop in H as [H|H]); auto.
    + intros [H | (g & [= <-] & H)]; [discriminate|]. f_equal.
      destruct H as [-> | [-> | [-> | ->]]]; rewrite ?orb_true_r; reflexivity.
Qed.

(** When the provider yields no rows, the only season average on offer is a
    live cached one. *)
Lemma get_season_average_provider_down (p : string) (v : Validator) :
  (forall a b, no_rows (statcast_batter env a b p)) ->
  fst (_get_player_season_average env p v)
  = match cache v !! season_key p with
    | Some (SeasonAvg a t) =>
        if clock env (clock_reads v) - t <? cache_duration env then Ok (Some a)
        else Ok None
    | Some (PreviousAvg a t) =>
        if clock env (clock_reads v) - t <? cache_duration env then Raise KeyError
        else Ok None
    | None => Ok None
    end.
Proof.
  intros Hdown. unfold _get_player_season_average, season_key.
  unfold bind at 1. unfold get_cache.
  assert (Hfetch : forall w,
    fst (try_except
      (current_year <- datetime_now env ;;
       end_date <- datetime_now env ;;
       match statcast_batter env current_year end_date p with
       | FetchRaises => lift (Raise ProviderError)
       | FetchNone => ret None
       | FetchData season_data =>
           if df_empty season_data then ret None
           else
             season_avg <- lift (_calc_overall_avg_from_events season_data hit_events) ;;
             now <- datetime_now env ;;
             _ <- cache_store ("season_avg_" ++ p) (SeasonAvg season_avg now) ;;
             ret (Some season_avg)
       end)
      (fun _ => ret None) w) = Ok None).
  { intros w. unfold try_except, bind, datetime_now, lift, ret. cbn [clock_reads cache].
    pose proof (Hdown (clock env (clock_reads w)) (clock env (S (clock_reads w)))) as Hd.
    destruct (statcast_batter env _ _ p) as [| |df]; cbn [no_rows] in Hd; try reflexivity.
    rewrite Hd. reflexivity. }
  destruct (cache v !! ("season_avg_" ++ p)%string) as [[a t|a t]|]; [| |apply Hfetch].
  - unfold _is_cache_valid, bind at 1 2. unfold datetime_now at 1. unfold ret at 1.
    cbn [timestamp_of clock_reads cache].
    destruct (clock env (clock_reads v) - t <? cache_duration env);
      [reflexivity | apply Hfetch].
  - unfold _is_cache_valid, bind at 1 2. unfold datetime_now at 1. unfold ret at 1.
    cbn [timestamp_of clock_reads cache].
    destruct (clock env (clock_reads v) - t <? cache_duration env);
      [reflexivity | apply Hfetch].
Qed.

(** The season lookup never lets a provider failure out. *)
Lemma get_season_average_contains_provider (p : string) (v : Validator) :
  fst (_get_player_season_average env p v) <> Raise ProviderError.
Proof.
  unfold _get_player_season_average.
  unfold bind at 1. unfold get_cache.
  assert (Hfetch : forall (m : M (option float)) w,
            fst (try_except m (fun _ => ret None) w) <> Raise ProviderError).
  { intros m w. unfold try_except, ret. destruct (m w) as [[a|e] w']; discriminate. }
  destruct (cache v !! ("season_avg_" ++ p)%string) as [[a t|a t]|]; [| |apply Hfetch].
  - unfold _is_cache_valid, bind at 1 2. unfold datetime_now at 1. unfold ret at 1.
    destruct (_ <? _); [discriminate | apply Hfetch].
  - unfold _is_cache_valid, bind at 1 2. unfold datetime_now at 1. unfold ret at 1.
    destruct (_ <? _); [discriminate | apply Hfetch].
Qed.

(** The season lookup writes the cache only under the season key. *)
Lemma get_season_average_cache_other (p k : string) (v : Validator) :
  k <> season_key p ->
  cache (snd (_get_player_season_average env p v)) !! k = cache v !! k.
Proof.
  intros Hk. unfold _get_player_season_average.
  unfold bind at 1. unfold get_cache.
  assert (Hfetch : forall w,
    cache (snd (try_except
      (current_year <- datetime_now env ;;
       end_date <- datetime_now env ;;
       match statcast_batter env current_year end_date p with
       | FetchRaises => lift (Raise ProviderError)
       | FetchNone => ret None
       | FetchData season_data =>
           if df_empty season_data then ret None
           else
             season_avg <- lift (_calc_overall_avg_from_events season_data hit_events) ;;
             now <- datetime_now env ;;
             _ <- cache_store ("season_avg_" ++ p) (SeasonAvg season_avg now) ;;
             ret (Some season_avg)
       end)
      (fun _ => ret None) w)) !! k = cache w !! k).
  { intros w. unfold try_except, bind, datetime_now, lift, ret, cache_store.
    cbn [clock_reads cache].
    destruct (statcast_batter env _ _ p) as [| |df]; try reflexivity.
    destruct (df_empty df); [reflexivity|].
    destruct (_calc_overall_avg_from_events df hit_events); [|reflexivity].
    cbn [cache snd]. apply lookup_insert_ne. intros Heq. apply Hk. symmetry. exact Heq. }
  destruct (cache v !! ("season_avg_" ++ p)%string) as [[a t|a t]|]; [| |apply Hfetch].
  - unfold _is_cache_valid, bind at 1 2. unfold datetime_now at 1. unfold ret at 1.
    destruct (_ <? _); [reflexivity | rewrite Hfetch; reflexivity].
  - unfold _is_cache_valid, bind at 1 2. unfold datetime_now at 1. unfold ret at 1.
    destruct (_ <? _); [reflexivity | rewrite Hfetch; reflexivity].
Qed.

End SeasonLookup.

(** ** The cascade on one column *)

Section Cascade.

Variable env : Env.

Lemma after_tier1_cache (v : Validator) (pid : option string) :
  cache (after_tier1 v pid) = cache v.
Proof.
  unfold after_tier1. destruct (truthy_id pid) as [p|]; [|reflexivity].
  destruct (cache v !! p) as [[]|]; reflexivity.
Qed.

Lemma tier1_offer_stale (v : Validator) (pid : option string) :
  no_live_entry env v pid -> tier1_offer env v pid = None.
Proof.
  intros H. unfold tier1_offer.
  destruct (truthy_id pid) as [p|] eqn:Hp; [|reflexivity].
  destruct (cache v !! p) as [[a t|a t]|] eqn:Hc; try reflexivity.
  specialize (H p a t Hp Hc).
  destruct (Z.ltb_spec (clock env (clock_reads v) - t) (cache_duration env));
    [lia | reflexivity].
Qed.

Lemma tier2_offer_unavailable (v w : Validator) (pid : option string) :
  no_season_data env v pid -> cache w = cache v -> tier2_offer env w pid = None.
Proof.
  intros H Hw. unfold tier2_offer.
  destruct (truthy_id pid) as [p|] eqn:Hp; [|reflexivity].
  destruct (H p Hp) as [Hkey Hdown].
  rewrite (get_season_average_provider_down env p w Hdown), Hw, Hkey. reflexivity.
Qed.

Lemma fallback_value_league (v : Validator) (pid : option string) :
  no_live_entry env v pid -> no_season_data env v pid ->
  fallback_value env v pid = league_average.
Proof.
  intros H1 H2. unfold fallback_value.
  rewrite (tier1_offer_stale _ _ H1).
  rewrite (tier2_offer_unavailable v _ _ H2 (after_tier1_cache v pid)).
  reflexivity.
Qed.

(** The cascade on a numeric series with a masked cell: every masked
    position receives the fallback value of the state. *)
Lemma cascade_masked_position (s : Series) (pid : option string) (col : string)
  (v : Validator) (i : nat) (c : cell) :
  numeric s -> s !! i = Some c -> masked c ->
  exists r,
    _apply_batting_average_fallback env s pid col v
    = (Ok r, after_tier2 env (after_tier1 v pid) pid)
    /\ r !! i = Some (CNum (fallback_value env v pid)).
Proof.
  intros Hn Hi Hc.
  destruct (numeric_invalid_mask _ Hn) as [m Hm].
  pose proof (masked_mask_any _ _ _ _ Hm Hi Hc) as Hany.
  rewrite (cascade_run env _ _ _ _ _ Hm Hany). eexists. split; [reflexivity|].
  rewrite (fill_invalid_lookup _ _ _ _ Hi). unfold masked in Hc. rewrite Hc. reflexivity.
Qed.

End Cascade.

(** C4. Null, zero, negative and above-one values are all masked as
    invalid; at one validator state the cascade writes the same value into
    every masked position, whatever its shape; and with no live cache
    entry and no season data that value is the league average 0.244. *)
Theorem cascade_invalid_shapes_alike
  (env : Env) (v : Validator) (pid : option string) (col : string)
  (s1 s2 : Series) (i j : nat) (c1 c2 : cell) :
  numeric s1 -> numeric s2 ->
  s1 !! i = Some c1 -> s2 !! j = Some c2 ->
  invalid_shape c1 -> invalid_shape c2 ->
  masked c1 /\ masked c2
  /\ (exists r1 r2 v',
        _apply_batting_average_fallback env s1 pid col v = (Ok r1, v')
        /\ _apply_batting_average_fallback env s2 pid col v = (Ok r2, v')
        /\ r1 !! i = Some (CNum (fallback_value env v pid))
        /\ r2 !! j = Some (CNum (fallback_value env v pid))
        /\ r1 !! i = r2 !! j)
  /\ (no_live_entry env v pid -> no_season_data env v pid ->
      fallback_value env v pid = league_average
      /\ league_average = F64.decimal 244 1000).
Proof.
  intros Hn1 Hn2 Hi Hj Hc1 Hc2.
  apply masked_iff_invalid_shape in Hc1, Hc2.
  split; [exact Hc1|]. split; [exact Hc2|]. split.
  - destruct (cascade_masked_position env s1 pid col v i c1 Hn1 Hi Hc1) as (r1 & Hr1 & Hv1).
    destruct (cascade_masked_position env s2 pid col v j c2 Hn2 Hj Hc2) as (r2 & Hr2 & Hv2).
    exists r1, r2, (after_tier2 env (after_tier1 v pid) pid).
    split; [exact Hr1|]. split; [exact Hr2|].
    split; [exact Hv1|]. split; [exact Hv2|].
    rewrite Hv1, Hv2. reflexivity.
  - intros H1 H2. split; [apply fallback_value_league; assumption | reflexivity].
Qed.

(** C7. A cache entry is live exactly when [now - timestamp] is below
    the cache duration; an entry whose age has reached the duration makes
    tier 1 return the series untouched, and with no season data the masked
    values then end as the league average 0.244. *)
Theorem stale_entry_skips_tier1
  (env : Env) (v : Validator) (pid : option string) (p : string) (a : float) (t : Z)
  (s : Series) (col : string) :
  truthy_id pid = Some p ->
  cache v !! p = Some (PreviousAvg a t) ->
  cache_duration env <= clock env (clock_reads v) - t ->
  numeric s ->
  (forall ts,
     fst (_is_cache_valid env ts v)
     = Ok (bool_decide (clock env (clock_reads v) - ts < cache_duration env)))
  /\ fst (_is_cache_valid env t v) = Ok false
  /\ fst (_apply_previous_game_fallback env s pid v) = Ok s
  /\ (no_season_data env v pid ->
      exists r v',
        _apply_batting_average_fallback env s pid col v = (Ok r, v')
        /\ forall i c, s !! i = Some c -> masked c ->
             r !! i = Some (CNum league_average)).
Proof.
  intros Hp Hc Hstale Hn.
  assert (Hvalid : forall ts,
     fst (_is_cache_valid env ts v)
     = Ok (bool_decide (clock env (clock_reads v) - ts < cache_duration env))).
  { intros ts. unfold _is_cache_valid, bind, datetime_now, ret. cbn [fst]. f_equal.
    destruct (Z.ltb_spec (clock env (clock_reads v) - ts) (cache_duration env)).
    - rewrite bool_decide_eq_true_2; [reflexivity | assumption].
    - rewrite bool_decide_eq_false_2; [reflexivity | lia]. }
  assert (Hnl : no_live_entry env v pid).
  { intros p' a' t' Hp' Hc'. congruence. }
  split; [exact Hvalid|]. split.
  { rewrite Hvalid. rewrite bool_decide_eq_false_2; [reflexivity | lia]. }
  split.
  { destruct (numeric_invalid_mask _ Hn) as [m Hm].
    rewrite (tier1_run env _ _ _ _ Hm), (tier1_offer_stale env _ _ Hnl). reflexivity. }
  intros Hns.
  destruct (numeric_invalid_mask _ Hn) as [m Hm].
  destruct (mask_any m) eqn:Hany.
  - rewrite (cascade_run env _ _ _ _ _ Hm Hany).
    rewrite (fallback_value_league env _ _ Hnl Hns).
    eexists _, _. split; [reflexivity|].
    intros i c Hi Hmask. rewrite (fill_invalid_lookup _ _ _ _ Hi).
    unfold masked in Hmask. rewrite Hmask. reflexivity.
  - rewrite (cascade_run_clean env _ _ _ _ _ Hm Hany).
    eexists _, _. split; [reflexivity|].
    intros i c Hi Hmask. rewrite (masked_mask_any _ _ _ _ Hm Hi Hmask) in Hany.
    discriminate.
Qed.

(** ** What can be raised, and when validation returns *)

Lemma invalid_mask_raises_type_error (s : Series) (e : exn) :
  invalid_mask s = Raise e -> e = TypeError.
Proof.
  unfold invalid_mask. induction s as [|c s IH]; cbn [res_mapM]; [discriminate|].
  destruct c as [|x|f]; cbn [invalid_cell res_bind].
  - destruct (res_mapM invalid_cell s); cbn [res_bind]; [discriminate|].
    intros [= <-]. apply IH. reflexivity.
  - intros [= <-]. reflexivity.
  - destruct (res_mapM invalid_cell s); cbn [res_bind]; [discriminate|].
    intros [= <-]. apply IH. reflexivity.
Qed.

Lemma series_div_raises_type_error (a b : Series) (e : exn) :
  series_div a b = Raise e -> e = TypeError.
Proof.
  revert b. induction a as [|x a IH]; intros [|y b]; cbn [series_div]; try discriminate.
  destruct (cell_div x y) as [q|e0] eqn:Hq; cbn [res_bind].
  - destruct (series_div a b) as [qs|e1] eqn:Hs; cbn [res_bind]; [discriminate|].
    intros [= <-]. eapply IH. exact Hs.
  - intros [= <-]. unfold cell_div in Hq.
    destruct (cell_isnull x || cell_isnull y); [discriminate|].
    destruct x, y; congruence.
Qed.

Lemma get_col_select_rows (c : string) (mask : list bool) (df : DataFrame) :
  get_col c (select_rows mask df) = option_map (select mask) (get_col c df).
Proof.
  unfold get_col, select_rows. cbn [columns].
  induction (columns df) as [|[n s] cols IH]; [reflexivity|].
  cbn [map assoc_get]. destruct (String.eqb n c); [reflexivity | exact IH].
Qed.

Lemma _calc_overall_avg_from_events_returns (data : DataFrame) (l : list string) :
  has_col "events" data = true -> exists a, _calc_overall_avg_from_events data l = Ok a.
Proof.
  unfold has_col, _calc_overall_avg_from_events. intros H.
  destruct (df_empty data); [eauto|].
  destruct (get_col "events" data); [eauto | discriminate].
Qed.

(** The rate of every named player can be computed. *)
Lemma player_averages_return (data : DataFrame) (names keys : Series) :
  has_col "events" data = true ->
  exists mapped,
    res_mapM (fun key =>
       if cell_isnull key then Ok (CNum F64.nan)
       else
         res_bind
           (_calc_player_avg_from_events
              (select_rows (map (key_eqb key) names) data) hit_events)
           (fun v => Ok (CNum v))) keys = Ok mapped.
Proof.
  intros Hev. induction keys as [|k keys [mapped IH]]; [exists []; reflexivity|].
  cbn [res_mapM]. rewrite IH.
  destruct (cell_isnull k); [eexists; reflexivity|].
  unfold _calc_player_avg_from_events.
  destruct (_calc_overall_avg_from_events_returns
              (select_rows (map (key_eqb k) names) data) hit_events) as [a Ha].
  { unfold has_col in *. rewrite get_col_select_rows.
    destruct (get_col "events" data); [reflexivity | discriminate]. }
  rewrite Ha. eexists. reflexivity.
Qed.

(** The event-based derivation raises on one kind of table only: an
    [events] and a [player_name] column, and no name that is not null. *)
Lemma _calculate_avg_from_events_raises (data : DataFrame) (e : exn) :
  _calculate_avg_from_events data = Raise e ->
  e = ValueError
  /\ has_col "events" data = true
  /\ exists names, get_col "player_name" data = Some names
                   /\ forallb cell_isnull names = true.
Proof.
  unfold _calculate_avg_from_events.
  destruct (has_col "events" data) eqn:Hev; cbn [negb]; [|discriminate].
  destruct (get_col "player_name" data) as [names|].
  - destruct (forallb cell_isnull names) eqn:Hnull.
    + intros [= <-]. split; [reflexivity|]. split; [reflexivity|]. eauto.
    + destruct (player_averages_return data names names Hev) as [mapped ->].
      discriminate.
  - destruct (_calc_overall_avg_from_events_returns data hit_events Hev) as [a ->].
    discriminate.
Qed.

(** The derivation raises a type error (a string divided) or a value error
    (no player named), nothing else. *)
Lemma _calculate_batting_average_raises (data : DataFrame) (e : exn) :
  _calculate_batting_average data = Raise e -> e = TypeError \/ e = ValueError.
Proof.
  unfold _calculate_batting_average.
  assert (Hev : (if has_col "events" data
                 then res_bind (_calculate_avg_from_events data)
                        (fun s => Ok (set_col "calculated_avg" s data))
                 else Ok (set_col "calculated_avg"
                            (repeat (CNum league_average) (nrows data)) data)) = Raise e ->
                e = TypeError \/ e = ValueError).
  { destruct (has_col "events" data); [|discriminate].
    destruct (_calculate_avg_from_events data) as [s|e0] eqn:Hs; [discriminate|].
    cbn [res_bind]. intros [= <-]. right.
    exact (proj1 (_calculate_avg_from_events_raises data e0 Hs)). }
  destruct (get_col "hits" data) as [hits|]; [|exact Hev].
  destruct (get_col "at_bats" data) as [at_bats|]; [|exact Hev].
  destruct (series_div hits (replace_zero_nan at_bats)) as [q|e0] eqn:Hq;
    cbn [res_bind]; [discriminate|].
  intros [= <-]. left. eapply series_div_raises_type_error. exact Hq.
Qed.

Lemma valid_avg_numeric (s : Series) : Forall valid_avg s -> numeric s.
Proof.
  unfold numeric. induction 1 as [|c s (f & -> & _) _ IH]; constructor; [|exact IH].
  intros x. discriminate.
Qed.

Section Totality.

Variable env : Env.

Lemma cascade_raises_type_error (s : Series) (pid : option string) (col : string)
  (v v' : Validator) (e : exn) :
  _apply_batting_average_fallback env s pid col v = (Raise e, v') -> e = TypeError.
Proof.
  intros H. destruct (invalid_mask s) as [m|e0] eqn:Hm.
  - destruct (mask_any m) eqn:Hany.
    + rewrite (cascade_run env _ _ _ _ _ Hm Hany) in H. discriminate.
    + rewrite (cascade_run_clean env _ _ _ _ _ Hm Hany) in H. discriminate.
  - rewrite (cascade_run_raise env _ _ _ _ _ Hm) in H. injection H as <- _.
    eapply invalid_mask_raises_type_error. exact Hm.
Qed.

Lemma cascade_returns (s : Series) (pid : option string) (col : string) (v : Validator) :
  numeric s ->
  exists r v', _apply_batting_average_fallback env s pid col v = (Ok r, v').
Proof.
  intros Hn. destruct (numeric_invalid_mask _ Hn) as [m Hm].
  destruct (mask_any m) eqn:Hany.
  - rewrite (cascade_run env _ _ _ _ _ Hm Hany). eauto.
  - rewrite (cascade_run_clean env _ _ _ _ _ Hm Hany). eauto.
Qed.

Lemma validate_columns_raises_type_error (cols : list string) (pid : option string) :
  forall (df : DataFrame) (v v' : Validator) (e : exn),
  validate_columns env cols pid df v = (Raise e, v') -> e = TypeError.
Proof.
  induction cols as [|col rest IH]; intros df v v' e H; cbn [validate_columns] in H.
  - discriminate.
  - destruct (get_col col df) as [s0|]; [|eauto].
    unfold bind in H.
    destruct (_apply_batting_average_fallback env s0 pid col v) as [[s1|e1] v1] eqn:Hf.
    + eauto.
    + injection H as <- _. eapply cascade_raises_type_error. exact Hf.
Qed.

Lemma validate_columns_returns (cols : list string) (pid : option string) :
  forall (df : DataFrame) (v : Validator),
  (forall c s, In c cols -> get_col c df = Some s -> numeric s) ->
  exists res v', validate_columns env cols pid df v = (Ok res, v').
Proof.
  induction cols as [|col rest IH]; intros df v Hnum; cbn [validate_columns].
  - unfold ret. eauto.
  - destruct (get_col col df) as [s0|] eqn:Hcol.
    + destruct (cascade_returns s0 pid col v) as (r & v1 & Hr).
      { eapply Hnum; [left; reflexivity | exact Hcol]. }
      unfold bind. rewrite Hr.
      apply IH. intros c s Hin Hs. rewrite get_col_set_col in Hs.
      destruct (String.eqb col c).
      * injection Hs as <-. apply cascade_valid in Hr as [Hv _].
        apply valid_avg_numeric, Hv.
      * eapply Hnum; [right; exact Hin | exact Hs].
    + apply IH. intros c s Hin Hs. eapply Hnum; [right; exact Hin | exact Hs].
Qed.

(** Validation raises nothing but a type error (a string in an average
    column, or one divided in a hits or at-bats column) or a value error (a
    [player_name] column without a name, when the average is derived from
    events). *)
Lemma validate_batting_averages_raises
  (data : option DataFrame) (pid : option string) (v v' : Validator) (e : exn) :
  validate_batting_averages env data pid v = (Raise e, v') ->
  e = TypeError \/ e = ValueError.
Proof.
  unfold validate_batting_averages. destruct data as [data|]; [|discriminate].
  destruct (df_empty data); [discriminate|].
  destruct (List.filter is_avg_column (column_names data)) as [|c0 cs].
  - unfold bind at 1. unfold lift.
    destruct (_calculate_batting_average data) as [df1|e0] eqn:Hc.
    + intros H. left. exact (validate_columns_raises_type_error _ _ _ _ _ _ H).
    + intros [= <- _]. eapply _calculate_batting_average_raises. exact Hc.
  - intros H. left. exact (validate_columns_raises_type_error _ _ _ _ _ _ H).
Qed.

(** Validation returns on every table whose average-like columns hold no
    strings. *)
Lemma validate_batting_averages_returns
  (data : DataFrame) (pid : option string) (v : Validator) :
  List.filter is_avg_column (column_names data) <> [] ->
  (forall c s, is_avg_column c = true -> get_col c data = Some s -> numeric s) ->
  exists res v', validate_batting_averages env (Some data) pid v = (Ok res, v').
Proof.
  intros Hsome Hnum. unfold validate_batting_averages.
  destruct (df_empty data); [unfold ret; eauto|].
  destruct (List.filter is_avg_column (column_names data)) as [|c0 cs] eqn:Hf;
    [congruence|].
  apply validate_columns_returns. intros c s Hin Hs.
  rewrite <- Hf in Hin. apply filter_In in Hin as [_ Ha]. eauto.
Qed.

End Totality.

Lemma after_tier1_reads (v : Validator) (pid : option string) :
  (clock_reads v <= clock_reads (after_tier1 v pid))%nat.
Proof.
  unfold after_tier1. destruct (truthy_id pid) as [p|]; [|lia].
  destruct (cache v !! p) as [[]|]; cbn [clock_reads]; lia.
Qed.

(** With a provider that yields no rows and nothing live under the season
    key, the season lookup has nothing to offer. *)
Lemma get_season_average_nothing_live (env : Env) (p : string) (w : Validator) :
  (forall a b, no_rows (statcast_batter env a b p)) ->
  (forall e, cache w !! season_key p = Some e ->
     cache_duration env <= clock env (clock_reads w) - timestamp_of e) ->
  fst (_get_player_season_average env p w) = Ok None.
Proof.
  intros Hdown Hstale. rewrite (get_season_average_provider_down env p w Hdown).
  destruct (cache w !! season_key p) as [[a t|a t]|]; [| |reflexivity];
    specialize (Hstale _ eq_refl); cbn [timestamp_of] in Hstale;
    (destruct (Z.ltb_spec (clock env (clock_reads w) - t) (cache_duration env));
       [lia | reflexivity]).
Qed.

Lemma tier2_offer_nothing_live (env : Env) (v w : Validator) (pid : option string) :
  (forall p a b, no_rows (statcast_batter env a b p)) ->
  no_live_season_entry env v pid ->
  cache w = cache v -> (clock_reads v <= clock_reads w)%nat ->
  tier2_offer env w pid = None.
Proof.
  intros Hdown Hstale Hc Hk. unfold tier2_offer.
  destruct (truthy_id pid) as [p|] eqn:Hp; [|reflexivity].
  rewrite (get_season_average_nothing_live env p w (Hdown p)); [reflexivity|].
  intros e He. rewrite Hc in He. exact (Hstale p e _ Hp He Hk).
Qed.

(** C8. When the provider raises, validation never lets that failure
    out.  The season lookup then answers "no value" whenever nothing live
    is cached under the season key, whether there is no entry or a stale
    one; tier 2 leaves the series as it is, and tier 3 sets whatever tier 1
    left masked to the league average.  (On tables with distinct labels and
    string-free average columns validation returns.) *)
Theorem provider_failure_is_contained
  (env : Env) (data : option DataFrame) (pid : option string) (v : Validator)
  (s : Series) (col : string) :
  (forall a b p, statcast_batter env a b p = FetchRaises) ->
  numeric s ->
  fst (validate_batting_averages env data pid v) <> Raise ProviderError
  /\ (forall d, data = Some d -> distinct_labels d ->
        List.filter is_avg_column (column_names d) <> [] ->
        (forall c x, is_avg_column c = true -> get_col c d = Some x -> numeric x) ->
        exists res v', validate_batting_averages env data pid v = (Ok res, v'))
  /\ (forall p, fst (_get_player_season_average env p v) <> Raise ProviderError)
  /\ (forall p,
        (forall e, cache v !! season_key p = Some e ->
           cache_duration env <= clock env (clock_reads v) - timestamp_of e) ->
        fst (_get_player_season_average env p v) = Ok None)
  /\ (no_live_season_entry env v pid ->
      fst (_apply_season_average_fallback env s pid v) = Ok s
      /\ exists s1 r v',
           fst (_apply_previous_game_fallback env s pid v) = Ok s1
           /\ _apply_batting_average_fallback env s pid col v = (Ok r, v')
           /\ r = fill_invalid league_average s1).
Proof.
  intros Hdown Hn.
  assert (Hrows : forall p a b, no_rows (statcast_batter env a b p)).
  { intros p a b. rewrite Hdown. exact I. }
  split.
  { destruct (validate_batting_averages env data pid v) as [[res|e] v'] eqn:Hv;
      [discriminate|].
    destruct (validate_batting_averages_raises env _ _ _ _ _ Hv) as [-> | ->];
      discriminate. }
  split.
  { intros d -> _ Hsome Hnum. apply validate_batting_averages_returns; assumption. }
  split; [intros p; apply get_season_average_contains_provider|].
  split.
  { intros p Hstale. apply get_season_average_nothing_live; [apply Hrows | exact Hstale]. }
  intros Hstale.
  destruct (numeric_invalid_mask _ Hn) as [m Hm].
  split.
  { rewrite (tier2_run env _ _ _ _ Hm),
      (tier2_offer_nothing_live env v v pid Hrows Hstale eq_refl (Nat.le_refl _)).
    reflexivity. }
  exists (fill_invalid_opt (tier1_offer env v pid) s).
  rewrite (tier1_run env _ _ _ _ Hm). cbn [fst].
  destruct (mask_any m) eqn:Hany.
  - rewrite (cascade_run env _ _ _ _ _ Hm Hany). eexists _, _.
    split; [reflexivity|]. split; [reflexivity|].
    unfold fallback_value.
    rewrite (tier2_offer_nothing_live env v _ pid Hrows Hstale (after_tier1_cache v pid)
               (after_tier1_reads v pid)).
    rewrite <- fill_cascade. reflexivity.
  - rewrite (cascade_run_clean env _ _ _ _ _ Hm Hany). eexists _, _.
    split; [reflexivity|]. split; [reflexivity|].
    destruct (mask_any_false _ _ Hm Hany) as [_ Hfill].
    destruct (tier1_offer env v pid); cbn [fill_invalid_opt]; rewrite ?Hfill; reflexivity.
Qed.

(** ** Caching a previous average *)

Lemma string_length_append (a b : string) :
  String.length (a ++ b) = (String.length a + String.length b)%nat.
Proof.
  induction a as [|c a IH]; [reflexivity|].
  change (String c a ++ b)%string with (String c (a ++ b)).
  cbn [String.length Nat.add]. f_equal. exact IH.
Qed.

Lemma season_key_fresh (p : string) : p <> season_key p.
Proof.
  intros H. apply (f_equal String.length) in H.
  unfold season_key in H. rewrite string_length_append in H. cbn in H. lia.
Qed.

Lemma positive_unit_valid (a : float) :
  F64.ltb F64.zero a = true -> F64.leb a F64.one = true -> invalid_float a = false.
Proof.
  unfold invalid_float, F64.eqb, F64.ltb, F64.leb, SFeqb, SFltb, SFleb, F64.zero, F64.one.
  intros H0 H1.
  destruct a as [sg|sg| |sg m e]; try discriminate.
  - destruct sg; cbn [SFcompare] in *; discriminate.
  - destruct sg; [cbn [SFcompare] in *; discriminate|].
    cbn [F64.is_nan orb]. rewrite (SFcompare_pos_finite_swap 4503599627370496 m).
    cbn [SFcompare option_map] in *.
    destruct (e ?= -52); cbn [CompOpp] in *; try discriminate; try reflexivity.
    destruct (Pos.compare_cont Eq m 4503599627370496);
      cbn [CompOpp] in *; try discriminate; reflexivity.
Qed.

Lemma fill_null_cells (a : float) (s : Series) :
  Forall (fun c => null_cell c \/ c = CNum a) s -> invalid_float a = false ->
  numeric s /\ fill_invalid a s = repeat (CNum a) (length s).
Proof.
  intros Hs Ha. induction Hs as [|c s Hc _ [IHn IH]].
  - split; [constructor | reflexivity].
  - split.
    + constructor; [|exact IHn]. intros x ->. destruct Hc as [Hc|Hc]; discriminate.
    + cbn [fill_invalid map length repeat]. unfold fill_invalid in IH. rewrite IH.
      f_equal. destruct Hc as [Hc| ->].
      * destruct c as [|x|f]; try discriminate; [reflexivity|].
        cbn [invalid_cell]. unfold null_cell in Hc. cbn [cell_isnull] in Hc.
        rewrite Hc. reflexivity.
      * rewrite invalid_cell_num, Ha. reflexivity.
Qed.

Section Caching.

Variable env : Env.

(** One column of nulls (or of the cached value already), validated while
    the entry for the player is live. *)
Lemma cascade_fills_from_cache (s : Series) (pid : option string) (p : string)
  (col : string) (a : float) (t0 : Z) (v : Validator) :
  truthy_id pid = Some p ->
  invalid_float a = false ->
  cache v !! p = Some (PreviousAvg a t0) ->
  clock env (clock_reads v) - t0 < cache_duration env ->
  Forall (fun c => null_cell c \/ c = CNum a) s ->
  exists v',
    _apply_batting_average_fallback env s pid col v
    = (Ok (repeat (CNum a) (length s)), v')
    /\ cache v' !! p = Some (PreviousAvg a t0).
Proof.
  intros Hp Ha Hc Hlive Hs.
  destruct (fill_null_cells _ _ Hs Ha) as [Hn Hfill].
  destruct (numeric_invalid_mask _ Hn) as [m Hm].
  destruct (mask_any m) eqn:Hany.
  - rewrite (cascade_run env _ _ _ _ _ Hm Hany). eexists. split.
    + f_equal. f_equal. rewrite <- Hfill. f_equal.
      unfold fallback_value, tier1_offer. rewrite Hp, Hc.
      destruct (Z.ltb_spec (clock env (clock_reads v) - t0) (cache_duration env)); [|lia].
      unfold cascade_value. rewrite Ha. reflexivity.
    + unfold after_tier2. rewrite Hp.
      rewrite get_season_average_cache_other by apply season_key_fresh.
      rewrite after_tier1_cache. exact Hc.
  - rewrite (cascade_run_clean env _ _ _ _ _ Hm Hany). exists v. split; [|exact Hc].
    destruct (mask_any_false _ _ Hm Hany) as [_ Hid].
    rewrite <- Hfill, Hid. reflexivity.
Qed.

Lemma validate_columns_fills_from_cache (cols : list string) (pid : option string)
  (p : string) (a : float) (t0 : Z) :
  truthy_id pid = Some p ->
  invalid_float a = false ->
  (forall k, clock env k - t0 < cache_duration env) ->
  forall (df : DataFrame) (v : Validator),
  cache v !! p = Some (PreviousAvg a t0) ->
  (forall c s, In c cols -> get_col c df = Some s ->
     Forall (fun x => null_cell x \/ x = CNum a) s) ->
  exists res v',
    validate_columns env cols pid df v = (Ok res, v')
    /\ forall c s, In c cols -> get_col c df = Some s ->
         get_col c res = Some (repeat (CNum a) (length s)).
Proof.
  intros Hp Ha Hlive.
  induction cols as [|col rest IH]; intros df v Hc Hnull; cbn [validate_columns].
  - unfold ret. eexists _, _. split; [reflexivity|]. intros c s [].
  - destruct (get_col col df) as [s0|] eqn:Hcol.
    + destruct (cascade_fills_from_cache s0 pid p col a t0 v Hp Ha Hc (Hlive _))
        as (v1 & Hrun & Hc1).
      { eapply Hnull; [left; reflexivity | exact Hcol]. }
      unfold bind. rewrite Hrun.
      destruct (IH (set_col col (repeat (CNum a) (length s0)) df) v1 Hc1)
        as (res & v' & Hres & Hcols).
      { intros c s Hin Hs. rewrite get_col_set_col in Hs.
        destruct (String.eqb col c).
        - injection Hs as <-. clear. induction (length s0); constructor; auto.
        - eapply Hnull; [right; exact Hin | exact Hs]. }
      exists res, v'. split; [exact Hres|].
      intros c s Hin Hs.
      destruct (in_dec String.string_dec c rest) as [Hr|Hr].
      * destruct (String.eqb col c) eqn:Heq.
        -- apply String.eqb_eq in Heq as <-.
           rewrite Hcol in Hs. injection Hs as <-.
           rewrite (Hcols col (repeat (CNum a) (length s0)) Hr).
           ++ rewrite repeat_length. reflexivity.
           ++ rewrite get_col_set_col, String.eqb_refl. reflexivity.
        -- apply Hcols; [exact Hr|]. rewrite get_col_set_col, Heq. exact Hs.
      * destruct Hin as [<-|Hin]; [|contradiction].
        apply validate_columns_spec in Hres as (_ & _ & Hframe & _).
        rewrite (Hframe _ Hr), get_col_set_col, String.eqb_refl.
        rewrite Hcol in Hs. injection Hs as <-. reflexivity.
    + destruct (IH df v Hc) as (res & v' & Hres & Hcols).
      { intros c s Hin Hs. eapply Hnull; [right; exact Hin | exact Hs]. }
      exists res, v'. split; [exact Hres|].
      intros c s [<-|Hin] Hs; [congruence | eauto].
Qed.

End Caching.

(** C2, amended. For a non-empty identifier and a value [a] with
    [0 < a <= 1], [cache_player_average] stores the entry, and validating,
    while that entry is live, a table whose average-like columns are
    entirely null yields [a] in every row of those columns (tier 1
    pre-empts tiers 2 and 3). *)
Theorem cached_average_fills_null_columns
  (env : Env) (v0 : Validator) (pid : option string) (p : string) (a : float)
  (data : DataFrame) :
  truthy_id pid = Some p ->
  F64.ltb F64.zero a = true ->
  F64.leb a F64.one = true ->
  (forall k, clock env k - clock env (clock_reads v0) < cache_duration env) ->
  List.filter is_avg_column (column_names data) <> [] ->
  (forall c s, is_avg_column c = true -> get_col c data = Some s -> Forall null_cell s) ->
  exists v1 res v2,
    cache_player_average env pid (Some a) v0 = (Ok tt, v1)
    /\ cache v1 !! p = Some (PreviousAvg a (clock env (clock_reads v0)))
    /\ validate_batting_averages env (Some data) pid v1 = (Ok res, v2)
    /\ (forall c s, is_avg_column c = true -> get_col c res = Some s ->
          Forall (fun x => x = CNum a) s)
    /\ (df_empty data = false ->
        forall c s, is_avg_column c = true -> get_col c data = Some s ->
          get_col c res = Some (repeat (CNum a) (length s))).
Proof.
  intros Hp Hpos Hle Hlive Hsome Hnull.
  pose proof (positive_unit_valid a Hpos Hle) as Ha.
  assert (H0 : F64.leb F64.zero a = true).
  { unfold F64.ltb, F64.leb, SFltb, SFleb in *.
    destruct (SFcompare F64.zero a) as [[]|]; try discriminate; reflexivity. }
  unfold cache_player_average. rewrite Hp, H0, Hle. cbn [andb].
  unfold bind at 1. unfold datetime_now at 1. unfold cache_store at 1.
  cbn [cache clock_reads].
  eexists. 
  set (v1 := {| cache := <[p:=PreviousAvg a (clock env (clock_reads v0))]> (cache v0);
                clock_reads := S (clock_reads v0) |}).
  assert (Hc1 : cache v1 !! p = Some (PreviousAvg a (clock env (clock_reads v0)))).
  { apply lookup_insert_eq. }
  unfold validate_batting_averages.
  destruct (df_empty data) eqn:He.
  - exists DataFrame_new, v1. split; [reflexivity|]. split; [exact Hc1|].
    split; [reflexivity|]. split; [discriminate | discriminate].
  - destruct (List.filter is_avg_column (column_names data)) as [|c0 cs] eqn:Hf;
      [congruence|]. rewrite <- Hf.
    destruct (validate_columns_fills_from_cache env
                (List.filter is_avg_column (column_names data)) pid p a
                (clock env (clock_reads v0)) Hp Ha Hlive data v1 Hc1)
      as (res & v2 & Hres & Hcols).
    { intros c s Hin Hs. apply filter_In in Hin as [_ Hin].
      specialize (Hnull c s Hin Hs). clear - Hnull.
      induction Hnull; constructor; auto. }
    exists res, v2. split; [reflexivity|]. split; [exact Hc1|].
    split; [exact Hres|].
    assert (Hall : forall c s, is_avg_column c = true -> get_col c data = Some s ->
               get_col c res = Some (repeat (CNum a) (length s))).
    { intros c s Hc Hs. apply Hcols; [|exact Hs].
      eapply avg_column_in_filter; eauto. }
    split; [|intros _; exact Hall].
    intros c s Hc Hs.
    pose proof Hres as Hspec.
    apply validate_columns_spec in Hspec as (_ & _ & _ & _ & Hlens).
    destruct (Hlens _ _ Hs) as (s0 & Hs0 & _).
    rewrite (Hall _ _ Hc Hs0) in Hs. injection Hs as <-.
    clear. induction (length s0); constructor; auto.
Qed.

(** ** Deriving the average from hits and at-bats *)

(** One row of [hits / at_bats.replace(0, nan)]. *)
Lemma cell_div_row (h a : cell) :
  cell_div h (match a with
              | CNum f => if F64.eqb f F64.zero then CNum F64.nan else a
              | _ => a
              end)
  = if no_quotient h a then Ok (CNum F64.nan)
    else match h, a with
         | CNum fh, CNum fa => Ok (CNum (F64.div fh fa))
         | _, _ => Raise TypeError
         end.
Proof.
  unfold cell_div, no_quotient.
  destruct a as [|x|fa]; cbn [cell_isnull zero_cell].
  - rewrite !orb_false_r. destruct h; reflexivity.
  - rewrite !orb_false_r. destruct h; reflexivity.
  - destruct (F64.eqb fa F64.zero) eqn:Hz.
    + cbn [cell_isnull F64.is_nan F64.nan]. rewrite !orb_true_r. reflexivity.
    + cbn [cell_isnull]. rewrite !orb_false_r. destruct h; reflexivity.
Qed.

Lemma derived_cell (hits at_bats q : Series) (i : nat) (h a : cell) :
  series_div hits (replace_zero_nan at_bats) = Ok q ->
  hits !! i = Some h -> at_bats !! i = Some a ->
  exists c,
    q !! i = Some c
    /\ Ok c = if no_quotient h a then Ok (CNum F64.nan)
              else match h, a with
                   | CNum fh, CNum fa => Ok (CNum (F64.div fh fa))
                   | _, _ => Raise TypeError
                   end.
Proof.
  revert at_bats q i.
  induction hits as [|x hits IH]; intros [|y at_bats] q i Hq Hh Ha; try discriminate.
  cbn [replace_zero_nan map series_div] in Hq.
  destruct (cell_div x _) as [c|] eqn:Hc; cbn [res_bind] in Hq; [|discriminate].
  destruct (series_div hits _) as [qs|] eqn:Hqs; cbn [res_bind] in Hq; [|discriminate].
  injection Hq as <-.
  destruct i as [|i].
  - injection Hh as ->. injection Ha as ->.
    exists c. split; [reflexivity|]. rewrite <- Hc. apply cell_div_row.
  - exact (IH at_bats qs i Hqs Hh Ha).
Qed.

(** The division returns when no string meets a partner it would be divided
    with. *)
Lemma series_div_returns (hits at_bats : Series) :
  (forall i h a, hits !! i = Some h -> at_bats !! i = Some a ->
     no_quotient h a = false -> is_string h = false /\ is_string a = false) ->
  exists q, series_div hits (replace_zero_nan at_bats) = Ok q.
Proof.
  revert at_bats. induction hits as [|h hits IH]; intros [|a at_bats] Hrows;
    try (eexists; reflexivity).
  cbn [replace_zero_nan map series_div]. rewrite cell_div_row.
  destruct (IH at_bats) as [qs Hqs].
  { intros i h' a' Hh Ha. exact (Hrows (S i) h' a' Hh Ha). }
  fold (replace_zero_nan at_bats).
  destruct (no_quotient h a) eqn:Hnq.
  - cbn [res_bind]. rewrite Hqs. eexists. reflexivity.
  - destruct (Hrows 0%nat h a eq_refl eq_refl Hnq) as [Hsh Hsa].
    destruct h as [|?|fh];
      [unfold no_quotient in Hnq; cbn [cell_isnull orb] in Hnq; discriminate
      |discriminate|].
    destruct a as [|?|fa];
      [unfold no_quotient in Hnq; cbn [cell_isnull zero_cell] in Hnq;
       rewrite orb_true_r in Hnq; discriminate
      |discriminate|].
    cbn [res_bind]. rewrite Hqs. eexists. reflexivity.
Qed.

Lemma fillna_lookup (s : Series) (v : float) (i : nat) (c : cell) :
  s !! i = Some c -> fillna s v !! i = Some (if cell_isnull c then CNum v else c).
Proof.
  revert i. induction s as [|c0 s IH]; intros [|i] H; try discriminate.
  - injection H as ->. reflexivity.
  - apply (IH i H).
Qed.

(** C6, amended. With no average-like column but [hits] and [at_bats]
    columns, the derived [calculated_avg] is, row by row, the float quotient
    [hits / at_bats] when both are numbers, [at_bats] is nonzero and that
    quotient is not NaN, and the league average 0.244 when [at_bats] is zero,
    when either entry is null ([None] or NaN), or when the quotient is NaN;
    it is never NaN.  The derivation returns when no string meets an entry
    it would be divided with, and raises a type error when one does.
    Validation returns the derived column after the cascade.  For the pairs
    (85,300), (92,320), (78,295) the derived values, which validation
    returns unchanged, are 85/300, 92/320 and 78/295. *)
Theorem derived_average_from_hits_and_at_bats
  (data : DataFrame) (hits at_bats : Series) :
  distinct_labels data ->
  get_col "hits" data = Some hits ->
  get_col "at_bats" data = Some at_bats ->
  ((forall i h a, hits !! i = Some h -> at_bats !! i = Some a ->
      no_quotient h a = false -> is_string h = false /\ is_string a = false) ->
   exists derived,
     _calculate_batting_average data = Ok (set_col "calculated_avg" derived data)
     /\ (forall i h a, hits !! i = Some h -> at_bats !! i = Some a ->
          exists d,
            derived !! i = Some (CNum d)
            /\ F64.is_nan d = false
            /\ (no_quotient h a = true -> d = league_average)
            /\ (forall fh fa, h = CNum fh -> a = CNum fa ->
                  F64.eqb fa F64.zero = false ->
                  d = if F64.is_nan (F64.div fh fa) then league_average
                      else F64.div fh fa))
     /\ (forall env pid v r v',
          df_empty data = false ->
          List.filter is_avg_column (column_names data) = [] ->
          _apply_batting_average_fallback env derived pid "calculated_avg" v = (Ok r, v') ->
          validate_batting_averages env (Some data) pid v
          = (Ok (set_col "calculated_avg" r data), v')))
  /\ ((exists i h a, hits !! i = Some h /\ at_bats !! i = Some a
                     /\ no_quotient h a = false
                     /\ (is_string h = true \/ is_string a = true)) ->
      _calculate_batting_average data = Raise TypeError)
  /\ _calculate_batting_average pairs_table
     = Ok (set_col "calculated_avg"
             [CNum (F64.div (F64.of_Z 85) (F64.of_Z 300));
              CNum (F64.div (F64.of_Z 92) (F64.of_Z 320));
              CNum (F64.div (F64.of_Z 78) (F64.of_Z 295))] pairs_table)
  /\ (forall env pid v,
        validate_batting_averages env (Some pairs_table) pid v
        = (Ok (set_col "calculated_avg"
                 [CNum (F64.div (F64.of_Z 85) (F64.of_Z 300));
                  CNum (F64.div (F64.of_Z 92) (F64.of_Z 320));
                  CNum (F64.div (F64.of_Z 78) (F64.of_Z 295))] pairs_table), v)).
Proof.
  intros _ Hh Ha.
  split; [|split; [|split; [reflexivity | intros env pid v; reflexivity]]].
  - intros Hrows. destruct (series_div_returns hits at_bats Hrows) as [q Hq].
    assert (Hrun : _calculate_batting_average data
                   = Ok (set_col "calculated_avg" (fillna q league_average) data)).
    { unfold _calculate_batting_average. rewrite Hh, Ha, Hq. cbn [res_bind].
      unfold set_col. cbn [nrows columns]. rewrite assoc_set_set. reflexivity. }
    exists (fillna q league_average).
    split; [exact Hrun|]. split; cycle 1.
    { intros env pid v r v' He Hnone Hc.
      unfold validate_batting_averages. rewrite He, Hnone.
      unfold bind at 1. unfold lift. rewrite Hrun.
      cbn [validate_columns]. rewrite get_col_set_col. cbn [String.eqb Ascii.eqb Bool.eqb andb].
      unfold bind. rewrite Hc. unfold ret. f_equal. f_equal.
      unfold set_col. cbn [nrows columns]. rewrite assoc_set_set. reflexivity. }
    intros i h a Hi Hj.
    destruct (derived_cell _ _ _ _ _ _ Hq Hi Hj) as (c & Hqi & Hc).
    rewrite (fillna_lookup _ _ _ _ Hqi).
    destruct (no_quotient h a) eqn:Hnq.
    + injection Hc as ->. exists league_average.
      split; [reflexivity|]. split; [reflexivity|]. split; [reflexivity|].
      intros fh fa -> -> Hz. unfold no_quotient in Hnq.
      cbn [cell_isnull zero_cell] in Hnq. rewrite Hz, orb_false_r in Hnq.
      replace (F64.is_nan (F64.div fh fa)) with true; [reflexivity|].
      destruct fh as [sh|sh| |sh mh eh]; destruct fa as [sa|sa| |sa ma ea];
        try discriminate; reflexivity.
    + destruct h as [|?|fh]; try discriminate.
      destruct a as [|?|fa]; try discriminate.
      injection Hc as ->. cbn [cell_isnull].
      destruct (F64.is_nan (F64.div fh fa)) eqn:Hn.
      * exists league_average. split; [reflexivity|]. split; [reflexivity|].
        split; [discriminate|]. intros fh' fa' [= <-] [= <-] _. rewrite Hn. reflexivity.
      * exists (F64.div fh fa). split; [reflexivity|]. split; [exact Hn|].
        split; [discriminate|]. intros fh' fa' [= <-] [= <-] _. rewrite Hn. reflexivity.
  - intros (i & h & a & Hi & Hj & Hnq & Hstr).
    unfold _calculate_batting_average. rewrite Hh, Ha.
    destruct (series_div hits (replace_zero_nan at_bats)) as [q|e] eqn:Hq.
    + exfalso. destruct (derived_cell _ _ _ _ _ _ Hq Hi Hj) as (c & _ & Hc).
      rewrite Hnq in Hc. destruct h as [|?|fh]; try discriminate.
      destruct a as [|?|fa]; try discriminate. destruct Hstr; discriminate.
    + cbn [res_bind]. rewrite (series_div_raises_type_error _ _ _ Hq). reflexivity.
Qed.

(** ** Player records *)

Lemma apply_default_lookup (d : PlayerData) (fd : string * pyval) (k : string) :
  apply_default d fd !! k
  = if String.eqb (fst fd) k
    then match d !! k with
         | None | Some VNone => Some (snd fd)
         | Some x => Some x
         end
    else d !! k.
Proof.
  unfold apply_default. destruct (String.eqb_spec (fst fd) k) as [<-|Hne].
  - destruct (d !! fst fd) as [[]|] eqn:Hd; rewrite ?lookup_insert_eq, ?Hd; reflexivity.
  - destruct (d !! fst fd) as [[]|] eqn:Hd; rewrite ?lookup_insert_ne by exact Hne;
      reflexivity.
Qed.

(** The record after the defaults loop, field by field. *)
Lemma defaults_lookup (d : PlayerData) (k : string) :
  fold_left apply_default required_fields d !! k
  = match List.find (fun fd => String.eqb (fst fd) k) required_fields with
    | Some fd =>
        match d !! k with
        | None | Some VNone => Some (snd fd)
        | Some x => Some x
        end
    | None => d !! k
    end.
Proof.
  unfold required_fields. cbn [fold_left List.find fst snd].
  rewrite !apply_default_lookup. cbn [fst snd].
  repeat match goal with
         | |- context [String.eqb ?a k] => destruct (String.eqb_spec a k) as [<-|?]
         end; try reflexivity; try discriminate;
    rewrite ?apply_default_lookup; cbn [fst snd String.eqb Ascii.eqb Bool.eqb];
    try reflexivity.
Qed.

Lemma field_counts_bit (test : pyval -> bool) (d : PlayerData) (k : string)
  (s : option pyval) :
  field_counts test d k s = 0%nat \/ field_counts test d k s = 1%nat.
Proof.
  unfold field_counts. destruct (d !! k) as [x|]; [|auto].
  destruct (test x && _); auto.
Qed.

Lemma quality_point_counts (d : PlayerData) (k : string) (s : option pyval) :
  quality_point d k s = Z.of_nat (field_counts truthy d k s).
Proof.
  unfold quality_point, field_counts. destruct (d !! k) as [x|]; [|reflexivity].
  destruct (truthy x && _); reflexivity.
Qed.

(** The float thresholds 0.8, 0.6 and 0.4 on [score / 5] cut the scores
    0..5 into the four buckets. *)
Lemma _assess_data_quality_bucket (d : PlayerData) :
  _assess_data_quality d = bucket (truthy_quality_score d).
Proof.
  unfold _assess_data_quality, quality_score, truthy_quality_score, score_with.
  rewrite !quality_point_counts.
  destruct (field_counts_bit truthy d "name" (Some (VStr "Unknown Player"))) as [-> | ->],
    (field_counts_bit truthy d "player_id" None) as [-> | ->],
    (field_counts_bit truthy d "position" (Some (VStr "Unknown"))) as [-> | ->],
    (field_counts_bit truthy d "team" (Some (VStr "Free Agent"))) as [-> | ->],
    (field_counts_bit truthy d "batting_avg" (Some (VFloat league_average))) as [-> | ->];
    vm_compute; reflexivity.
Qed.

Lemma score_with_data_quality (test : pyval -> bool) (d : PlayerData) (q : pyval) :
  score_with test (<["data_quality" := q]> d) = score_with test d.
Proof.
  unfold score_with, field_counts.
  rewrite !lookup_insert_ne by discriminate. reflexivity.
Qed.

Lemma lookup_size_nonzero (d : PlayerData) (k : string) (x : pyval) :
  d !! k = Some x -> Nat.eqb (size d) 0 = false.
Proof.
  intros H. apply Nat.eqb_neq. intros Hs.
  apply map_size_empty_inv in Hs. subst d. rewrite lookup_empty in H. discriminate.
Qed.

(** The batting average of the record after the defaults loop. *)
Lemma defaults_batting_avg (d : PlayerData) :
  fold_left apply_default required_fields d !! "batting_avg"
  = Some match d !! "batting_avg" with
         | None | Some VNone => VFloat league_average
         | Some x => x
         end.
Proof.
  rewrite defaults_lookup. cbn.
  destruct (d !! "batting_avg") as [[]|]; reflexivity.
Qed.

Lemma defaults_field (d : PlayerData) (k : string) (def : pyval) :
  In (k, def) required_fields ->
  k <> "data_quality"%string
  /\ exists x, fold_left apply_default required_fields d !! k = Some x
       /\ (d !! k = None \/ d !! k = Some VNone -> x = def).
Proof.
  intros Hin. rewrite defaults_lookup. cbn in Hin.
  destruct Hin as [[= <- <-]|[[= <- <-]|[[= <- <-]|[[= <- <-]|[[= <- <-]|[]]]]]];
    (split; [discriminate|]); cbn;
    match goal with
    | |- context [d !! ?k] => destruct (d !! k) as [[]|] eqn:Hd
    end; eexists; (split; [reflexivity|]); intros [?|?]; congruence.
Qed.

(** What [validate_player_data] does to a non-empty record whose batting
    average, if any, is null or a number. *)
Lemma validate_player_data_run (d : PlayerData) :
  Nat.eqb (size d) 0 = false ->
  (forall str, d !! "batting_avg" <> Some (VStr str)) ->
  let vd := fold_left apply_default required_fields d in
  let avg := match d !! "batting_avg" with
             | None | Some VNone => VFloat league_average
             | Some x => x
             end in
  let vd' := if replaced_avg avg then <["batting_avg" := VFloat league_average]> vd
             else vd in
  validate_player_data (Some d)
  = Ok (<["data_quality" := VStr (_assess_data_quality vd')]> vd').
Proof.
  intros Hsize Hstr. cbn zeta. unfold validate_player_data. rewrite Hsize.
  rewrite defaults_batting_avg.
  destruct (d !! "batting_avg") as [[|str|z|f]|]; cbn [res_bind py_lt_zero py_gt_one replaced_avg].
  - reflexivity.
  - exfalso. eapply Hstr. reflexivity.
  - destruct (z <? 0); cbn [orb]; [reflexivity|]. destruct (1 <? z); reflexivity.
  - destruct (F64.ltb f F64.zero); cbn [orb]; [reflexivity|].
    destruct (F64.ltb F64.one f); reflexivity.
  - reflexivity.
Qed.

(** C3, amended. The [data_quality] that [validate_player_data] attaches
    is the bucket of a score out of five that counts: name truthy (non-null
    and non-empty) and not 'Unknown Player'; player_id truthy; position
    truthy and not 'Unknown'; team truthy and not 'Free Agent'; batting_avg
    truthy (non-null and nonzero) and not equal to 0.244; scores 4 and 5
    give HIGH, 3 MEDIUM, 2 LOW, 0 and 1 INSUFFICIENT_DATA. *)
Theorem data_quality_is_bucket_of_truthy_score
  (input : option PlayerData) (d' : PlayerData) :
  validate_player_data input = Ok d' ->
  d' !! "data_quality" = Some (VStr (bucket (truthy_quality_score d')))
  /\ bucket 5 = "HIGH"%string /\ bucket 4 = "HIGH"%string
  /\ bucket 3 = "MEDIUM"%string /\ bucket 2 = "LOW"%string
  /\ bucket 1 = "INSUFFICIENT_DATA"%string /\ bucket 0 = "INSUFFICIENT_DATA"%string.
Proof.
  intros H. split; [|repeat split].
  assert (Hdefault : _get_default_player_data !! "data_quality"
            = Some (VStr (bucket (truthy_quality_score _get_default_player_data))))
    by (vm_compute; reflexivity).
  assert (Hgen : forall vd,
    <["data_quality" := VStr (_assess_data_quality vd)]> vd !! "data_quality"
    = Some (VStr (bucket (truthy_quality_score
                            (<["data_quality" := VStr (_assess_data_quality vd)]> vd))))).
  { intros vd. rewrite lookup_insert_eq. unfold truthy_quality_score.
    rewrite score_with_data_quality, _assess_data_quality_bucket. reflexivity. }
  unfold validate_player_data in H. destruct input as [d|]; [|injection H as <-; exact Hdefault].
  destruct (Nat.eqb (size d) 0); [injection H as <-; exact Hdefault|].
  destruct (fold_left apply_default required_fields d !! "batting_avg") as [avg|].
  - destruct avg as [|str|z|f]; cbn [res_bind py_lt_zero py_gt_one] in H.
    + injection H as <-. apply Hgen.
    + discriminate.
    + destruct (z <? 0); cbn [res_bind] in H; [injection H as <-; apply Hgen|].
      destruct (1 <? z); injection H as <-; apply Hgen.
    + destruct (F64.ltb f F64.zero); cbn [res_bind] in H; [injection H as <-; apply Hgen|].
      destruct (F64.ltb F64.one f); injection H as <-; apply Hgen.
  - cbn [res_bind] in H. injection H as <-. apply Hgen.
Qed.

Lemma not_replaced_in_unit (f : float) :
  F64.is_nan f = false -> F64.ltb f F64.zero = false -> F64.ltb F64.one f = false ->
  F64.in_unit f = true.
Proof.
  intros Hn H0 H1. destruct (F64.eqb f F64.zero) eqn:Hz.
  - destruct f as [sg|sg| |sg m e]; try discriminate; try reflexivity.
    all: destruct sg; discriminate.
  - apply valid_float_in_unit. unfold invalid_float. rewrite Hn, Hz, H0, H1. reflexivity.
Qed.

(** The guarantees of [validate_player_data] that do hold: on an absent or
    empty record the canonical default; otherwise, when the batting average
    is absent, null, or a number other than NaN, a record with the five
    fields, defaults where the input had nothing, and the average in range. *)
Lemma validate_player_data_sound (d : PlayerData) :
  validate_player_data None = Ok _get_default_player_data
  /\ validate_player_data (Some ∅) = Ok _get_default_player_data
  /\ _get_default_player_data !! "data_quality" = Some (VStr "INSUFFICIENT_DATA")
  /\ (Nat.eqb (size d) 0 = false ->
      (forall str, d !! "batting_avg" <> Some (VStr str)) ->
      d !! "batting_avg" <> Some (VFloat F64.nan) ->
      exists d',
        validate_player_data (Some d) = Ok d'
        /\ (forall k def, In (k, def) required_fields ->
              exists x, d' !! k = Some x
                /\ (d !! k = None \/ d !! k = Some VNone ->
                    x = def))
        /\ (exists x, d' !! "batting_avg" = Some x /\ avg_in_range x)).
Proof.
  split; [reflexivity|]. split; [reflexivity|]. split; [reflexivity|].
  intros Hsize Hstr Hnan.
  rewrite (validate_player_data_run d Hsize Hstr). cbn zeta.
  eexists. split; [reflexivity|].
  set (avg := match d !! "batting_avg" with
              | None | Some VNone => VFloat league_average
              | Some x => x
              end).
  set (vd := fold_left apply_default required_fields d).
  split.
  - intros k def Hin.
    destruct (defaults_field d k def Hin) as [Hk Hvd]. fold vd in Hvd.
    rewrite lookup_insert_ne by (intros Heq; apply Hk; symmetry; exact Heq).
    destruct (replaced_avg avg) eqn:Hrep; [|exact Hvd].
    destruct (String.eqb_spec "batting_avg" k) as [<-|Hne].
    + rewrite lookup_insert_eq. eexists. split; [reflexivity|].
      intros Hd. cbn in Hin.
      destruct Hin as [[=]|[[=]|[[=]|[[=]|[[= <-]|[]]]]]]. reflexivity.
    + rewrite lookup_insert_ne by exact Hne. exact Hvd.
  - rewrite lookup_insert_ne by discriminate.
    destruct (replaced_avg avg) eqn:Hrep.
    + rewrite lookup_insert_eq. eexists. split; [reflexivity|]. reflexivity.
    + unfold vd. rewrite defaults_batting_avg. fold avg. eexists. split; [reflexivity|].
      unfold avg in *. destruct (d !! "batting_avg") as [[|str|z|f]|] eqn:Hd;
        cbn [replaced_avg avg_in_range] in *; try reflexivity.
      * exfalso. eapply Hstr. reflexivity.
      * apply orb_false_elim in Hrep as [H0 H1]. lia.
      * apply orb_false_elim in Hrep as [H0 H1].
        apply not_replaced_in_unit; try assumption.
        destruct f; try reflexivity. exfalso. apply Hnan. reflexivity.
Qed.

(** C5 (the code falls short of it). A record whose batting average is NaN
    comes back with that NaN: it is not null-checked, and it is not a value
    in [0,1]; a record whose batting average is a string makes the call
    raise. *)
Theorem nan_batting_avg_survives :
  exists d',
    validate_player_data (Some nan_avg_record) = Ok d'
    /\ d' !! "batting_avg" = Some (VFloat F64.nan)
    /\ F64.in_unit F64.nan = false
    /\ validate_player_data (Some string_avg_record) = Raise TypeError.
Proof.
  eexists. split; [vm_compute; reflexivity|].
  split; [vm_compute; reflexivity|]. split; reflexivity.
Qed.

(** C10. A record whose batting average is zero keeps it: only a null, a
    negative or an above-one average is replaced by the league average;
    whereas in a table column a zero is masked and the cascade replaces it
    by a nonzero value. *)
Theorem zero_batting_avg_is_kept (d : PlayerData) (sg : bool) :
  d !! "batting_avg" = Some (VFloat (S754_zero sg)) ->
  (exists d',
     validate_player_data (Some d) = Ok d'
     /\ d' !! "batting_avg" = Some (VFloat (S754_zero sg)))
  /\ (forall d0 x, d0 !! "batting_avg" = Some x -> (forall str, x <> VStr str) ->
        exists d',
          validate_player_data (Some d0) = Ok d'
          /\ d' !! "batting_avg"
             = Some (if replaced_avg x then VFloat league_average else x))
  /\ masked (CNum (S754_zero sg))
  /\ (forall env v pid col s i,
        numeric s -> s !! i = Some (CNum (S754_zero sg)) ->
        exists r v' f,
          _apply_batting_average_fallback env s pid col v = (Ok r, v')
          /\ r !! i = Some (CNum f) /\ F64.eqb f F64.zero = false).
Proof.
  intros Hd.
  assert (Hgen : forall d0 x, d0 !! "batting_avg" = Some x -> (forall str, x <> VStr str) ->
        exists d',
          validate_player_data (Some d0) = Ok d'
          /\ d' !! "batting_avg"
             = Some (if replaced_avg x then VFloat league_average else x)).
  { intros d0 x Hx Hstr.
    rewrite (validate_player_data_run d0 (lookup_size_nonzero _ _ _ Hx))
      by (intros str; rewrite Hx; intros [= ->]; eapply Hstr; reflexivity).
    cbn zeta. eexists. split; [reflexivity|].
    rewrite lookup_insert_ne by discriminate. rewrite Hx.
    assert (Hrep : replaced_avg match x with VNone => VFloat league_average | _ => x end
                   = false \/ replaced_avg x = true).
    { destruct x; cbn; auto. destruct (_ || _); auto. destruct (_ || _); auto. }
    destruct x as [|str|z|f].
    - cbn [replaced_avg]. change (F64.ltb league_average F64.zero || F64.ltb F64.one league_average)
        with false. cbn iota. rewrite defaults_batting_avg, Hx. reflexivity.
    - exfalso. eapply Hstr. reflexivity.
    - destruct (replaced_avg (VInt z)); [apply lookup_insert_eq|].
      rewrite defaults_batting_avg, Hx. reflexivity.
    - destruct (replaced_avg (VFloat f)); [apply lookup_insert_eq|].
      rewrite defaults_batting_avg, Hx. reflexivity. }
  split.
  { destruct (Hgen d _ Hd) as (d' & Hrun & Havg); [discriminate|].
    exists d'. split; [exact Hrun|]. rewrite Havg. destruct sg; reflexivity. }
  split; [exact Hgen|].
  split; [destruct sg; reflexivity|].
  intros env v pid col s i Hn Hi.
  destruct (cascade_masked_position env s pid col v i _ Hn Hi) as (r & Hr & Hv);
    [destruct sg; reflexivity|].
  exists r, (after_tier2 env (after_tier1 v pid) pid), (fallback_value env v pid).
  split; [exact Hr|]. split; [exact Hv|].
  pose proof (cascade_value_valid (tier1_offer env v pid)
                (tier2_offer env (after_tier1 v pid) pid)) as Hvalid.
  unfold invalid_float in Hvalid.
  repeat (apply orb_false_elim in Hvalid; destruct Hvalid as [Hvalid ?]).
  assumption.
Qed.

(** * Instances and counterexamples *)

(** C1 at the fixture of the test suite: the valid 0.285 stays, the null,
    the zero and the 1.5 become 0.244. *)
Lemma validate_batting_averages_in_range_witness :
  validate_batting_averages offline_env (Some sample_data) None Validator_new
  = (Ok sample_data_validated, Validator_new)
  /\ Forall valid_avg
       [CNum (F64.decimal 285 1000); CNum league_average; CNum league_average;
        CNum league_average].
Proof.
  assert (Hrun : validate_batting_averages offline_env (Some sample_data) None Validator_new
                 = (Ok sample_data_validated, Validator_new))
    by (vm_compute; reflexivity).
  split; [exact Hrun|].
  apply (proj1 (validate_batting_averages_in_range offline_env (Some sample_data) None
                  Validator_new Validator_new sample_data_validated Hrun)
           "batting_avg"%string).
  - reflexivity.
  - reflexivity.
Defined.

(** C2 as stated fails at the accepted value 0: it is cached, the entry is
    live and there is no season data, yet the null column ends as 0.244,
    because tiers 2 and 3 mask the zero that tier 1 wrote.  It also fails
    at the empty identifier, under which nothing is cached. *)
Lemma zero_average_is_not_restored :
  let v1 := mkValidator (<["p1"%string := PreviousAvg F64.zero 3600000000]> ∅) 1 in
  F64.leb F64.zero F64.zero && F64.leb F64.zero F64.one = true
  /\ cache_player_average hour_later_env (Some "p1"%string) (Some F64.zero) Validator_new
     = (Ok tt, v1)
  /\ tier1_offer hour_later_env v1 (Some "p1"%string) = Some F64.zero
  /\ no_season_data hour_later_env v1 (Some "p1"%string)
  /\ fst (validate_batting_averages hour_later_env (Some null_table) (Some "p1"%string) v1)
     = Ok (mkDataFrame 2 [("batting_avg"%string, [CNum league_average; CNum league_average])])
  /\ CNum league_average <> CNum F64.zero
  /\ cache_player_average hour_later_env (Some ""%string) (Some (F64.decimal 32 100))
       Validator_new = (Ok tt, Validator_new)
  /\ fst (validate_batting_averages hour_later_env (Some null_table) (Some ""%string)
            Validator_new)
     = Ok (mkDataFrame 2 [("batting_avg"%string, [CNum league_average; CNum league_average])])
  /\ CNum league_average <> CNum (F64.decimal 32 100).
Proof.
  cbn zeta. split; [reflexivity|]. split; [vm_compute; reflexivity|].
  split; [vm_compute; reflexivity|]. split.
  { intros p [= <-]. split; [vm_compute; reflexivity | intros a b; exact I]. }
  split; [vm_compute; reflexivity|]. split; [discriminate|].
  split; [reflexivity|]. split; [vm_compute; reflexivity | discriminate].
Qed.

(** C2, amended, at the value 0.32. *)
Lemma cached_average_fills_null_columns_witness :
  exists v1 res v2,
    cache_player_average hour_later_env (Some "p1"%string) (Some (F64.decimal 32 100))
      Validator_new = (Ok tt, v1)
    /\ cache v1 !! "p1"%string = Some (PreviousAvg (F64.decimal 32 100) 3600000000)
    /\ validate_batting_averages hour_later_env (Some null_table) (Some "p1"%string) v1
       = (Ok res, v2)
    /\ (forall c s, is_avg_column c = true -> get_col c res = Some s ->
          Forall (fun x => x = CNum (F64.decimal 32 100)) s)
    /\ (df_empty null_table = false ->
        forall c s, is_avg_column c = true -> get_col c null_table = Some s ->
          get_col c res = Some (repeat (CNum (F64.decimal 32 100)) (length s))).
Proof.
  apply (cached_average_fills_null_columns hour_later_env Validator_new
           (Some "p1"%string) "p1"%string (F64.decimal 32 100) null_table).
  - reflexivity.
  - reflexivity.
  - reflexivity.
  - intros k. unfold cache_duration, hour_later_env. cbn [clock cache_duration_hours]. lia.
  - discriminate.
  - intros c s Hc Hs. unfold get_col, null_table in Hs. cbn [columns assoc_get] in Hs.
    destruct (String.eqb "batting_avg" c); [|discriminate].
    injection Hs as <-. repeat constructor.
Defined.

(** C3 as stated fails on a record with a name, an identifier, a position
    and a batting average of 0.0: four fields are present and not default,
    which is HIGH; the code scores three and attaches MEDIUM. *)
Lemma zero_average_is_not_counted :
  exists d',
    validate_player_data (Some zero_avg_record) = Ok d'
    /\ d' !! "batting_avg" = Some (VFloat F64.zero)
    /\ d' !! "data_quality" = Some (VStr "MEDIUM")
    /\ bucket (spec_quality_score d') = "HIGH"%string
    /\ bucket (spec_quality_score zero_avg_record) = "HIGH"%string.
Proof.
  eexists. split; [vm_compute; reflexivity|].
  repeat split; vm_compute; reflexivity.
Qed.

(** C3, amended, at the complete record of the test suite. *)
Lemma data_quality_is_bucket_of_truthy_score_witness :
  validate_player_data (Some high_quality_record)
  = Ok (<["data_quality" := VStr "HIGH"]> high_quality_record)
  /\ <["data_quality" := VStr "HIGH"]> high_quality_record !! "data_quality"
     = Some (VStr (bucket (truthy_quality_score
                             (<["data_quality" := VStr "HIGH"]> high_quality_record)))).
Proof.
  assert (Hrun : validate_player_data (Some high_quality_record)
                 = Ok (<["data_quality" := VStr "HIGH"]> high_quality_record))
    by (vm_compute; reflexivity).
  split; [exact Hrun|].
  exact (proj1 (data_quality_is_bucket_of_truthy_score _ _ Hrun)).
Defined.

(** C4 at a null and at 1.5, with an empty cache and no provider data. *)
Lemma cascade_invalid_shapes_alike_witness :
  masked (CNum F64.nan) /\ masked (CNum (F64.decimal 15 10))
  /\ (exists r1 r2 v',
        _apply_batting_average_fallback offline_env [CNum F64.nan] None "batting_avg"
          Validator_new = (Ok r1, v')
        /\ _apply_batting_average_fallback offline_env
             [CNum (F64.decimal 285 1000); CNum (F64.decimal 15 10)] None "batting_avg"
             Validator_new = (Ok r2, v')
        /\ r1 !! 0%nat = Some (CNum (fallback_value offline_env Validator_new None))
        /\ r2 !! 1%nat = Some (CNum (fallback_value offline_env Validator_new None))
        /\ r1 !! 0%nat = r2 !! 1%nat)
  /\ (no_live_entry offline_env Validator_new None ->
      no_season_data offline_env Validator_new None ->
      fallback_value offline_env Validator_new None = league_average
      /\ league_average = F64.decimal 244 1000).
Proof.
  apply (cascade_invalid_shapes_alike offline_env Validator_new None "batting_avg"
           [CNum F64.nan] [CNum (F64.decimal 285 1000); CNum (F64.decimal 15 10)]
           0%nat 1%nat (CNum F64.nan) (CNum (F64.decimal 15 10))).
  - repeat constructor; discriminate.
  - repeat constructor; discriminate.
  - reflexivity.
  - reflexivity.
  - right. exists F64.nan. split; [reflexivity|]. left. reflexivity.
  - right. exists (F64.decimal 15 10). split; [reflexivity|].
    right. right. right. reflexivity.
Defined.

(** C6 as stated fails where hits is null: at-bats is nonzero, the derived
    value is 0.244 and not the quotient; and zero hits in 300 at-bats come
    back from validation as 0.244, not as 0/300. *)
Lemma null_hits_give_league_average :
  F64.eqb (F64.of_Z 300) F64.zero = false
  /\ _calculate_batting_average null_hits_table
     = Ok (set_col "calculated_avg" [CNum league_average] null_hits_table)
  /\ CNum league_average <> CNum (F64.div F64.nan (F64.of_Z 300))
  /\ validate_batting_averages offline_env (Some zero_hits_table) None Validator_new
     = (Ok (set_col "calculated_avg" [CNum league_average] zero_hits_table), Validator_new)
  /\ CNum league_average <> CNum (F64.div (F64.of_Z 0) (F64.of_Z 300)).
Proof.
  split; [reflexivity|]. split; [vm_compute; reflexivity|]. split; [discriminate|].
  split; [vm_compute; reflexivity | discriminate].
Qed.

(** C6, amended, at the three pairs. *)
Lemma derived_average_from_hits_and_at_bats_witness :
  exists derived,
    _calculate_batting_average pairs_table
    = Ok (set_col "calculated_avg" derived pairs_table)
    /\ forall i h a,
         [CNum (F64.of_Z 85); CNum (F64.of_Z 92); CNum (F64.of_Z 78)] !! i = Some h ->
         [CNum (F64.of_Z 300); CNum (F64.of_Z 320); CNum (F64.of_Z 295)] !! i = Some a ->
         exists d,
           derived !! i = Some (CNum d)
           /\ F64.is_nan d = false
           /\ (no_quotient h a = true -> d = league_average)
           /\ (forall fh fa, h = CNum fh -> a = CNum fa ->
                 F64.eqb fa F64.zero = false ->
                 d = if F64.is_nan (F64.div fh fa) then league_average
                     else F64.div fh fa).
Proof.
  destruct (proj1 (derived_average_from_hits_and_at_bats pairs_table
                     [CNum (F64.of_Z 85); CNum (F64.of_Z 92); CNum (F64.of_Z 78)]
                     [CNum (F64.of_Z 300); CNum (F64.of_Z 320); CNum (F64.of_Z 295)]
                     ltac:(distinct_labels_tac) eq_refl eq_refl))
    as (derived & Hrun & Hrows & _).
  - intros [|[|[|i]]] h a Hi Hj _; try discriminate;
      injection Hi as <-; injection Hj as <-; split; reflexivity.
  - exists derived. split; [exact Hrun | exact Hrows].
Defined.

(** C7 at the boundary: an entry cached at time 0, read exactly one hour
    later with a one-hour duration, is already stale. *)
Lemma stale_entry_skips_tier1_witness :
  fst (_is_cache_valid hour_later_env 0 cached_validator) = Ok false
  /\ fst (_apply_previous_game_fallback hour_later_env
            [CNum F64.nan; CNum (F64.decimal 285 1000)] (Some "p1"%string) cached_validator)
     = Ok [CNum F64.nan; CNum (F64.decimal 285 1000)]
  /\ (no_season_data hour_later_env cached_validator (Some "p1"%string) ->
      exists r v',
        _apply_batting_average_fallback hour_later_env
          [CNum F64.nan; CNum (F64.decimal 285 1000)] (Some "p1"%string) "batting_avg"
          cached_validator = (Ok r, v')
        /\ forall i c, [CNum F64.nan; CNum (F64.decimal 285 1000)] !! i = Some c ->
             masked c -> r !! i = Some (CNum league_average)).
Proof.
  apply (stale_entry_skips_tier1 hour_later_env cached_validator (Some "p1"%string)
           "p1"%string (F64.decimal 32 100) 0
           [CNum F64.nan; CNum (F64.decimal 285 1000)] "batting_avg").
  - reflexivity.
  - vm_compute; reflexivity.
  - vm_compute. discriminate.
  - repeat constructor; discriminate.
Defined.

(** C8 with a provider that raises on every call and a season average
    cached a day before: the stale entry is not served, and the null, the
    zero and the 1.5 of the fixture become 0.244. *)
Lemma provider_failure_is_contained_witness :
  fst (validate_batting_averages failing_day_later_env (Some sample_data)
         (Some "p1"%string) old_season_validator) <> Raise ProviderError
  /\ fst (_get_player_season_average failing_day_later_env "p1" old_season_validator)
     = Ok None
  /\ exists s1 r v',
       fst (_apply_previous_game_fallback failing_day_later_env
              [CNum (F64.decimal 285 1000); CNum F64.nan; CNum F64.zero;
               CNum (F64.decimal 15 10)] (Some "p1"%string) old_season_validator) = Ok s1
       /\ _apply_batting_average_fallback failing_day_later_env
            [CNum (F64.decimal 285 1000); CNum F64.nan; CNum F64.zero;
             CNum (F64.decimal 15 10)] (Some "p1"%string) "batting_avg"
            old_season_validator = (Ok r, v')
       /\ r = fill_invalid league_average s1.
Proof.
  assert (Hold : forall e k,
            cache old_season_validator !! season_key "p1" = Some e ->
            cache_duration failing_day_later_env
            <= clock failing_day_later_env k - timestamp_of e).
  { intros e k He. vm_compute in He. injection He as <-.
    unfold cache_duration. cbn [failing_day_later_env clock cache_duration_hours timestamp_of].
    lia. }
  destruct (provider_failure_is_contained failing_day_later_env (Some sample_data)
              (Some "p1"%string) old_season_validator
              [CNum (F64.decimal 285 1000); CNum F64.nan; CNum F64.zero;
               CNum (F64.decimal 15 10)] "batting_avg")
    as (Hout & _ & _ & Hlookup & Hcascade).
  - intros a b p. reflexivity.
  - repeat constructor; discriminate.
  - split; [exact Hout|]. split.
    + apply Hlookup. intros e He. exact (Hold e _ He).
    + apply Hcascade. intros p e k Hp He _. injection Hp as <-. exact (Hold e k He).
Defined.

(** C9 as stated fails on empty tables: three rows without columns come
    back as no rows, and a column without rows is dropped. *)
Lemma empty_table_loses_rows_and_columns :
  validate_batting_averages offline_env (Some rows_only_table) None Validator_new
  = (Ok DataFrame_new, Validator_new)
  /\ nrows DataFrame_new <> nrows rows_only_table
  /\ validate_batting_averages offline_env (Some columns_only_table) None Validator_new
     = (Ok DataFrame_new, Validator_new)
  /\ is_avg_column "team" = false
  /\ get_col "team" DataFrame_new <> get_col "team" columns_only_table.
Proof.
  split; [reflexivity|]. split; [discriminate|]. split; [reflexivity|].
  split; [reflexivity | discriminate].
Qed.

(** C9, amended, at the fixture of the test suite. *)
Lemma validate_batting_averages_frame_witness :
  nrows sample_data_validated = nrows sample_data
  /\ (forall c, is_avg_column c = false ->
        get_col c sample_data_validated = get_col c sample_data)
  /\ column_names sample_data_validated
     = column_names sample_data
       ++ match List.filter is_avg_column (column_names sample_data) with
          | [] => ["calculated_avg"%string]
          | _ => []
          end.
Proof.
  apply (proj2 (validate_batting_averages_frame offline_env sample_data None
                  Validator_new Validator_new sample_data_validated
                  ltac:(vm_compute; reflexivity))).
  reflexivity.
Defined.

(** C10 at a record with a batting average of 0.0. *)
Lemma zero_batting_avg_is_kept_witness :
  exists d',
    validate_player_data (Some zero_avg_record) = Ok d'
    /\ d' !! "batting_avg" = Some (VFloat (S754_zero false)).
Proof.
  apply (proj1 (zero_batting_avg_is_kept zero_avg_record false
                  ltac:(vm_compute; reflexivity))).
Defined.


(** * Further properties of the validator *)

(** ** Unmasked cells *)

Lemma unmasked_positive (c : cell) : unmasked c <-> positive_avg c.
Proof.
  unfold unmasked, positive_avg. split.
  - destruct c as [|x|f]; cbn [invalid_cell]; try discriminate.
    intros [= H]. exists f. split; [reflexivity|].
    fold (invalid_float f) in H.
    destruct (valid_float_in_unit f H) as [_ Hu].
    unfold invalid_float in H.
    repeat (apply orb_false_elim in H; destruct H as [H ?]).
    unfold F64.in_unit in Hu. apply andb_prop in Hu as [Hz Ho].
    split; [|exact Ho].
    unfold F64.ltb, F64.leb, F64.eqb, SFltb, SFleb, SFeqb in *.
    destruct f as [sg|sg| |sg m e]; try discriminate.
    + destruct sg; cbn [SFcompare] in *; [discriminate | reflexivity].
    + destruct sg; cbn [SFcompare] in *; [discriminate | reflexivity].
  - intros (f & -> & H0 & H1). rewrite invalid_cell_num.
    rewrite (positive_unit_valid f H0 H1). reflexivity.
Qed.

Lemma mask_any_false_unmasked (s : Series) (m : list bool) :
  invalid_mask s = Ok m -> mask_any m = false -> Forall unmasked s.
Proof.
  revert m. induction s as [|c s IH]; intros m H Hany; [constructor|].
  apply invalid_mask_cons in H as (b & m' & -> & Hc & Hs).
  cbn [mask_any existsb] in Hany. apply orb_false_elim in Hany as [-> Hany].
  constructor; [exact Hc | eapply IH; eauto].
Qed.

Lemma unmasked_mask (s : Series) :
  Forall unmasked s -> exists m, invalid_mask s = Ok m /\ mask_any m = false.
Proof.
  induction 1 as [|c s Hc _ (m & Hm & Hany)].
  - exists []. split; reflexivity.
  - exists (false :: m). unfold invalid_mask in *. cbn [res_mapM].
    unfold unmasked in Hc. rewrite Hc, Hm. split; [reflexivity | exact Hany].
Qed.

Lemma fill_invalid_unmasked (v : float) (s : Series) :
  numeric s -> invalid_float v = false -> Forall unmasked (fill_invalid v s).
Proof.
  intros Hs Hv. induction Hs as [|c s Hc _ IH]; cbn [fill_invalid map]; constructor;
    [|exact IH].
  unfold unmasked. destruct c as [|x|f].
  - change (invalid_cell (CNum v) = Ok false). rewrite invalid_cell_num, Hv. reflexivity.
  - exfalso. eapply Hc. reflexivity.
  - rewrite invalid_cell_num. destruct (invalid_float f) eqn:Hf.
    + rewrite invalid_cell_num, Hv. reflexivity.
    + rewrite invalid_cell_num, Hf. reflexivity.
Qed.

Lemma fill_invalid_keeps (v : float) (s : Series) : keeps_unmasked s (fill_invalid v s).
Proof.
  split; [apply fill_invalid_length|].
  intros i x Hi Hx. rewrite (fill_invalid_lookup _ _ _ _ Hi).
  unfold unmasked in Hx. rewrite Hx. reflexivity.
Qed.

Lemma keeps_unmasked_refl (s : Series) : keeps_unmasked s s.
Proof. split; [reflexivity | auto]. Qed.

Lemma keeps_unmasked_trans (s1 s2 s3 : Series) :
  keeps_unmasked s1 s2 -> keeps_unmasked s2 s3 -> keeps_unmasked s1 s3.
Proof.
  intros [L1 K1] [L2 K2]. split; [congruence|].
  intros i x Hi Hx. apply K2; [apply K1; assumption | assumption].
Qed.

Lemma set_col_same (c : string) (s : Series) (df : DataFrame) :
  get_col c df = Some s -> set_col c s df = df.
Proof.
  unfold get_col, set_col. destruct df as [n cols]. cbn [nrows columns].
  intros H. f_equal.
  induction cols as [|[n0 s0] cols IH]; cbn [assoc_get assoc_set] in *; [discriminate|].
  destruct (String.eqb n0 c); [injection H as ->; reflexivity|].
  rewrite (IH H). reflexivity.
Qed.

Section CellsOfTables.

Variable env : Env.

(** The cascade, whenever it returns, leaves no masked cell and keeps the
    unmasked ones. *)
Lemma cascade_unmasked (s s' : Series) (pid : option string) (col : string)
  (v v' : Validator) :
  _apply_batting_average_fallback env s pid col v = (Ok s', v') ->
  Forall unmasked s' /\ keeps_unmasked s s'.
Proof.
  intros H. destruct (invalid_mask s) as [m|e] eqn:Hm.
  - destruct (mask_any m) eqn:Hany.
    + rewrite (cascade_run env _ _ _ _ _ Hm Hany) in H. injection H as <- _.
      split; [|apply fill_invalid_keeps].
      apply fill_invalid_unmasked; [eapply invalid_mask_numeric; eauto|].
      apply cascade_value_valid.
    + rewrite (cascade_run_clean env _ _ _ _ _ Hm Hany) in H. injection H as <- _.
      split; [eapply mask_any_false_unmasked; eauto | apply keeps_unmasked_refl].
  - rewrite (cascade_run_raise env _ _ _ _ _ Hm) in H. discriminate.
Qed.

(** On a series without masked cells the cascade does nothing at all. *)
Lemma cascade_noop (s : Series) (pid : option string) (col : string) (v : Validator) :
  Forall unmasked s -> _apply_batting_average_fallback env s pid col v = (Ok s, v).
Proof.
  intros H. destruct (unmasked_mask s H) as (m & Hm & Hany).
  apply (cascade_run_clean env _ _ _ _ _ Hm Hany).
Qed.

Lemma validate_columns_cells (cols : list string) (pid : option string) :
  forall (df res : DataFrame) (v v' : Validator),
  validate_columns env cols pid df v = (Ok res, v') ->
  (forall c s, In c cols -> get_col c res = Some s -> Forall unmasked s)
  /\ (forall c s, get_col c df = Some s ->
        exists s', get_col c res = Some s' /\ keeps_unmasked s s').
Proof.
  induction cols as [|col rest IH]; intros df res v v' H; cbn [validate_columns] in H.
  - unfold ret in H. injection H as <- _. split; [intros c s []|].
    intros c s Hs. exists s. split; [exact Hs | apply keeps_unmasked_refl].
  - destruct (get_col col df) as [s0|] eqn:Hcol.
    + unfold bind in H.
      destruct (_apply_batting_average_fallback env s0 pid col v) as [[s1|e] v1] eqn:Hf;
        [|discriminate].
      apply cascade_unmasked in Hf as [Hun Hkeep].
      pose proof (validate_columns_spec env _ _ _ _ _ _ H) as (_ & _ & Hframe & _ & _).
      apply IH in H as [Hval Hcells].
      split.
      * intros c s [<-|Hin] Hs; [|eauto].
        destruct (in_dec String.string_dec col rest) as [Hin|Hnin]; [eauto|].
        rewrite (Hframe _ Hnin), get_col_set_col, String.eqb_refl in Hs.
        injection Hs as <-. exact Hun.
      * intros c s Hs.
        destruct (String.eqb col c) eqn:Hc.
        -- apply String.eqb_eq in Hc as <-. rewrite Hcol in Hs. injection Hs as <-.
           destruct (Hcells col s1) as (s2 & Hs2 & Hk2).
           { rewrite get_col_set_col, String.eqb_refl. reflexivity. }
           exists s2. split; [exact Hs2 | eapply keeps_unmasked_trans; eauto].
        -- apply Hcells. rewrite get_col_set_col, Hc. exact Hs.
    + pose proof (validate_columns_spec env _ _ _ _ _ _ H) as (_ & _ & Hframe & _ & _).
      apply IH in H as [Hval Hcells].
      split; [|exact Hcells].
      intros c s [<-|Hin] Hs; [|eauto].
      destruct (in_dec String.string_dec col rest) as [Hin|Hnin]; [eauto|].
      rewrite (Hframe _ Hnin), Hcol in Hs. discriminate.
Qed.

(** When every listed column is free of masked cells, the loop returns the
    table and the validator as they were. *)
Lemma validate_columns_noop (cols : list string) (pid : option string)
  (df : DataFrame) (v : Validator) :
  (forall c s, In c cols -> get_col c df = Some s -> Forall unmasked s) ->
  validate_columns env cols pid df v = (Ok df, v).
Proof.
  induction cols as [|col rest IH]; intros H; cbn [validate_columns]; [reflexivity|].
  destruct (get_col col df) as [s0|] eqn:Hcol.
  - unfold bind. rewrite (cascade_noop s0 pid col v) by (eapply H; [left|]; eauto).
    rewrite (set_col_same _ _ _ Hcol). apply IH. intros c s Hin. apply H. right. exact Hin.
  - apply IH. intros c s Hin. apply H. right. exact Hin.
Qed.

End CellsOfTables.

(** ** Validation of a table, cell by cell *)

Section TableCells.

Variable env : Env.

Lemma validate_on_average_columns (data : DataFrame) (pid : option string) (v : Validator) :
  df_empty data = false ->
  List.filter is_avg_column (column_names data) <> [] ->
  validate_batting_averages env (Some data) pid v
  = validate_columns env (List.filter is_avg_column (column_names data)) pid data v.
Proof.
  intros He Hsome. unfold validate_batting_averages. rewrite He.
  destruct (List.filter is_avg_column (column_names data)); [congruence | reflexivity].
Qed.

Lemma df_empty_same_shape (df df' : DataFrame) :
  nrows df' = nrows df ->
  length (column_names df') = length (column_names df) ->
  df_empty df' = df_empty df.
Proof.
  unfold df_empty, column_names. rewrite !length_map. intros -> ->. reflexivity.
Qed.

(** The table validation returns has no masked cell in any average-like
    column, and its average-like columns are those of the input or, when it
    had none, [calculated_avg]. *)
Lemma validated_table_shape (data res : DataFrame) (pid : option string)
  (v v' : Validator) :
  validate_batting_averages env (Some data) pid v = (Ok res, v') ->
  df_empty data = false ->
  df_empty res = false
  /\ List.filter is_avg_column (column_names res) <> []
  /\ (forall c s, In c (List.filter is_avg_column (column_names res)) ->
        get_col c res = Some s -> Forall unmasked s)
  /\ (forall c s, get_col c data = Some s ->
        exists s', get_col c res = Some s' /\ keeps_unmasked s s').
Proof.
  intros H He.
  apply validate_batting_averages_cases in H
    as [[He' _] | [(_ & Hsome & H) | (_ & Hnone & s1 & H)]]; [congruence| |].
  - pose proof (validate_columns_spec env _ _ _ _ _ _ H) as (Hrows & Hnames & _).
    pose proof (validate_columns_cells env _ _ _ _ _ _ H) as [Hval Hcells].
    split; [rewrite <- He; apply df_empty_same_shape; congruence|].
    rewrite Hnames. split; [exact Hsome|]. split; [exact Hval | exact Hcells].
  - pose proof (validate_columns_spec env _ _ _ _ _ _ H) as (Hrows & Hnames & _).
    pose proof (validate_columns_cells env _ _ _ _ _ _ H) as [Hval Hcells].
    assert (Habsent : assoc_get "calculated_avg" (columns data) = None).
    { destruct (assoc_get "calculated_avg" (columns data)) as [s|] eqn:Hg; [|reflexivity].
      exfalso. assert (Hin : In "calculated_avg"%string
                               (List.filter is_avg_column (column_names data))).
      { eapply avg_column_in_filter; [reflexivity | exact Hg]. }
      rewrite Hnone in Hin. exact Hin. }
    assert (Hn : column_names res = column_names data ++ ["calculated_avg"%string]).
    { rewrite Hnames. unfold column_names, set_col. cbn [columns].
      apply assoc_set_names_absent. exact Habsent. }
    assert (Hf : List.filter is_avg_column (column_names res) = ["calculated_avg"%string]).
    { rewrite Hn, List.filter_app, Hnone. reflexivity. }
    split.
    { unfold df_empty in *. apply orb_false_elim in He as [Hr _].
      cbn [nrows set_col] in Hrows. rewrite Hrows, Hr. cbn [orb].
      assert (Hl : length (column_names res) = S (length (column_names data))).
      { rewrite Hn, length_app. cbn [length]. lia. }
      unfold column_names in Hl. rewrite !length_map in Hl. rewrite Hl. reflexivity. }
    rewrite Hf. split; [discriminate|]. split; [exact Hval|].
    intros c s Hs. apply Hcells.
    rewrite get_col_set_col_other; [exact Hs|].
    intros <-. unfold get_col in Hs. congruence.
Qed.

End TableCells.

(** X1. Whenever [validate_batting_averages] returns, no average is zero
    either: every cell of every average-like column of the result is a number
    [f] with [0 < f <= 1], and the invalid mask computed on such a column
    selects nothing. *)
Theorem validated_averages_are_positive
  (env : Env) (data : option DataFrame) (pid : option string)
  (v v' : Validator) (res : DataFrame) :
  validate_batting_averages env data pid v = (Ok res, v') ->
  forall col s, is_avg_column col = true -> get_col col res = Some s ->
    Forall positive_avg s
    /\ exists m, invalid_mask s = Ok m /\ mask_any m = false.
Proof.
  intros H col s Ha Hs.
  assert (Hun : Forall unmasked s).
  { destruct data as [data|]; [|unfold validate_batting_averages, ret in H;
      injection H as <- _; discriminate].
    destruct (df_empty data) eqn:He.
    - unfold validate_batting_averages in H. rewrite He in H. unfold ret in H.
      injection H as <- _. discriminate.
    - destruct (validated_table_shape env _ _ _ _ _ H He) as (_ & _ & Hval & _).
      eapply Hval; [|exact Hs]. eapply avg_column_in_filter; eauto. }
  split; [|apply unmasked_mask; exact Hun].
  clear - Hun. induction Hun as [|c s Hc _ IH]; constructor; [|exact IH].
  apply unmasked_positive. exact Hc.
Qed.

(** X2. Validation rewrites masked cells only: in a non-empty table every
    column keeps its length, and every cell the invalid mask passes over (a
    number [f] with [0 < f <= 1]) keeps its value and its place. *)
Theorem validation_keeps_unmasked_cells
  (env : Env) (data res : DataFrame) (pid : option string) (v v' : Validator) :
  validate_batting_averages env (Some data) pid v = (Ok res, v') ->
  df_empty data = false ->
  forall c s, get_col c data = Some s ->
    exists s', get_col c res = Some s'
      /\ length s' = length s
      /\ forall i f, s !! i = Some (CNum f) ->
           F64.ltb F64.zero f = true -> F64.leb f F64.one = true ->
           s' !! i = Some (CNum f).
Proof.
  intros H He c s Hs.
  destruct (validated_table_shape env _ _ _ _ _ H He) as (_ & _ & _ & Hcells).
  destruct (Hcells c s Hs) as (s' & Hs' & Hlen & Hkeep).
  exists s'. split; [exact Hs'|]. split; [exact Hlen|].
  intros i f Hi H0 H1. apply Hkeep; [exact Hi|].
  apply unmasked_positive. exists f. auto.
Qed.

(** X3. Validation is idempotent: a table that [validate_batting_averages]
    returned is returned unchanged by any further validation, under any
    identifier, cache, clock and provider, and that further call leaves the
    validator untouched. *)
Theorem validate_batting_averages_idempotent
  (env : Env) (data : option DataFrame) (pid : option string)
  (v v' : Validator) (res : DataFrame) :
  validate_batting_averages env data pid v = (Ok res, v') ->
  forall env2 pid2 v2,
    validate_batting_averages env2 (Some res) pid2 v2 = (Ok res, v2).
Proof.
  intros H env2 pid2 v2.
  assert (Hempty : forall d, df_empty d = true ->
            validate_batting_averages env (Some d) pid v = (Ok res, v') ->
            validate_batting_averages env2 (Some res) pid2 v2 = (Ok res, v2)).
  { intros d He Hd. unfold validate_batting_averages in Hd. rewrite He in Hd.
    unfold ret in Hd. injection Hd as <- _. reflexivity. }
  destruct data as [data|];
    [|unfold validate_batting_averages, ret in H; injection H as <- _; reflexivity].
  destruct (df_empty data) eqn:He; [eauto|].
  destruct (validated_table_shape env _ _ _ _ _ H He) as (He' & Hsome & Hval & _).
  rewrite (validate_on_average_columns env2 res pid2 v2 He' Hsome).
  apply validate_columns_noop. exact Hval.
Qed.

(** ** What validation does to the validator *)

Section ValidatorState.

Variable env : Env.

Lemma after_tiers_cache (v : Validator) (pid : option string) (k : string) :
  (forall p, truthy_id pid = Some p -> k <> season_key p) ->
  cache (after_tier2 env (after_tier1 v pid) pid) !! k = cache v !! k.
Proof.
  intros Hk. unfold after_tier2.
  destruct (truthy_id pid) as [p|] eqn:Hp.
  - rewrite get_season_average_cache_other by (apply Hk; reflexivity).
    rewrite after_tier1_cache. reflexivity.
  - rewrite after_tier1_cache. reflexivity.
Qed.

Lemma cascade_cache (s : Series) (pid : option string) (col : string) (v : Validator)
  (k : string) :
  (forall p, truthy_id pid = Some p -> k <> season_key p) ->
  cache (snd (_apply_batting_average_fallback env s pid col v)) !! k = cache v !! k.
Proof.
  intros Hk. destruct (invalid_mask s) as [m|e] eqn:Hm.
  - destruct (mask_any m) eqn:Hany.
    + rewrite (cascade_run env _ _ _ _ _ Hm Hany). cbn [snd].
      apply after_tiers_cache. exact Hk.
    + rewrite (cascade_run_clean env _ _ _ _ _ Hm Hany). reflexivity.
  - rewrite (cascade_run_raise env _ _ _ _ _ Hm). reflexivity.
Qed.

Lemma validate_columns_cache (cols : list string) (pid : option string) (k : string) :
  (forall p, truthy_id pid = Some p -> k <> season_key p) ->
  forall (df : DataFrame) (v : Validator),
  cache (snd (validate_columns env cols pid df v)) !! k = cache v !! k.
Proof.
  intros Hk. induction cols as [|col rest IH]; intros df v; cbn [validate_columns].
  - reflexivity.
  - destruct (get_col col df) as [s0|]; [|apply IH].
    unfold bind.
    pose proof (cascade_cache s0 pid col v k Hk) as Hc.
    destruct (_apply_batting_average_fallback env s0 pid col v) as [[s1|e] v1];
      cbn [snd] in Hc.
    + rewrite IH. exact Hc.
    + exact Hc.
Qed.

(** Without an identifier the cascade is tier 3 alone and the validator is
    not consulted. *)
Lemma cascade_without_id (s : Series) (pid : option string) (col : string)
  (v : Validator) :
  truthy_id pid = None ->
  _apply_batting_average_fallback env s pid col v
  = (match invalid_mask s with
     | Ok m => Ok (fill_invalid league_average s)
     | Raise e => Raise e
     end, v).
Proof.
  intros Hp. destruct (invalid_mask s) as [m|e] eqn:Hm.
  - destruct (mask_any m) eqn:Hany.
    + rewrite (cascade_run env _ _ _ _ _ Hm Hany).
      unfold fallback_value, tier1_offer, tier2_offer, after_tier2, after_tier1.
      rewrite Hp. reflexivity.
    + rewrite (cascade_run_clean env _ _ _ _ _ Hm Hany).
      destruct (mask_any_false _ _ Hm Hany) as [_ ->]. reflexivity.
  - apply (cascade_run_raise env _ _ _ _ _ Hm).
Qed.

End ValidatorState.

Lemma validate_columns_without_id (cols : list string) (pid : option string) :
  truthy_id pid = None ->
  forall (env env2 : Env) (df : DataFrame) (v v2 : Validator),
  snd (validate_columns env cols pid df v) = v
  /\ fst (validate_columns env cols pid df v)
     = fst (validate_columns env2 cols pid df v2).
Proof.
  intros Hp env env2. induction cols as [|col rest IH]; intros df v v2;
    cbn [validate_columns].
  - split; reflexivity.
  - destruct (get_col col df) as [s0|]; [|apply IH].
    unfold bind. rewrite !cascade_without_id by exact Hp.
    destruct (invalid_mask s0); [apply IH | split; reflexivity].
Qed.

Lemma validate_columns_without_id_cells (cols : list string) (pid : option string) :
  truthy_id pid = None ->
  forall (env : Env) (df res : DataFrame) (v : Validator),
  fst (validate_columns env cols pid df v) = Ok res ->
  forall c s, In c cols -> get_col c df = Some s ->
    get_col c res = Some (fill_invalid league_average s).
Proof.
  intros Hp env. induction cols as [|col rest IH]; intros df res v Hres c s Hin Hs;
    [destruct Hin|].
  cbn [validate_columns] in Hres.
  destruct (get_col col df) as [s0|] eqn:Hcol.
  - unfold bind in Hres. rewrite cascade_without_id in Hres by exact Hp.
    destruct (invalid_mask s0) as [m|e] eqn:Hm; [|discriminate].
    destruct (validate_columns env rest pid
                (set_col col (fill_invalid league_average s0) df) v)
      as [r v'] eqn:Hrun.
    cbn [fst] in Hres. subst r.
    destruct (in_dec String.string_dec c rest) as [Hr|Hr].
    + destruct (String.eqb col c) eqn:Heq.
      * apply String.eqb_eq in Heq as <-. rewrite Hcol in Hs. injection Hs as <-.
        rewrite (IH (set_col col (fill_invalid league_average s0) df) res v)
          with (s := fill_invalid league_average s0).
        -- rewrite fill_fill, league_average_valid. reflexivity.
        -- rewrite Hrun. reflexivity.
        -- exact Hr.
        -- rewrite get_col_set_col, String.eqb_refl. reflexivity.
      * apply (IH (set_col col (fill_invalid league_average s0) df) res v);
          [rewrite Hrun; reflexivity | exact Hr |].
        rewrite get_col_set_col, Heq. exact Hs.
    + destruct Hin as [<-|Hin]; [|contradiction].
      apply validate_columns_spec in Hrun as (_ & _ & Hframe & _).
      rewrite (Hframe _ Hr), get_col_set_col, String.eqb_refl.
      rewrite Hcol in Hs. injection Hs as <-. reflexivity.
  - destruct Hin as [<-|Hin]; [congruence|].
    apply (IH df res v Hres c s Hin Hs).
Qed.

(** X4. Validation writes the cache only under the season key of the
    identifier it was given: every other entry, previous averages included,
    is found afterwards exactly as before, whether the call returns or
    raises; without an identifier nothing is written at all. *)
Theorem validation_writes_only_season_key
  (env : Env) (data : option DataFrame) (pid : option string) (v : Validator)
  (k : string) :
  (forall p, truthy_id pid = Some p -> k <> season_key p) ->
  cache (snd (validate_batting_averages env data pid v)) !! k = cache v !! k.
Proof.
  intros Hk. unfold validate_batting_averages.
  destruct data as [data|]; [|reflexivity].
  destruct (df_empty data); [reflexivity|].
  destruct (List.filter is_avg_column (column_names data)) as [|c0 cs].
  - unfold bind at 1. unfold lift.
    destruct (_calculate_batting_average data) as [df1|e]; [|reflexivity].
    apply validate_columns_cache. exact Hk.
  - apply validate_columns_cache. exact Hk.
Qed.

(** X5. Without an identifier ([None] or the empty string) validation is a
    function of the table alone: it leaves the validator as it was, cache
    and clock, and returns or raises the same under every cache, clock and
    provider; in a table with average-like columns each of them comes back
    with its masked cells set to the league average. *)
Theorem validation_without_identifier_is_pure
  (env : Env) (data : option DataFrame) (pid : option string) (v : Validator) :
  truthy_id pid = None ->
  snd (validate_batting_averages env data pid v) = v
  /\ (forall env2 v2,
        fst (validate_batting_averages env2 data pid v2)
        = fst (validate_batting_averages env data pid v))
  /\ (forall d res c s,
        data = Some d -> df_empty d = false ->
        fst (validate_batting_averages env data pid v) = Ok res ->
        is_avg_column c = true -> get_col c d = Some s ->
        get_col c res = Some (fill_invalid league_average s)).
Proof.
  intros Hp.
  assert (Hpure : forall env1 env2 v1 v2,
    snd (validate_batting_averages env1 data pid v1) = v1
    /\ fst (validate_batting_averages env1 data pid v1)
       = fst (validate_batting_averages env2 data pid v2)).
  { intros env1 env2 v1 v2. unfold validate_batting_averages.
    destruct data as [d|]; [|split; reflexivity].
    destruct (df_empty d); [split; reflexivity|].
    destruct (List.filter is_avg_column (column_names d)) as [|c0 cs].
    - unfold bind at 1 2 3. unfold lift.
      destruct (_calculate_batting_average d) as [df1|e]; [|split; reflexivity].
      apply validate_columns_without_id. exact Hp.
    - apply validate_columns_without_id. exact Hp. }
  split; [apply (Hpure env env v v)|].
  split; [intros env2 v2; apply (Hpure env2 env v2 v)|].
  intros d res c s -> He Hres Ha Hs.
  assert (Hsome : List.filter is_avg_column (column_names d) <> []).
  { intros Hnil. pose proof (avg_column_in_filter _ _ _ Ha Hs) as Hin.
    rewrite Hnil in Hin. exact Hin. }
  rewrite (validate_on_average_columns env d pid v He Hsome) in Hres.
  assert (Hin : In c (List.filter is_avg_column (column_names d)))
    by (eapply avg_column_in_filter; eauto).
  apply (validate_columns_without_id_cells _ pid Hp env d res v Hres c s Hin Hs).
Qed.

(** ** The cache operations *)

Lemma cache_player_average_accepted
  (env : Env) (pid : option string) (p : string) (a : float) (v : Validator) :
  truthy_id pid = Some p -> F64.in_unit a = true ->
  exists v',
    cache_player_average env pid (Some a) v = (Ok tt, v')
    /\ cache v' !! p = Some (PreviousAvg a (clock env (clock_reads v)))
    /\ (forall k, k <> p -> cache v' !! k = cache v !! k)
    /\ clock_reads v' = S (clock_reads v)
    /\ size (cache v')
       = match cache v !! p with
         | Some _ => size (cache v)
         | None => S (size (cache v))
         end.
Proof.
  intros Hp Ha. unfold cache_player_average. rewrite Hp.
  unfold F64.in_unit in Ha. rewrite Ha.
  unfold bind, datetime_now, cache_store. cbn [cache clock_reads].
  eexists. split; [reflexivity|]. cbn [cache clock_reads].
  split; [apply lookup_insert_eq|].
  split; [intros k Hk; apply lookup_insert_ne; congruence|].
  split; [reflexivity|].
  destruct (cache v !! p) as [e|] eqn:Hc.
  + rewrite <- (insert_delete_id (cache v) p e Hc) at 2.
    rewrite <- (insert_delete_eq (cache v)).
    rewrite !map_size_insert_None by apply lookup_delete_eq. reflexivity.
  + apply map_size_insert_None. exact Hc.
Qed.

(** X6. [cache_player_average] stores exactly the accepted calls: with a
    non-empty identifier and a value [a] with [0 <= a <= 1] the entry
    [(a, now)] replaces whatever was under the identifier, every other key
    keeps its entry and the cache grows by one entry only if the identifier
    was new; in every other case (no or empty identifier, no value, NaN, a
    negative or above-one value) the validator is left as it was. *)
Theorem cache_player_average_stores_accepted
  (env : Env) (pid : option string) (avg : option float) (v : Validator) :
  (forall p a, truthy_id pid = Some p -> avg = Some a -> F64.in_unit a = true ->
     exists v',
       cache_player_average env pid avg v = (Ok tt, v')
       /\ cache v' !! p = Some (PreviousAvg a (clock env (clock_reads v)))
       /\ (forall k, k <> p -> cache v' !! k = cache v !! k)
       /\ clock_reads v' = S (clock_reads v)
       /\ size (cache v')
          = match cache v !! p with
            | Some _ => size (cache v)
            | None => S (size (cache v))
            end)
  /\ (truthy_id pid = None \/ avg = None
      \/ (exists a, avg = Some a /\ F64.in_unit a = false) ->
      cache_player_average env pid avg v = (Ok tt, v))
  /\ F64.in_unit F64.nan = false.
Proof.
  split; [|split; [|reflexivity]].
  - intros p a Hp -> Ha. apply cache_player_average_accepted; assumption.
  - intros H. unfold cache_player_average.
    destruct (truthy_id pid) as [p|]; [|reflexivity].
    destruct avg as [a|]; [|reflexivity].
    destruct H as [H | [H | (a' & [= <-] & H)]]; try discriminate.
    unfold F64.in_unit in H. rewrite H. reflexivity.
Qed.

(** X7. [clear_cache] forgets everything and nothing else: whatever the
    cache held, afterwards it has no entry, the clock is where it was, and a
    validation whose provider has no rows resolves every masked cell to the
    league average, however live the entries were. *)
Theorem clear_cache_forgets_everything
  (env : Env) (v : Validator) (pid : option string) (s : Series) (col : string) :
  (forall p a b, no_rows (statcast_batter env a b p)) ->
  numeric s ->
  exists v1,
    clear_cache v = (Ok tt, v1)
    /\ size (cache v1) = 0%nat
    /\ (forall k, cache v1 !! k = None)
    /\ clock_reads v1 = clock_reads v
    /\ (exists st, fst (get_validation_stats env v1) = Ok st
                    /\ Stats.cache_size st = 0%nat)
    /\ exists r v2,
         _apply_batting_average_fallback env s pid col v1 = (Ok r, v2)
         /\ r = fill_invalid league_average s.
Proof.
  intros Hdown Hn. eexists. split; [reflexivity|]. cbn [cache clock_reads].
  split; [apply map_size_empty|].
  split; [intros k; apply lookup_empty|].
  split; [reflexivity|].
  split; [eexists; split; [reflexivity | apply map_size_empty]|].
  set (v1 := {| cache := ∅; clock_reads := clock_reads v |}).
  assert (Hnl : no_live_entry env v1 pid).
  { intros p a t _ Hc. cbn [cache v1] in Hc. rewrite lookup_empty in Hc. discriminate. }
  assert (Hns : no_season_data env v1 pid).
  { intros p _. split; [apply lookup_empty | apply Hdown]. }
  destruct (numeric_invalid_mask _ Hn) as [m Hm].
  destruct (mask_any m) eqn:Hany.
  - rewrite (cascade_run env _ _ _ _ _ Hm Hany).
    rewrite (fallback_value_league env _ _ Hnl Hns). eauto.
  - rewrite (cascade_run_clean env _ _ _ _ _ Hm Hany).
    destruct (mask_any_false _ _ Hm Hany) as [_ ->]. eauto.
Qed.

(** X8. [get_validation_stats] reports the number of cache entries,
    previous averages and season averages alike, and the league average
    0.244; it reads the clock once and leaves the cache alone.  After an
    accepted [cache_player_average] the reported size is one more if the
    identifier was new and the same if it was already cached. *)
Theorem validation_stats_count_entries
  (env : Env) (v : Validator) (pid : option string) (p : string) (a : float) :
  truthy_id pid = Some p ->
  F64.in_unit a = true ->
  exists st st' v1 v2,
    get_validation_stats env v = (Ok st, tick v)
    /\ Stats.cache_size st = size (cache v)
    /\ Stats.last_validation st = clock env (clock_reads v)
    /\ Stats.league_average st = F64.decimal 244 1000
    /\ cache_player_average env pid (Some a) v = (Ok tt, v1)
    /\ get_validation_stats env v1 = (Ok st', v2)
    /\ cache v2 = cache v1
    /\ Stats.cache_size st'
       = match cache v !! p with
         | Some _ => Stats.cache_size st
         | None => S (Stats.cache_size st)
         end.
Proof.
  intros Hp Ha.
  destruct (cache_player_average_accepted env pid p a v Hp Ha)
    as (v1 & Hrun & _ & _ & _ & Hsize).
  eexists _, _, v1, _. split; [reflexivity|]. cbn [Stats.cache_size Stats.last_validation
    Stats.league_average]. split; [reflexivity|]. split; [reflexivity|].
  split; [reflexivity|]. split; [exact Hrun|]. split; [reflexivity|].
  split; [reflexivity|]. exact Hsize.
Qed.

(** ** The season lookup, case by case *)

Section SeasonCases.

Variable env : Env.

Lemma get_season_average_run (p : string) (v : Validator) :
  _get_player_season_average env p v
  = match cache v !! season_key p with
    | Some e =>
        if live_at env v (timestamp_of e) then
          match e with
          | SeasonAvg a _ => (Ok (Some a), tick v)
          | PreviousAvg _ _ => (Raise KeyError, tick v)
          end
        else season_fetch env p (tick v)
    | None => season_fetch env p v
    end.
Proof.
  unfold _get_player_season_average, season_key, live_at.
  unfold bind at 1. unfold get_cache.
  assert (Hfetch : forall w,
    try_except
      (current_year <- datetime_now env ;;
       end_date <- datetime_now env ;;
       match statcast_batter env current_year end_date p with
       | FetchRaises => lift (Raise ProviderError)
       | FetchNone => ret None
       | FetchData season_data =>
           if df_empty season_data then ret None
           else
             season_avg <- lift (_calc_overall_avg_from_events season_data hit_events) ;;
             now <- datetime_now env ;;
             _ <- cache_store ("season_avg_" ++ p) (SeasonAvg season_avg now) ;;
             ret (Some season_avg)
       end)
      (fun _ => ret None) w = season_fetch env p w).
  { intros w. unfold try_except, bind, datetime_now, lift, ret, cache_store, season_fetch,
      season_key, tick.
    cbn [clock_reads cache].
    destruct (statcast_batter env _ _ p) as [| |df]; try reflexivity.
    destruct (df_empty df); [reflexivity|].
    destruct (_calc_overall_avg_from_events df hit_events); reflexivity. }
  destruct (cache v !! ("season_avg_" ++ p)%string) as [e|]; [|apply Hfetch].
  unfold _is_cache_valid, bind at 1 2. unfold datetime_now at 1. unfold ret at 1.
  destruct (clock env (clock_reads v) - timestamp_of e <? cache_duration env).
  - destruct e; reflexivity.
  - apply Hfetch.
Qed.

Lemma season_fetch_value (p : string) (w : Validator) (a : float) :
  fst (season_fetch env p w) = Ok (Some a) ->
  exists t, cache (snd (season_fetch env p w)) !! season_key p = Some (SeasonAvg a t).
Proof.
  unfold season_fetch.
  destruct (statcast_batter env _ _ p) as [| |df]; try discriminate.
  destruct (df_empty df); [discriminate|].
  destruct (_calc_overall_avg_from_events df hit_events); [|discriminate].
  cbn [fst snd cache]. intros [= ->]. eexists. apply lookup_insert_eq.
Qed.

End SeasonCases.

(** X9. A season average that [_get_player_season_average] returns is in
    the cache under the season key when it returns; and while such an entry
    is live the lookup answers from it, reading the clock once and never
    asking the provider, whatever the provider would do. *)
Theorem season_average_is_served_from_cache
  (env : Env) (p : string) (v : Validator) (a : float) :
  fst (_get_player_season_average env p v) = Ok (Some a) ->
  exists t,
    cache (snd (_get_player_season_average env p v)) !! season_key p
    = Some (SeasonAvg a t)
    /\ forall env2 v2,
         cache v2 !! season_key p = Some (SeasonAvg a t) ->
         clock env2 (clock_reads v2) - t < cache_duration env2 ->
         _get_player_season_average env2 p v2 = (Ok (Some a), tick v2).
Proof.
  intros H.
  assert (Hhit : forall t env2 v2,
            cache v2 !! season_key p = Some (SeasonAvg a t) ->
            clock env2 (clock_reads v2) - t < cache_duration env2 ->
            _get_player_season_average env2 p v2 = (Ok (Some a), tick v2)).
  { intros t env2 v2 Hc Hl. rewrite get_season_average_run, Hc.
    unfold live_at. cbn [timestamp_of].
    destruct (Z.ltb_spec (clock env2 (clock_reads v2) - t) (cache_duration env2));
      [reflexivity | lia]. }
  rewrite get_season_average_run in *.
  destruct (cache v !! season_key p) as [e|] eqn:Hc.
  - destruct (live_at env v (timestamp_of e)).
    + destruct e as [a0 t0|a0 t0]; [discriminate|].
      cbn [fst] in H. injection H as ->. exists t0. split; [exact Hc | apply Hhit].
    + destruct (season_fetch_value env p _ a H) as [t Ht]. exists t. split; [exact Ht|].
      apply Hhit.
  - destruct (season_fetch_value env p _ a H) as [t Ht]. exists t. split; [exact Ht|].
    apply Hhit.
Qed.

(** X10. A provider table that has rows but no [events] column counts as no
    season average: the lookup returns nothing, caches nothing, and tier 2
    leaves the series as it is. *)
Theorem season_table_without_events_is_ignored
  (env : Env) (p : string) (v : Validator) (df : DataFrame) (s : Series) :
  cache v !! season_key p = None ->
  statcast_batter env (clock env (clock_reads v)) (clock env (S (clock_reads v))) p
  = FetchData df ->
  df_empty df = false ->
  get_col "events" df = None ->
  (p <> ""%string) ->
  numeric s ->
  _get_player_season_average env p v = (Ok None, tick (tick v))
  /\ _apply_season_average_fallback env s (Some p) v = (Ok s, tick (tick v)).
Proof.
  intros Hc Hf He Hev Hp Hn.
  assert (Hrun : _get_player_season_average env p v = (Ok None, tick (tick v))).
  { rewrite get_season_average_run, Hc. unfold season_fetch. rewrite Hf, He.
    unfold _calc_overall_avg_from_events. rewrite He, Hev. reflexivity. }
  split; [exact Hrun|].
  destruct (numeric_invalid_mask _ Hn) as [m Hm].
  rewrite (tier2_run env _ _ _ _ Hm).
  unfold tier2_offer, after_tier2, truthy_id.
  apply String.eqb_neq in Hp. rewrite Hp, Hrun. reflexivity.
Qed.

(** X11. A previous average cached under an identifier of the form
    [season_avg_<p>] sits where the season lookup for [p] expects a season
    entry: while it is live [_get_player_season_average] raises a key error
    for [p]; tier 2 catches it and returns the series unchanged. *)
Theorem previous_average_under_season_key
  (env : Env) (p : string) (a : float) (v0 : Validator) (s : Series) :
  F64.in_unit a = true ->
  clock env (S (clock_reads v0)) - clock env (clock_reads v0) < cache_duration env ->
  numeric s ->
  exists v1,
    cache_player_average env (Some (season_key p)) (Some a) v0 = (Ok tt, v1)
    /\ _get_player_season_average env p v1 = (Raise KeyError, tick v1)
    /\ fst (_apply_season_average_fallback env s (Some p) v1) = Ok s.
Proof.
  intros Ha Hl Hn.
  destruct (cache_player_average_accepted env (Some (season_key p)) (season_key p) a v0)
    as (v1 & Hrun & Hc & _ & Hreads & _); [reflexivity | exact Ha |].
  exists v1. split; [exact Hrun|].
  assert (Hget : _get_player_season_average env p v1 = (Raise KeyError, tick v1)).
  { rewrite get_season_average_run, Hc. unfold live_at. cbn [timestamp_of].
    rewrite Hreads.
    destruct (Z.ltb_spec (clock env (S (clock_reads v0)) - clock env (clock_reads v0))
                (cache_duration env)); [reflexivity | lia]. }
  split; [exact Hget|].
  destruct (numeric_invalid_mask _ Hn) as [m Hm].
  rewrite (tier2_run env _ _ _ _ Hm). unfold tier2_offer, truthy_id.
  destruct (String.eqb p ""); [reflexivity|]. rewrite Hget. reflexivity.
Qed.

(** X12. Tier 2 at work: with no live previous-average entry for the
    player, a season average [a], live in the cache or just computed from
    the provider's table, is what every masked cell receives, provided [a]
    is itself a valid average ([0 < a <= 1]); a season average that is
    masked itself, such as the 0 of a player without hits, is overwritten by
    tier 3 with the league average. *)
Theorem season_average_fills_masked_cells
  (env : Env) (v : Validator) (pid : option string) (p : string) (a : float)
  (s : Series) (col : string) :
  truthy_id pid = Some p ->
  no_live_entry env v pid ->
  numeric s ->
  ((exists t, cache v !! season_key p = Some (SeasonAvg a t)
              /\ forall k, clock env k - t < cache_duration env)
   \/ (cache v !! season_key p = None
       /\ exists df, (forall x y, statcast_batter env x y p = FetchData df)
                     /\ df_empty df = false
                     /\ _calc_overall_avg_from_events df hit_events = Ok a)) ->
  exists r v',
    _apply_batting_average_fallback env s pid col v = (Ok r, v')
    /\ (forall i c, s !! i = Some c -> masked c ->
          r !! i = Some (CNum (if invalid_float a then league_average else a)))
    /\ (F64.ltb F64.zero a = true -> F64.leb a F64.one = true ->
        r = fill_invalid a s)
    /\ (F64.eqb a F64.zero = true -> r = fill_invalid league_average s).
Proof.
  intros Hp Hnl Hn Hsrc.
  assert (Hoffer : tier2_offer env (after_tier1 v pid) pid = Some a).
  { unfold tier2_offer. rewrite Hp, get_season_average_run, after_tier1_cache.
    destruct Hsrc as [(t & Hc & Hl) | (Hc & df & Hf & He & Ha)]; rewrite Hc.
    - unfold live_at. cbn [timestamp_of].
      destruct (Z.ltb_spec (clock env (clock_reads (after_tier1 v pid)) - t)
                  (cache_duration env)); [reflexivity|].
      specialize (Hl (clock_reads (after_tier1 v pid))). lia.
    - unfold season_fetch. rewrite Hf, He, Ha. reflexivity. }
  assert (Hval : fallback_value env v pid = if invalid_float a then league_average else a).
  { unfold fallback_value. rewrite (tier1_offer_stale env _ _ Hnl), Hoffer. reflexivity. }
  destruct (numeric_invalid_mask _ Hn) as [m Hm].
  assert (Hrun : exists v',
            _apply_batting_average_fallback env s pid col v
            = (Ok (fill_invalid (if invalid_float a then league_average else a) s), v')).
  { destruct (mask_any m) eqn:Hany.
    - rewrite (cascade_run env _ _ _ _ _ Hm Hany), Hval. eauto.
    - rewrite (cascade_run_clean env _ _ _ _ _ Hm Hany).
      destruct (mask_any_false _ _ Hm Hany) as [_ ->]. eauto. }
  destruct Hrun as [v' Hrun]. eexists _, v'. split; [exact Hrun|]. split.
  - intros i c Hi Hc. rewrite (fill_invalid_lookup _ _ _ _ Hi).
    unfold masked in Hc. rewrite Hc. reflexivity.
  - split.
    + intros H0 H1. rewrite (positive_unit_valid a H0 H1). reflexivity.
    + intros Hz. unfold invalid_float. rewrite Hz, !orb_true_r. cbn [orb].
      destruct (F64.is_nan a); reflexivity.
Qed.

(** ** Player records: what is kept *)

Lemma validate_player_data_string_avg (d : PlayerData) (str : string) :
  Nat.eqb (size d) 0 = false ->
  d !! "batting_avg" = Some (VStr str) ->
  validate_player_data (Some d) = Raise TypeError.
Proof.
  intros Hs Hd. unfold validate_player_data. rewrite Hs, defaults_batting_avg, Hd.
  reflexivity.
Qed.

Lemma validate_player_data_ok_run (d d' : PlayerData) :
  Nat.eqb (size d) 0 = false ->
  validate_player_data (Some d) = Ok d' ->
  let vd := fold_left apply_default required_fields d in
  let avg := match d !! "batting_avg" with
             | None | Some VNone => VFloat league_average
             | Some x => x
             end in
  let vd' := if replaced_avg avg then <["batting_avg" := VFloat league_average]> vd
             else vd in
  (forall str, avg <> VStr str)
  /\ d' = <["data_quality" := VStr (_assess_data_quality vd')]> vd'.
Proof.
  intros Hs H. cbn zeta.
  assert (Hstr : forall str, d !! "batting_avg" <> Some (VStr str)).
  { intros str Hd. rewrite (validate_player_data_string_avg d str Hs Hd) in H.
    discriminate. }
  rewrite (validate_player_data_run d Hs Hstr) in H. cbn zeta in H.
  injection H as <-. split; [|reflexivity].
  intros str. destruct (d !! "batting_avg") as [[]|] eqn:Hd; try discriminate.
  intros [= ->]. eapply Hstr. reflexivity.
Qed.

Lemma find_required_none (k : string) :
  ~ In k required_names ->
  List.find (fun fd : string * pyval => String.eqb (fst fd) k) required_fields = None.
Proof.
  intros Hk. destruct (List.find _ required_fields) as [fd|] eqn:Hf; [|reflexivity].
  exfalso. apply List.find_some in Hf as [Hin Heq].
  apply String.eqb_eq in Heq as <-. apply Hk. unfold required_names.
  apply in_map. exact Hin.
Qed.

Lemma defaults_keep_non_null (d : PlayerData) (k : string) (x : pyval) :
  d !! k = Some x -> x <> VNone ->
  fold_left apply_default required_fields d !! k = Some x.
Proof.
  intros Hd Hx. rewrite defaults_lookup, Hd.
  destruct (List.find _ required_fields); [|reflexivity].
  destruct x; [congruence | reflexivity..].
Qed.

Lemma defaults_complete (d : PlayerData) :
  complete (fold_left apply_default required_fields d).
Proof.
  intros k def Hin. destruct (defaults_field d k def Hin) as (_ & x & Hx & Hdef).
  exists x. split; [exact Hx|]. intros ->.
  rewrite defaults_lookup in Hx.
  destruct (d !! k) as [[]|] eqn:Hd; try (symmetry; apply Hdef; auto);
    destruct (List.find _ required_fields); congruence.
Qed.

Lemma complete_insert (d : PlayerData) (k : string) (x : pyval) :
  complete d -> x <> VNone -> complete (<[k := x]> d).
Proof.
  intros Hc Hx k' def Hin. destruct (String.eqb_spec k k') as [<-|Hne].
  - exists x. rewrite lookup_insert_eq. split; [reflexivity | congruence].
  - rewrite lookup_insert_ne by exact Hne. apply Hc. exact Hin.
Qed.

Lemma complete_defaults_fixed (d : PlayerData) :
  complete d -> fold_left apply_default required_fields d = d.
Proof.
  intros Hc.
  assert (Hstep : forall fd, In fd required_fields -> apply_default d fd = d).
  { intros [k def] Hin. destruct (Hc k def Hin) as (x & Hx & Hdef).
    unfold apply_default. cbn [fst snd]. rewrite Hx.
    destruct x; try reflexivity. rewrite Hdef by reflexivity.
    apply insert_id. exact Hx. }
  unfold required_fields in *. cbn [fold_left].
  rewrite !Hstep by (cbn; auto 10). reflexivity.
Qed.

(** X13. [validate_player_data] keeps what the caller supplied: on a
    non-empty record every field with a non-null value other than
    [batting_avg] and [data_quality] comes back unchanged, fields outside the
    five required ones come back exactly as they were (null or not), and a
    [data_quality] the caller passed in is overwritten by the computed one. *)
Theorem validate_player_data_keeps_fields (d d' : PlayerData) :
  Nat.eqb (size d) 0 = false ->
  validate_player_data (Some d) = Ok d' ->
  (forall k x, d !! k = Some x -> x <> VNone ->
     k <> "batting_avg"%string -> k <> "data_quality"%string -> d' !! k = Some x)
  /\ (forall k, ~ In k required_names -> k <> "data_quality"%string ->
        d' !! k = d !! k)
  /\ (forall x, d !! "batting_avg" = Some x -> x <> VNone -> replaced_avg x = false ->
        d' !! "batting_avg" = Some x)
  /\ (exists q, d' !! "data_quality" = Some (VStr q)
                /\ q = bucket (truthy_quality_score d')).
Proof.
  intros Hs H.
  destruct (validate_player_data_ok_run d d' Hs H) as [Hstr ->]. cbn zeta.
  set (vd := fold_left apply_default required_fields d).
  set (avg := match d !! "batting_avg" with
              | None | Some VNone => VFloat league_average
              | Some x => x
              end).
  assert (Hother : forall k, k <> "batting_avg"%string -> k <> "data_quality"%string ->
     (<["data_quality" := VStr (_assess_data_quality
         (if replaced_avg avg then <["batting_avg" := VFloat league_average]> vd else vd))]>
        (if replaced_avg avg then <["batting_avg" := VFloat league_average]> vd else vd))
       !! k = vd !! k).
  { intros k Hk1 Hk2. rewrite lookup_insert_ne by congruence.
    destruct (replaced_avg avg); [|reflexivity].
    rewrite lookup_insert_ne by congruence. reflexivity. }
  split; [|split; [|split]].
  - intros k x Hd Hx Hk1 Hk2. rewrite Hother by assumption.
    apply defaults_keep_non_null; assumption.
  - intros k Hk Hq. rewrite Hother; [|intros ->; apply Hk; cbn; auto 10|exact Hq].
    unfold vd. rewrite defaults_lookup, find_required_none by exact Hk. reflexivity.
  - intros x Hd Hx Hrep. rewrite lookup_insert_ne by discriminate.
    assert (Havg : avg = x) by (unfold avg; rewrite Hd; destruct x; congruence).
    rewrite Havg, Hrep. unfold vd. apply defaults_keep_non_null; assumption.
  - eexists. split; [apply lookup_insert_eq|].
    unfold truthy_quality_score.
    rewrite score_with_data_quality, _assess_data_quality_bucket. reflexivity.
Qed.

(** X14. [validate_player_data] is idempotent: a record it returned is
    returned unchanged when validated again. *)
Theorem validate_player_data_idempotent (input : option PlayerData) (d' : PlayerData) :
  validate_player_data input = Ok d' ->
  validate_player_data (Some d') = Ok d'.
Proof.
  intros H.
  assert (Hdefault : validate_player_data (Some _get_default_player_data)
                     = Ok _get_default_player_data) by (vm_compute; reflexivity).
  destruct input as [d|]; [|injection H as <-; exact Hdefault].
  destruct (Nat.eqb (size d) 0) eqn:Hs.
  { unfold validate_player_data in H. rewrite Hs in H. injection H as <-. exact Hdefault. }
  destruct (validate_player_data_ok_run d d' Hs H) as [Hstr ->]. cbn zeta in *.
  set (vd := fold_left apply_default required_fields d) in *.
  set (avg := match d !! "batting_avg" with
              | None | Some VNone => VFloat league_average
              | Some x => x
              end) in *.
  assert (Havg : vd !! "batting_avg" = Some avg) by apply defaults_batting_avg.
  assert (Hnn : avg <> VNone).
  { unfold avg. destruct (d !! "batting_avg") as [[]|]; discriminate. }
  set (vd' := if replaced_avg avg then <["batting_avg" := VFloat league_average]> vd
              else vd).
  (* the record before the quality flag: complete, with an average that stays *)
  assert (Hc : complete vd').
  { unfold vd'. destruct (replaced_avg avg);
      [apply complete_insert; [|discriminate]|]; apply defaults_complete. }
  assert (Hkept : exists x, vd' !! "batting_avg" = Some x
                    /\ replaced_avg x = false /\ x <> VNone /\ forall str, x <> VStr str).
  { unfold vd'. destruct (replaced_avg avg) eqn:Hrep.
    - exists (VFloat league_average). rewrite lookup_insert_eq.
      repeat split; try reflexivity; discriminate.
    - exists avg. repeat split; assumption. }
  destruct Hkept as (x & Hx & Hrep & Hxn & Hxs).
  set (q := VStr (_assess_data_quality vd')).
  assert (Hx' : <["data_quality" := q]> vd' !! "batting_avg" = Some x).
  { rewrite lookup_insert_ne by discriminate. exact Hx. }
  rewrite validate_player_data_run;
    [|eapply lookup_size_nonzero; exact Hx'
     |intros str; rewrite Hx'; intros [= ->]; eapply Hxs; reflexivity].
  cbn zeta. rewrite Hx'.
  rewrite complete_defaults_fixed by (apply complete_insert; [exact Hc | discriminate]).
  assert (Hsame : match x with VNone => VFloat league_average | _ => x end = x)
    by (destruct x; congruence).
  rewrite Hsame, Hrep. f_equal.
  assert (Hq : _assess_data_quality (<["data_quality" := q]> vd') = _assess_data_quality vd').
  { rewrite !_assess_data_quality_bucket. unfold truthy_quality_score.
    rewrite score_with_data_quality. reflexivity. }
  rewrite Hq. apply insert_insert_eq.
Qed.

(** ** Which tables validation accepts *)

Lemma not_numeric_has_string (s : Series) :
  has_string s -> ~ numeric s.
Proof.
  intros (i & x & Hi) Hn. revert i Hi.
  induction Hn as [|c s Hc Hn IH]; intros [|i] Hi; try discriminate.
  - injection Hi as ->. exact (Hc x eq_refl).
  - exact (IH i Hi).
Qed.

Lemma has_string_raises (s : Series) :
  has_string s -> exists e, invalid_mask s = Raise e.
Proof.
  intros Hs. destruct (invalid_mask s) as [m|e] eqn:Hm; [|eauto].
  exfalso. exact (not_numeric_has_string s Hs (invalid_mask_numeric s m Hm)).
Qed.

Section Refusals.

Variable env : Env.

Lemma cascade_numeric (s : Series) (pid : option string) (col : string) (v : Validator) :
  numeric s ->
  exists s' v1, _apply_batting_average_fallback env s pid col v = (Ok s', v1)
                /\ numeric s'.
Proof.
  intros Hn. destruct (numeric_invalid_mask s Hn) as [m Hm].
  destruct (mask_any m) eqn:Ha.
  - rewrite (cascade_run env s m pid col v Hm Ha). eexists _, _. split; [reflexivity|].
    apply fill_invalid_numeric. exact Hn.
  - rewrite (cascade_run_clean env s m pid col v Hm Ha). eauto.
Qed.

Lemma validate_columns_refuses (cols : list string) (pid : option string) :
  forall (df : DataFrame) (v : Validator) (c : string) (s : Series),
  In c cols -> get_col c df = Some s -> has_string s ->
  exists e v', validate_columns env cols pid df v = (Raise e, v').
Proof.
  induction cols as [|c0 rest IH]; intros df v c s Hin Hc Hs; [destruct Hin|].
  cbn [validate_columns].
  destruct (get_col c0 df) as [s0|] eqn:H0.
  - destruct (invalid_mask s0) as [m|e] eqn:Hm.
    + destruct (cascade_numeric s0 pid c0 v (invalid_mask_numeric s0 m Hm))
        as (s' & v1 & Hrun & Hn').
      unfold bind. rewrite Hrun.
      destruct (String.eqb_spec c0 c) as [->|Hne].
      * exfalso. rewrite H0 in Hc. injection Hc as ->.
        exact (not_numeric_has_string s Hs (invalid_mask_numeric s m Hm)).
      * apply (IH _ v1 c s); [destruct Hin; congruence| |exact Hs].
        rewrite get_col_set_col_other by exact Hne. exact Hc.
    + unfold bind. rewrite (cascade_run_raise env s0 e pid c0 v Hm). eauto.
  - apply (IH df v c s); [|exact Hc|exact Hs].
    destruct Hin as [->|Hin]; [congruence | exact Hin].
Qed.

End Refusals.

(** X15. Which tables are refused.  On a table with rows, distinct labels
    and average-like columns, validation raises exactly when one of these
    columns holds a string, and what it raises is [TypeError]; when none of
    them does, it returns a table.  Strings in other columns are no
    obstacle. *)
Theorem validation_refuses_strings_only
  (env : Env) (data : DataFrame) (pid : option string) (v : Validator) :
  df_empty data = false ->
  distinct_labels data ->
  List.filter is_avg_column (column_names data) <> [] ->
  ((exists c s, is_avg_column c = true /\ get_col c data = Some s /\ has_string s)
   -> exists v', validate_batting_averages env (Some data) pid v = (Raise TypeError, v'))
  /\ ((forall c s, is_avg_column c = true -> get_col c data = Some s -> ~ has_string s)
      -> exists res v', validate_batting_averages env (Some data) pid v = (Ok res, v')).
Proof.
  intros He _ Hf. split.
  - intros (c & s & Hc & Hg & Hs).
    destruct (validate_columns_refuses env (List.filter is_avg_column (column_names data))
                pid data v c s (avg_column_in_filter c s data Hc Hg) Hg Hs) as (e & v' & Hr).
    rewrite (validate_columns_raises_type_error env _ _ _ _ _ _ Hr) in Hr.
    rewrite <- (validate_on_average_columns env data pid v He Hf) in Hr. eauto.
  - intros Hall. apply validate_batting_averages_returns; [exact Hf|].
    intros c s Hc Hg. specialize (Hall c s Hc Hg).
    clear Hg. induction s as [|x s IH]; constructor.
    + intros y ->. apply Hall. exists 0%nat, y. reflexivity.
    + apply IH. intros (i & y & Hi). apply Hall. exists (S i), y. exact Hi.
Qed.

(** ** Averages derived from events *)

Lemma res_mapM_ok {A B} (f : A -> res B) (g : A -> B) (l : list A) :
  (forall a, In a l -> f a = Ok (g a)) -> res_mapM f l = Ok (map g l).
Proof.
  induction l as [|a l IH]; intros H; [reflexivity|].
  cbn [res_mapM map]. rewrite (H a) by (left; reflexivity). cbn [res_bind].
  rewrite IH by (intros b Hb; apply H; right; exact Hb). reflexivity.
Qed.

Lemma map_lookup_some {A B} (g : A -> B) (l : list A) (i : nat) (a : A) :
  l !! i = Some a -> map g l !! i = Some (g a).
Proof.
  revert i. induction l as [|a0 l IH]; intros [|i] H; try discriminate.
  - injection H as ->. reflexivity.
  - apply (IH i H).
Qed.

Lemma lookup_some_in {A} (l : list A) (i : nat) (a : A) :
  l !! i = Some a -> In a l.
Proof.
  revert i. induction l as [|a0 l IH]; intros [|i] H; try discriminate.
  - injection H as ->. left. reflexivity.
  - right. exact (IH i H).
Qed.

Lemma float_eqb_refl (f : float) : F64.is_nan f = false -> F64.eqb f f = true.
Proof.
  unfold F64.eqb, SFeqb. destruct f as [s|s| |s m e]; try discriminate; intros _.
  - reflexivity.
  - destruct s; reflexivity.
  - cbn [SFcompare]. destruct s; rewrite Z.compare_refl;
      rewrite Pos.compare_cont_refl; reflexivity.
Qed.

Lemma key_eqb_refl (key : cell) : cell_isnull key = false -> key_eqb key key = true.
Proof.
  destruct key as [|x|f]; cbn [cell_isnull key_eqb]; try discriminate.
  - intros _. apply String.eqb_refl.
  - apply float_eqb_refl.
Qed.

Lemma mask_count {A} (f : A -> bool) (l : list A) :
  length (List.filter (fun b : bool => b) (map f l)) = length (List.filter f l).
Proof.
  induction l as [|a l IH]; [reflexivity|].
  cbn [map List.filter]. destruct (f a); cbn [length]; rewrite IH; reflexivity.
Qed.

Lemma select_hits (f : cell -> bool) (names events : Series) :
  length (List.filter is_hit (select (map f names) events))
  = length (List.filter (fun ne => f (fst ne) && is_hit (snd ne)) (combine names events)).
Proof.
  revert events. induction names as [|n names IH]; intros [|e events]; try reflexivity.
  cbn [map select combine List.filter fst snd].
  destruct (f n); cbn [andb].
  - cbn [List.filter]. destruct (is_hit e); cbn [length]; rewrite IH; reflexivity.
  - apply IH.
Qed.

Lemma player_rows_positive (key : cell) (names : Series) :
  In key names -> cell_isnull key = false -> (1 <= player_rows key names)%nat.
Proof.
  intros Hin Hk. unfold player_rows.
  induction names as [|n names IH]; [destruct Hin|].
  cbn [List.filter]. destruct Hin as [->|Hin].
  - rewrite key_eqb_refl by exact Hk. cbn [length]. lia.
  - destruct (key_eqb key n); cbn [length]; [lia | exact (IH Hin)].
Qed.

Lemma player_average (data : DataFrame) (names events : Series) (key : cell) :
  get_col "events" data = Some events ->
  In key names -> cell_isnull key = false ->
  _calc_player_avg_from_events (select_rows (map (key_eqb key) names) data) hit_events
  = Ok (hit_rate (player_hits key names events) (player_rows key names)).
Proof.
  intros Hev Hin Hk.
  pose proof (player_rows_positive key names Hin Hk) as Hpos.
  unfold _calc_player_avg_from_events, _calc_overall_avg_from_events.
  assert (Hrows : nrows (select_rows (map (key_eqb key) names) data)
                  = player_rows key names) by apply mask_count.
  assert (Hcols : length (columns (select_rows (map (key_eqb key) names) data))
                  = length (columns data)).
  { unfold select_rows. cbn [columns]. apply length_map. }
  assert (Hne : length (columns data) <> 0%nat).
  { unfold get_col in Hev. destruct (columns data); [discriminate | cbn; lia]. }
  unfold df_empty. rewrite Hrows, Hcols.
  destruct (Nat.eqb_spec (player_rows key names) 0) as [H0|_]; [lia|].
  destruct (Nat.eqb_spec (length (columns data)) 0) as [H0|_]; [contradiction|].
  cbn [orb]. rewrite get_col_select_rows, Hev. cbn [option_map].
  destruct (Z.ltb_spec 0 (Z.of_nat (player_rows key names))) as [_|Hle]; [|lia].
  unfold hit_rate, player_hits. rewrite <- select_hits. reflexivity.
Qed.

Lemma some_name_not_null (names : Series) :
  (exists i key, names !! i = Some key /\ cell_isnull key = false) ->
  forallb cell_isnull names = false.
Proof.
  intros (i & key & Hi & Hk). revert i Hi.
  induction names as [|n names IH]; intros [|i] Hi; try discriminate; cbn [forallb].
  - injection Hi as ->. rewrite Hk. reflexivity.
  - rewrite (IH i Hi). apply andb_false_r.
Qed.

Lemma every_name_null (names : Series) :
  (forall i key, names !! i = Some key -> cell_isnull key = true) ->
  forallb cell_isnull names = true.
Proof.
  induction names as [|n names IH]; intros H; [reflexivity|]. cbn [forallb].
  rewrite (H 0%nat n eq_refl), IH; [reflexivity|].
  intros i key Hi. exact (H (S i) key Hi).
Qed.

(** X16. Averages derived from an [events] column, on a table with distinct
    labels and a [player_name] column.  When some player is named, the
    derivation returns and gives each row the rate of its player: the number
    of that player's rows whose event is a single, double, triple or home
    run, over the number of that player's rows (at least one); a row whose
    player name is null, or whose rate is NaN, gets the league average; and
    unless the table has both [hits] and [at_bats], this is the
    [calculated_avg] column that [_calculate_batting_average] adds.  When no
    player is named (every name is null), the derivation raises a value
    error, and so does validation, leaving the validator as it was. *)
Theorem events_average_per_player (data : DataFrame) (events names : Series) :
  distinct_labels data ->
  get_col "events" data = Some events ->
  get_col "player_name" data = Some names ->
  ((exists i key, names !! i = Some key /\ cell_isnull key = false) ->
     exists derived,
       _calculate_avg_from_events data = Ok derived
       /\ length derived = length names
       /\ (forall i key, names !! i = Some key ->
            exists d, derived !! i = Some (CNum d) /\ F64.is_nan d = false
              /\ (cell_isnull key = true -> d = league_average)
              /\ (cell_isnull key = false ->
                    (1 <= player_rows key names)%nat
                    /\ d = if F64.is_nan (hit_rate (player_hits key names events)
                                                     (player_rows key names))
                           then league_average
                           else hit_rate (player_hits key names events)
                                         (player_rows key names)))
       /\ (get_col "hits" data = None \/ get_col "at_bats" data = None ->
           _calculate_batting_average data = Ok (set_col "calculated_avg" derived data)))
  /\ ((forall i key, names !! i = Some key -> cell_isnull key = true) ->
      _calculate_avg_from_events data = Raise ValueError
      /\ (get_col "hits" data = None \/ get_col "at_bats" data = None ->
          _calculate_batting_average data = Raise ValueError
          /\ forall env pid v,
               df_empty data = false ->
               List.filter is_avg_column (column_names data) = [] ->
               validate_batting_averages env (Some data) pid v = (Raise ValueError, v))).
Proof.
  intros _ Hev Hn.
  assert (Hhas : has_col "events" data = true) by (unfold has_col; rewrite Hev; reflexivity).
  assert (Hcalc : get_col "hits" data = None \/ get_col "at_bats" data = None ->
                  _calculate_batting_average data
                  = res_bind (_calculate_avg_from_events data)
                      (fun s => Ok (set_col "calculated_avg" s data))).
  { intros Hnone. unfold _calculate_batting_average. rewrite Hhas.
    destruct Hnone as [-> | Ha]; [reflexivity|].
    rewrite Ha. destruct (get_col "hits" data); reflexivity. }
  split.
  - intros Hnamed.
    set (g := fun key : cell =>
                if cell_isnull key then CNum F64.nan
                else CNum (hit_rate (player_hits key names events) (player_rows key names))).
    assert (Hrun : _calculate_avg_from_events data
                   = Ok (fillna (map g names) league_average)).
    { unfold _calculate_avg_from_events.
      rewrite Hhas, Hn, (some_name_not_null names Hnamed). cbn [negb].
      rewrite (res_mapM_ok _ g names); [reflexivity|].
      intros key Hin. unfold g. destruct (cell_isnull key) eqn:Hk; [reflexivity|].
      rewrite (player_average data names events key Hev Hin Hk). reflexivity. }
    exists (fillna (map g names) league_average).
    split; [exact Hrun|]. split.
    { unfold fillna. rewrite !length_map. reflexivity. }
    split; [|intros Hnone; rewrite (Hcalc Hnone), Hrun; reflexivity].
    intros i key Hi.
    rewrite (fillna_lookup _ _ i (g key) (map_lookup_some g names i key Hi)).
    unfold g. destruct (cell_isnull key) eqn:Hk.
    + exists league_average. cbn [cell_isnull F64.is_nan F64.nan].
      split; [reflexivity|]. split; [reflexivity|]. split; [reflexivity | discriminate].
    + cbn [cell_isnull].
      destruct (F64.is_nan (hit_rate (player_hits key names events) (player_rows key names)))
        eqn:Hq.
      * exists league_average. split; [reflexivity|]. split; [reflexivity|].
        split; [discriminate|]. intros _. split.
        -- apply player_rows_positive; [exact (lookup_some_in names i key Hi) | exact Hk].
        -- reflexivity.
      * eexists. split; [reflexivity|]. split; [exact Hq|]. split; [discriminate|].
        intros _. split.
        -- apply player_rows_positive; [exact (lookup_some_in names i key Hi) | exact Hk].
        -- reflexivity.
  - intros Hnull.
    assert (Hrun : _calculate_avg_from_events data = Raise ValueError).
    { unfold _calculate_avg_from_events.
      rewrite Hhas, Hn, (every_name_null names Hnull). reflexivity. }
    split; [exact Hrun|]. intros Hnone.
    assert (Hraise : _calculate_batting_average data = Raise ValueError)
      by (rewrite (Hcalc Hnone), Hrun; reflexivity).
    split; [exact Hraise|]. intros env pid v He Hf.
    unfold validate_batting_averages. rewrite He, Hf.
    unfold bind, lift. rewrite Hraise. reflexivity.
Qed.

(** ** Tables with nothing to compute an average from *)

Lemma league_column_clean (n : nat) :
  exists m, invalid_mask (repeat (CNum league_average) n) = Ok m /\ mask_any m = false.
Proof.
  apply unmasked_mask. induction n as [|n IH]; constructor; [reflexivity | exact IH].
Qed.

(** X17. A table with rows and columns but nothing to compute an average
    from (no average-like column, not both [hits] and [at_bats], no
    [events]) comes back with one more column, [calculated_avg], holding the
    league average 0.244 in every row; every other column is as it was, and
    neither the cache nor the clock nor the provider is touched. *)
Theorem table_without_sources_gets_league_average
  (env : Env) (data : DataFrame) (pid : option string) (v : Validator) :
  df_empty data = false ->
  List.filter is_avg_column (column_names data) = [] ->
  get_col "hits" data = None \/ get_col "at_bats" data = None ->
  get_col "events" data = None ->
  exists res,
    validate_batting_averages env (Some data) pid v = (Ok res, v)
    /\ get_col "calculated_avg" res = Some (repeat (CNum league_average) (nrows data))
    /\ nrows res = nrows data
    /\ column_names res = (column_names data ++ ["calculated_avg"])%list
    /\ forall c, c <> "calculated_avg"%string -> get_col c res = get_col c data.
Proof.
  intros He Hf Hnone Hev.
  set (s := repeat (CNum league_average) (nrows data)).
  assert (Hcalc : _calculate_batting_average data = Ok (set_col "calculated_avg" s data)).
  { unfold _calculate_batting_average, has_col. rewrite Hev.
    destruct Hnone as [-> | Ha]; [reflexivity|].
    rewrite Ha. destruct (get_col "hits" data); reflexivity. }
  assert (Hnew : get_col "calculated_avg" data = None).
  { destruct (get_col "calculated_avg" data) as [s0|] eqn:Hg; [|reflexivity].
    exfalso. pose proof (avg_column_in_filter "calculated_avg" s0 data eq_refl Hg) as Hin.
    rewrite Hf in Hin. destruct Hin. }
  exists (set_col "calculated_avg" s data).
  split; [|split; [|split; [|split]]].
  - unfold validate_batting_averages. rewrite He, Hf, Hcalc.
    unfold bind, lift. cbn [validate_columns].
    rewrite get_col_set_col. cbn [String.eqb Ascii.eqb Bool.eqb andb].
    destruct (league_column_clean (nrows data)) as (m & Hm & Ha).
    unfold bind. fold s in Hm.
    rewrite (cascade_run_clean env s m pid "calculated_avg" v Hm Ha).
    unfold ret. f_equal. f_equal. apply set_col_same.
    rewrite get_col_set_col. reflexivity.
  - rewrite get_col_set_col. reflexivity.
  - reflexivity.
  - apply assoc_set_names_absent. exact Hnew.
  - intros c Hc. apply get_col_set_col_other. congruence.
Qed.

(** ** The shape of the table *)

Lemma series_div_length (a b q : Series) :
  series_div a b = Ok q -> length q = Nat.min (length a) (length b).
Proof.
  revert b q. induction a as [|x a IH]; intros [|y b] q; cbn [series_div];
    try (intros [= <-]; reflexivity).
  destruct (cell_div x y); [|discriminate]. cbn [res_bind].
  destruct (series_div a b) as [qs|] eqn:Hq; [|discriminate]. cbn [res_bind].
  intros [= <-]. cbn [length]. rewrite (IH b qs Hq). reflexivity.
Qed.

Lemma res_mapM_length {A B} (f : A -> res B) (l : list A) (l' : list B) :
  res_mapM f l = Ok l' -> length l' = length l.
Proof.
  revert l'. induction l as [|a l IH]; intros l'; cbn [res_mapM].
  - intros [= <-]. reflexivity.
  - destruct (f a); [|discriminate]. cbn [res_bind].
    destruct (res_mapM f l) as [bs|]; [|discriminate]. cbn [res_bind].
    intros [= <-]. cbn [length]. rewrite (IH bs eq_refl). reflexivity.
Qed.

Lemma _calculate_avg_from_events_length (data : DataFrame) (s : Series) :
  well_formed data -> _calculate_avg_from_events data = Ok s -> length s = nrows data.
Proof.
  intros Hw. unfold _calculate_avg_from_events.
  destruct (has_col "events" data); cbn [negb].
  2:{ intros [= <-]. apply repeat_length. }
  destruct (get_col "player_name" data) as [names|] eqn:Hn.
  - destruct (forallb cell_isnull names); [discriminate|].
    destruct (res_mapM _ names) as [mapped|] eqn:Hm; [|discriminate]. cbn [res_bind].
    intros [= <-]. unfold fillna. rewrite length_map, (res_mapM_length _ _ _ Hm).
    exact (Hw _ _ Hn).
  - destruct (_calc_overall_avg_from_events data hit_events); [|discriminate].
    cbn [res_bind]. intros [= <-]. apply repeat_length.
Qed.

Lemma well_formed_set_col (c : string) (s : Series) (df : DataFrame) :
  well_formed df -> length s = nrows df -> well_formed (set_col c s df).
Proof.
  intros Hw Hs c0 s0. rewrite get_col_set_col.
  destruct (String.eqb c c0); [intros [= <-]; exact Hs | apply Hw].
Qed.

Lemma _calculate_batting_average_well_formed (data df1 : DataFrame) :
  well_formed data -> _calculate_batting_average data = Ok df1 -> well_formed df1.
Proof.
  intros Hw. unfold _calculate_batting_average.
  assert (Hrest : (if has_col "events" data
                   then res_bind (_calculate_avg_from_events data)
                          (fun s => Ok (set_col "calculated_avg" s data))
                   else Ok (set_col "calculated_avg"
                              (repeat (CNum league_average) (nrows data)) data)) = Ok df1 ->
                  well_formed df1).
  { destruct (has_col "events" data).
    - destruct (_calculate_avg_from_events data) as [s|] eqn:Hs; [|discriminate].
      cbn [res_bind]. intros [= <-]. apply well_formed_set_col; [exact Hw|].
      exact (_calculate_avg_from_events_length data s Hw Hs).
    - intros [= <-]. apply well_formed_set_col; [exact Hw | apply repeat_length]. }
  destruct (get_col "hits" data) as [hits|] eqn:Hh; [|exact Hrest].
  destruct (get_col "at_bats" data) as [at_bats|] eqn:Ha; [|exact Hrest].
  destruct (series_div hits (replace_zero_nan at_bats)) as [q|] eqn:Hq; [|discriminate].
  cbn [res_bind]. intros [= <-].
  assert (Hlen : length q = nrows data).
  { rewrite (series_div_length _ _ _ Hq). unfold replace_zero_nan.
    rewrite length_map, (Hw _ _ Hh), (Hw _ _ Ha). apply Nat.min_id. }
  apply well_formed_set_col.
  - apply well_formed_set_col; assumption.
  - unfold fillna. rewrite length_map. exact Hlen.
Qed.

Lemma validate_columns_well_formed (env : Env) (cols : list string) (pid : option string)
  (df res : DataFrame) (v v' : Validator) :
  well_formed df ->
  validate_columns env cols pid df v = (Ok res, v') -> well_formed res.
Proof.
  intros Hw H c s Hc.
  destruct (validate_columns_spec env cols pid df res v v' H) as (Hn & _ & _ & _ & Hlen).
  destruct (Hlen c s Hc) as (s0 & H0 & ->). rewrite Hn. exact (Hw c s0 H0).
Qed.

(** X18. Validation preserves the shape of a table: when every column of
    the input has one cell for each row, so does every column of the table
    returned, whichever branch produced it (the empty table, the validated
    average-like columns, or the derived [calculated_avg] column). *)
Theorem validation_preserves_shape
  (env : Env) (data : option DataFrame) (pid : option string) (v v' : Validator)
  (res : DataFrame) :
  (forall d, data = Some d -> well_formed d) ->
  validate_batting_averages env data pid v = (Ok res, v') ->
  well_formed res.
Proof.
  intros Hw. unfold validate_batting_averages.
  assert (Hnew : well_formed DataFrame_new) by (intros c s; discriminate).
  destruct data as [d|]; [|intros [= <- _]; exact Hnew].
  specialize (Hw d eq_refl).
  destruct (df_empty d); [intros [= <- _]; exact Hnew|].
  destruct (List.filter is_avg_column (column_names d)) as [|c0 cs].
  - unfold bind at 1. unfold lift.
    destruct (_calculate_batting_average d) as [df1|] eqn:Hc; [|discriminate].
    apply validate_columns_well_formed.
    exact (_calculate_batting_average_well_formed d df1 Hw Hc).
  - apply validate_columns_well_formed. exact Hw.
Qed.

(** ** Player records: what is refused *)

(** X19. [validate_player_data] raises on one kind of input only: a
    non-empty record whose [batting_avg] is a string, on which the
    comparison with zero raises [TypeError].  On every other input (no
    record, an empty one, a missing, null or numeric average, NaN included)
    it returns a record. *)
Theorem validate_player_data_refuses_string_average (input : option PlayerData) :
  (forall e, validate_player_data input = Raise e ->
     e = TypeError
     /\ exists d str, input = Some d /\ d !! "batting_avg" = Some (VStr str))
  /\ (forall d str, input = Some d -> d !! "batting_avg" = Some (VStr str) ->
        validate_player_data input = Raise TypeError)
  /\ ((forall d str, input = Some d -> d !! "batting_avg" <> Some (VStr str)) ->
        exists d', validate_player_data input = Ok d').
Proof.
  assert (Hreturns : forall d, (forall str, d !! "batting_avg" <> Some (VStr str)) ->
                               exists d', validate_player_data (Some d) = Ok d').
  { intros d Hd. destruct (Nat.eqb (size d) 0) eqn:Hs.
    - unfold validate_player_data. rewrite Hs. eauto.
    - rewrite (validate_player_data_run d Hs Hd). eauto. }
  split; [|split].
  - intros e H. destruct input as [d|]; [|discriminate].
    destruct (d !! "batting_avg") as [x|] eqn:Hd.
    + destruct x as [|str| |];
        try (destruct (Hreturns d) as [d' Hd']; [intros str; rewrite Hd; discriminate|];
             rewrite Hd' in H; discriminate).
      rewrite (validate_player_data_string_avg d str
                 (lookup_size_nonzero d "batting_avg" (VStr str) Hd) Hd) in H.
      injection H as <-. split; [reflexivity|]. eauto.
    + destruct (Hreturns d) as [d' Hd']; [intros str; rewrite Hd; discriminate|].
      rewrite Hd' in H. discriminate.
  - intros d str -> Hd.
    exact (validate_player_data_string_avg d str
             (lookup_size_nonzero d "batting_avg" (VStr str) Hd) Hd).
  - intros Hno. destruct input as [d|]; [|eexists; reflexivity].
    apply Hreturns. intros str. exact (Hno d str eq_refl).
Qed.

(** ** The further properties at concrete inputs *)

(** X1 at the fixture of the test suite. *)
Lemma validated_averages_are_positive_witness :
  Forall positive_avg
    [CNum (F64.decimal 285 1000); CNum league_average; CNum league_average;
     CNum league_average].
Proof.
  apply (proj1 (validated_averages_are_positive offline_env (Some sample_data) None
                  Validator_new Validator_new sample_data_validated ltac:(vm_compute; reflexivity)
                  "batting_avg"%string _ eq_refl eq_refl)).
Defined.

(** X2 at the fixture: the 0.285 of the first row stays. *)
Lemma validation_keeps_unmasked_cells_witness :
  exists s', get_col "batting_avg" sample_data_validated = Some s'
    /\ length s' = length sample_averages
    /\ forall i f, sample_averages !! i = Some (CNum f) ->
         F64.ltb F64.zero f = true -> F64.leb f F64.one = true ->
         s' !! i = Some (CNum f).
Proof.
  apply (validation_keeps_unmasked_cells offline_env sample_data sample_data_validated None
           Validator_new Validator_new ltac:(vm_compute; reflexivity) eq_refl "batting_avg"%string
           sample_averages eq_refl).
Defined.

(** X3 at the fixture: the validated table is validated again with an
    identifier, a cached entry and a provider that raises. *)
Lemma validate_batting_averages_idempotent_witness :
  validate_batting_averages failing_env (Some sample_data_validated) (Some "p1"%string)
    cached_validator
  = (Ok sample_data_validated, cached_validator).
Proof.
  apply (validate_batting_averages_idempotent offline_env (Some sample_data) None
           Validator_new Validator_new sample_data_validated ltac:(vm_compute; reflexivity)).
Defined.

(** X4 at the fixture: the previous average of [p1] survives a validation
    for [p1]. *)
Lemma validation_writes_only_season_key_witness :
  cache (snd (validate_batting_averages offline_env (Some sample_data) (Some "p1"%string)
                cached_validator)) !! "p1"%string
  = cache cached_validator !! "p1"%string.
Proof.
  apply (validation_writes_only_season_key offline_env (Some sample_data)
           (Some "p1"%string) cached_validator "p1"%string).
  intros p H. injection H as <-. discriminate.
Defined.

(** X5 at the fixture, with a provider that raises. *)
Lemma validation_without_identifier_is_pure_witness :
  snd (validate_batting_averages failing_env (Some sample_data) None cached_validator)
  = cached_validator.
Proof.
  apply (proj1 (validation_without_identifier_is_pure failing_env (Some sample_data) None
                  cached_validator eq_refl)).
Defined.

(** X6 with 0.3 for a new player. *)
Lemma cache_player_average_stores_accepted_witness :
  exists v',
    cache_player_average offline_env (Some "p2"%string) (Some (F64.decimal 3 10))
      cached_validator = (Ok tt, v')
    /\ cache v' !! "p2"%string = Some (PreviousAvg (F64.decimal 3 10) 0)
    /\ size (cache v') = 2%nat.
Proof.
  destruct (proj1 (cache_player_average_stores_accepted offline_env (Some "p2"%string)
                     (Some (F64.decimal 3 10)) cached_validator)
              "p2"%string (F64.decimal 3 10) eq_refl eq_refl
              ltac:(vm_compute; reflexivity))
    as (v' & Hrun & Hp & _ & _ & Hsize).
  exists v'. split; [exact Hrun|]. split; [exact Hp|].
  rewrite Hsize. vm_compute. reflexivity.
Defined.

(** X7 on a validator with a live entry. *)
Lemma clear_cache_forgets_everything_witness :
  exists v1,
    clear_cache cached_validator = (Ok tt, v1)
    /\ size (cache v1) = 0%nat
    /\ exists r v2,
         _apply_batting_average_fallback offline_env sample_averages (Some "p1"%string)
           "batting_avg" v1 = (Ok r, v2)
         /\ r = fill_invalid league_average sample_averages.
Proof.
  destruct (clear_cache_forgets_everything offline_env cached_validator (Some "p1"%string)
              sample_averages "batting_avg")
    as (v1 & Hrun & Hsize & _ & _ & _ & Hfill).
  - intros p a b. exact I.
  - repeat constructor; discriminate.
  - exists v1. split; [exact Hrun|]. split; [exact Hsize | exact Hfill].
Defined.

(** X8 on a validator with one entry, before and after a second player is
    cached. *)
Lemma validation_stats_count_entries_witness :
  exists st st' v1 v2,
    get_validation_stats offline_env cached_validator = (Ok st, tick cached_validator)
    /\ Stats.cache_size st = 1%nat
    /\ cache_player_average offline_env (Some "p2"%string) (Some (F64.decimal 3 10))
         cached_validator = (Ok tt, v1)
    /\ get_validation_stats offline_env v1 = (Ok st', v2)
    /\ Stats.cache_size st' = 2%nat.
Proof.
  destruct (validation_stats_count_entries offline_env cached_validator (Some "p2"%string)
              "p2"%string (F64.decimal 3 10) eq_refl ltac:(vm_compute; reflexivity))
    as (st & st' & v1 & v2 & Hst & Hsize & _ & _ & Hrun & Hst' & _ & Hsize').
  exists st, st', v1, v2. split; [exact Hst|].
  assert (H1 : Stats.cache_size st = 1%nat) by (rewrite Hsize; vm_compute; reflexivity).
  split; [exact H1|]. split; [exact Hrun|]. split; [exact Hst'|].
  rewrite Hsize', H1. vm_compute. reflexivity.
Defined.

(** X9 with a season average of 0.3 in the cache. *)
Lemma season_average_is_served_from_cache_witness :
  exists t,
    cache (snd (_get_player_season_average hour_later_env "p1" season_validator))
      !! season_key "p1"
    = Some (SeasonAvg (F64.decimal 3 10) t)
    /\ forall env2 v2,
         cache v2 !! season_key "p1" = Some (SeasonAvg (F64.decimal 3 10) t) ->
         clock env2 (clock_reads v2) - t < cache_duration env2 ->
         _get_player_season_average env2 "p1" v2 = (Ok (Some (F64.decimal 3 10)), tick v2).
Proof.
  apply (season_average_is_served_from_cache hour_later_env "p1" season_validator
           (F64.decimal 3 10)).
  vm_compute. reflexivity.
Defined.

(** X10 with a provider that returns a table of teams. *)
Lemma season_table_without_events_is_ignored_witness :
  _get_player_season_average eventless_env "p1" Validator_new
  = (Ok None, tick (tick Validator_new))
  /\ _apply_season_average_fallback eventless_env sample_averages (Some "p1"%string)
       Validator_new
     = (Ok sample_averages, tick (tick Validator_new)).
Proof.
  apply (season_table_without_events_is_ignored eventless_env "p1" Validator_new
           teams_table sample_averages).
  - reflexivity.
  - reflexivity.
  - reflexivity.
  - reflexivity.
  - discriminate.
  - repeat constructor; discriminate.
Defined.

(** X11 with 0.3 cached under [season_avg_p1]. *)
Lemma previous_average_under_season_key_witness :
  exists v1,
    cache_player_average offline_env (Some (season_key "p1")) (Some (F64.decimal 3 10))
      Validator_new = (Ok tt, v1)
    /\ _get_player_season_average offline_env "p1" v1 = (Raise KeyError, tick v1)
    /\ fst (_apply_season_average_fallback offline_env sample_averages (Some "p1"%string) v1)
       = Ok sample_averages.
Proof.
  apply (previous_average_under_season_key offline_env "p1" (F64.decimal 3 10)
           Validator_new sample_averages).
  - vm_compute. reflexivity.
  - vm_compute. reflexivity.
  - repeat constructor; discriminate.
Defined.

(** X12 with a live season average of 0.3: the null, the zero and the 1.5
    of the fixture become 0.3. *)
Lemma season_average_fills_masked_cells_witness :
  exists r v',
    _apply_batting_average_fallback hour_later_env sample_averages (Some "p1"%string)
      "batting_avg" season_validator = (Ok r, v')
    /\ r = fill_invalid (F64.decimal 3 10) sample_averages.
Proof.
  destruct (season_average_fills_masked_cells hour_later_env season_validator
              (Some "p1"%string) "p1" (F64.decimal 3 10) sample_averages "batting_avg")
    as (r & v' & Hrun & _ & Hfill & _).
  - reflexivity.
  - intros p a t H Hc. injection H as <-. vm_compute in Hc. discriminate.
  - repeat constructor; discriminate.
  - left. exists 1. split; [vm_compute; reflexivity|].
    intros k. vm_compute. reflexivity.
  - exists r, v'. split; [exact Hrun|].
    apply Hfill; vm_compute; reflexivity.
Defined.

(** X13 at the complete record of the test suite. *)
Lemma validate_player_data_keeps_fields_witness :
  exists d',
    validate_player_data (Some high_quality_record) = Ok d'
    /\ d' !! "team"%string = Some (VStr "Angels").
Proof.
  assert (Hs : Nat.eqb (size high_quality_record) 0 = false) by (vm_compute; reflexivity).
  assert (Hstr : forall str, high_quality_record !! "batting_avg"%string <> Some (VStr str))
    by (intros str; vm_compute; discriminate).
  eexists. split; [exact (validate_player_data_run high_quality_record Hs Hstr)|].
  apply (proj1 (validate_player_data_keeps_fields high_quality_record _ Hs
                  (validate_player_data_run high_quality_record Hs Hstr))
           "team"%string (VStr "Angels")).
  - vm_compute. reflexivity.
  - discriminate.
  - discriminate.
  - discriminate.
Defined.

(** X14 at the complete record of the test suite. *)
Lemma validate_player_data_idempotent_witness :
  exists d',
    validate_player_data (Some high_quality_record) = Ok d'
    /\ validate_player_data (Some d') = Ok d'.
Proof.
  assert (Hs : Nat.eqb (size high_quality_record) 0 = false) by (vm_compute; reflexivity).
  assert (Hstr : forall str, high_quality_record !! "batting_avg"%string <> Some (VStr str))
    by (intros str; vm_compute; discriminate).
  eexists. split; [exact (validate_player_data_run high_quality_record Hs Hstr)|].
  apply (validate_player_data_idempotent (Some high_quality_record) _
           (validate_player_data_run high_quality_record Hs Hstr)).
Defined.

(** X15 at an average column with a string in its second row. *)
Lemma validation_refuses_strings_only_witness :
  exists v',
    validate_batting_averages offline_env (Some string_avg_table) None Validator_new
    = (Raise TypeError, v').
Proof.
  apply (proj1 (validation_refuses_strings_only offline_env string_avg_table None
                  Validator_new eq_refl ltac:(distinct_labels_tac) ltac:(discriminate))).
  exists "batting_avg"%string, [CNum (F64.decimal 285 1000); CStr "n/a"].
  split; [reflexivity|]. split; [reflexivity|].
  exists 1%nat, "n/a"%string. reflexivity.
Defined.

(** X16 at four plate appearances: two of player A, one of player B, one
    without a name. *)
Lemma events_average_per_player_witness :
  exists derived,
    _calculate_avg_from_events events_table = Ok derived
    /\ length derived = 4%nat
    /\ _calculate_batting_average events_table
       = Ok (set_col "calculated_avg" derived events_table)
    /\ player_rows (CStr "A") event_names = 2%nat
    /\ player_hits (CStr "A") event_names event_outcomes = 1%nat.
Proof.
  destruct (proj1 (events_average_per_player events_table event_outcomes event_names
                     ltac:(distinct_labels_tac) eq_refl eq_refl))
    as (derived & Hrun & Hlen & _ & Hcol).
  - exists 0%nat, (CStr "A"). split; reflexivity.
  - exists derived. split; [exact Hrun|]. split; [exact Hlen|].
    split; [apply Hcol; left; reflexivity|]. split; reflexivity.
Defined.

(** X17 at a table of teams. *)
Lemma table_without_sources_gets_league_average_witness :
  exists res,
    validate_batting_averages failing_env (Some teams_table) (Some "p1"%string)
      cached_validator = (Ok res, cached_validator)
    /\ get_col "calculated_avg" res = Some [CNum league_average; CNum league_average].
Proof.
  destruct (table_without_sources_gets_league_average failing_env teams_table
              (Some "p1"%string) cached_validator eq_refl eq_refl
              (or_introl eq_refl) eq_refl)
    as (res & Hrun & Hcol & _).
  exists res. split; [exact Hrun | exact Hcol].
Defined.

(** X18 at the fixture of the test suite. *)
Lemma validation_preserves_shape_witness : well_formed sample_data_validated.
Proof.
  apply (validation_preserves_shape offline_env (Some sample_data) None Validator_new
           Validator_new sample_data_validated).
  - intros d H. injection H as <-. intros c s.
    unfold get_col, sample_data. cbn [columns assoc_get].
    repeat (destruct (String.eqb _ c); [intros [= <-]; reflexivity|]).
    discriminate.
  - vm_compute. reflexivity.
Defined.

(** X19 at the record whose average is the string [.285]. *)
Lemma validate_player_data_refuses_string_average_witness :
  validate_player_data (Some string_avg_record) = Raise TypeError.
Proof.
  apply (proj1 (proj2 (validate_player_data_refuses_string_average
                         (Some string_avg_record)))
           string_avg_record ".285"%string eq_refl).
  vm_compute. reflexivity.
Defined.
